(** * Windows development environment setup scripts

    A shallow embedding of the three command-line scripts of the repository
    (the orchestrator [setup_environment.py], the capability prober
    [test_cuda.py] and the installation verifier [verify.py]) and the
    properties of their control flow.

    The scripts are glue code over external processes.  Everything outside
    the scripts (the operating system, the file system, the external
    commands, the deep-learning framework, the operator at the keyboard) is
    gathered in a record [World] of oracles.  An oracle is asked at the
    history of the run so far, so that the same command may answer
    differently the second time it is run.  A script function is a
    computation that reads the history and appends to it the events it
    causes: the lines it prints, the commands it runs, the questions it asks.

    Strings are sequences of bytes, the UTF-8 encoding of the text; case
    mapping, white space and line boundaries are those of ASCII.  On text of
    ASCII characters they are the ones of Python; a statement that depends
    on them for a text the scripts read (an answer of the operator, the
    output of a command) is made for ASCII text, see [Py.isascii]. *)

From Stdlib Require Import String Ascii List ZArith Bool Arith Lia Permutation.
From Stdlib Require Import Setoid Morphisms.
From Stdlib Require DecimalString.
Import ListNotations.
Open Scope string_scope.

Set Implicit Arguments.

(* ================================================================= *)
(** ** Python string operations used by the scripts *)

Module Py.

Definition chr (n : nat) : string := String (ascii_of_nat n) EmptyString.

(** The newline, the escape character and the double quote. *)
Definition nl : string := chr 10.
Definition esc : string := chr 27.
Definition dq : string := chr 34.

(** [sub in s] *)
Fixpoint contains (sub s : string) : bool :=
  if String.prefix sub s then true
  else match s with
       | EmptyString => false
       | String _ s' => contains sub s'
       end.

(** [s.startswith(p)] *)
Definition startswith (s p : string) : bool := String.prefix p s.

Definition rev_string (l : list ascii) : string :=
  string_of_list_ascii (rev l).

(** [s.split(sep)] for a non-empty separator: the pieces between the
    occurrences of [sep], found from the left and not overlapping.  [skip]
    counts the characters of a separator that are still to be passed, [cur]
    holds the current piece backwards. *)
Fixpoint split_go (sep : string) (skip : nat) (cur : list ascii) (s : string)
  : list string :=
  match s with
  | EmptyString => [rev_string cur]
  | String c s' =>
      match skip with
      | S k => split_go sep k cur s'
      | O =>
          if String.prefix sep s
          then rev_string cur :: split_go sep (String.length sep - 1) [] s'
          else split_go sep 0 (c :: cur) s'
      end
  end.

Definition split (s sep : string) : list string := split_go sep 0 [] s.

(** White space of [str.isspace] among the ASCII characters: tab, line
    feed, vertical tab, form feed, carriage return, the four separators
    0x1c to 0x1f and the space. *)
Definition isspace (c : ascii) : bool :=
  let n := nat_of_ascii c in
  (((9 <=? n) && (n <=? 13)) || ((28 <=? n) && (n <=? 32)))%nat.

Fixpoint lstrip (s : string) : string :=
  match s with
  | EmptyString => EmptyString
  | String c s' => if isspace c then lstrip s' else s
  end.

Fixpoint drop_spaces (l : list ascii) : list ascii :=
  match l with
  | [] => []
  | c :: l' => if isspace c then drop_spaces l' else l
  end.

Definition rstrip (s : string) : string :=
  rev_string (drop_spaces (rev (list_ascii_of_string s))).

(** [s.strip()] *)
Definition strip (s : string) : string := rstrip (lstrip s).

(** [s.split()]: the maximal runs of characters that are not white
    space. *)
Fixpoint words_go (cur : list ascii) (s : string) : list string :=
  match s with
  | EmptyString =>
      match cur with [] => [] | _ => [rev_string cur] end
  | String c s' =>
      if isspace c
      then match cur with
           | [] => words_go [] s'
           | _ => rev_string cur :: words_go [] s'
           end
      else words_go (c :: cur) s'
  end.

Definition words (s : string) : list string := words_go [] s.

(** Line boundaries of [str.splitlines] among the ASCII characters. *)
Definition islinebreak (c : ascii) : bool :=
  let n := nat_of_ascii c in
  (((10 <=? n) && (n <=? 13)) || ((28 <=? n) && (n <=? 30)))%nat.

(** [s.splitlines()]: a carriage return followed by a line feed is one
    boundary, and a boundary at the very end opens no further line.
    [cr] tells that the previous character was a carriage return. *)
Fixpoint splitlines_go (cr : bool) (cur : list ascii) (s : string)
  : list string :=
  match s with
  | EmptyString =>
      match cur with [] => [] | _ => [rev_string cur] end
  | String c s' =>
      if cr && (nat_of_ascii c =? 10)%nat then splitlines_go false cur s'
      else if islinebreak c
           then rev_string cur :: splitlines_go (nat_of_ascii c =? 13)%nat [] s'
           else splitlines_go false (c :: cur) s'
  end.

Definition splitlines (s : string) : list string := splitlines_go false [] s.

Definition lower_ascii (c : ascii) : ascii :=
  let n := nat_of_ascii c in
  if ((65 <=? n) && (n <=? 90))%nat then ascii_of_nat (n + 32) else c.

Definition upper_ascii (c : ascii) : ascii :=
  let n := nat_of_ascii c in
  if ((97 <=? n) && (n <=? 122))%nat then ascii_of_nat (n - 32) else c.

Fixpoint map_string (f : ascii -> ascii) (s : string) : string :=
  match s with
  | EmptyString => EmptyString
  | String c s' => String (f c) (map_string f s')
  end.

(** [s.lower()] and [s.upper()] *)
Definition lower : string -> string := map_string lower_ascii.
Definition upper : string -> string := map_string upper_ascii.

(** ["x" * n] *)
Fixpoint repeat_string (s : string) (n : nat) : string :=
  match n with
  | O => EmptyString
  | S k => s ++ repeat_string s k
  end.

(** [s.isascii()]: every character is below 128.  On such text [strip],
    [words], [splitlines], [lower] and [upper] above are [str.strip],
    [str.split], [str.splitlines], [str.lower] and [str.upper]; on other
    text Python also knows white space, line boundaries and letters outside
    ASCII (the long s U+017F has S as its capital). *)
Fixpoint isascii (s : string) : bool :=
  match s with
  | EmptyString => true
  | String c s' => (nat_of_ascii c <? 128)%nat && isascii s'
  end.

End Py.


(* ================================================================= *)
(** ** The world outside the scripts *)

(** An external command: an argument vector given to [subprocess.run], or a
    command line given to it with [shell=True]. *)
Inductive Command : Type :=
| Argv (argv : list string)
| ShellCmd (cmd : string).

(** What a run leaves behind, in the order it happened. *)
Inductive Event : Type :=
| Printed (line : string)               (* print(line) *)
| PrintedHelp                           (* parser.print_help() *)
| Ran (c : Command)                     (* subprocess.run *)
| Asked (prompt answer : string)        (* input(prompt), answered *)
| AskedEOF (prompt : string)            (* input(prompt) at the end of input *)
| MadeDirs (path : string)              (* os.makedirs(path, exist_ok=True) *)
| Wrote (path content : string)         (* open(path, 'w') and f.write *)
| Imported (module : string).           (* import of a module *)

Definition History : Type := list Event.

(** The result of [subprocess.run]: a finished process, or an exception
    raised by the call itself (the program was not found, the output could
    not be decoded). *)
Inductive Completed : Type :=
| completed (stdout stderr : string) (returncode : Z)
| raised (msg : string).

(** The result of a call into the world that may raise an exception. *)
Inductive Ext (A : Type) : Type :=
| Ok (a : A)
| Throws (msg : string).
Arguments Throws {A} msg.

(** The result of importing a module. *)
Inductive ImportOutcome : Type :=
| ImportOk
| ImportFails (msg : string)            (* ImportError *)
| ImportThrows (msg : string).          (* another exception *)

(** The timing comparison of the prober, as it is printed: the two times with
    four decimals, their ratio with two, and whether the ratio exceeds 1. *)
Record Benchmark : Type := {
  cuda_time : string;
  cpu_time : string;
  speedup : string;
  speedup_gt_1 : bool
}.

Record World : Type := {
  (* platform *)
  platform_system : string;
  platform_release : string;
  platform_version : string;
  platform_machine : string;
  platform_processor : string;
  (* ctypes.windll.shell32.IsUserAnAdmin(); None when the call raises *)
  IsUserAnAdmin : option Z;
  (* the lines the operator types *)
  stdin : list string;
  (* os *)
  environ : string -> option string;
  os_pathsep : string;
  os_path_join : string -> string -> string;
  os_path_basename : string -> string;
  os_path_exists : History -> string -> bool;
  os_makedirs : History -> string -> Ext unit;
  write_file : History -> string -> string -> Ext unit;
  glob : History -> string -> Ext (list string);
  (* str(Path(__file__).parent / name) *)
  beside_script : string -> string;
  sys_executable : string;
  (* subprocess *)
  subprocess_run : History -> Command -> Completed;
  str_CalledProcessError : list string -> Z -> string;
  (* importlib *)
  find_spec : History -> string -> bool;
  import_module : History -> string -> ImportOutcome;
  module_version : string -> option string;
  (* torch *)
  torch_version : string;
  torch_version_cuda : string;
  torch_cuda_is_available : History -> Ext bool;
  torch_cuda_device_names : History -> Ext (list string);
  torch_benchmark : History -> Ext Benchmark
}.

(* ================================================================= *)
(** ** Computations *)

Inductive Exn : Type :=
| IndexError
| EOFError
| RecursionError
| ImportError (msg : string)
| CalledProcessError (argv : list string) (returncode : Z)
| OtherException (msg : string).

(** How a function ends: it returns, it raises, or it calls [sys.exit]. *)
Inductive Res (A : Type) : Type :=
| Ret (a : A)
| Raise (e : Exn)
| SysExit (code : Z).
Arguments Raise {A} e.
Arguments SysExit {A} code.

(** A computation is run at the history so far and gives its result and the
    events it adds. *)
Definition M (A : Type) : Type := History -> Res A * History.

Definition ret {A} (a : A) : M A := fun _ => (Ret a, []).

Definition bind {A B} (m : M A) (k : A -> M B) : M B :=
  fun h =>
    match m h with
    | (Ret a, t) => let (r, t') := k a (h ++ t)%list in (r, (t ++ t')%list)
    | (Raise e, t) => (Raise e, t)
    | (SysExit c, t) => (SysExit c, t)
    end.

Definition raise {A} (e : Exn) : M A := fun _ => (Raise e, []).
Definition sys_exit {A} (code : Z) : M A := fun _ => (SysExit code, []).
Definition emit (e : Event) : M unit := fun _ => (Ret tt, [e]).
Definition ask {A} (f : History -> A) : M A := fun h => (Ret (f h), []).

(** [try: m except Exception as e: handler e].  [sys.exit] is not caught. *)
Definition try_except {A} (m : M A) (handler : Exn -> M A) : M A :=
  fun h =>
    match m h with
    | (Raise e, t) => let (r, t') := handler e (h ++ t)%list in (r, (t ++ t')%list)
    | other => other
    end.

(** Two computations are the same when they do the same at every history. *)
Definition meq {A} (m m' : M A) : Prop := forall h, m h = m' h.
Infix "=~" := meq (at level 70, no associativity).

Declare Scope py_scope.
Delimit Scope py_scope with py.
Notation "x <- m ;; k" := (bind m (fun x => k))
  (at level 61, m at next level, right associativity) : py_scope.
Notation "m ;; k" := (bind m (fun _ => k))
  (at level 61, right associativity) : py_scope.
Notation "' pat <- m ;; k" :=
  (bind m (fun x => match x with pat => k end))
  (at level 61, pat pattern, m at next level, right associativity) : py_scope.
Open Scope py_scope.

Definition when_ (b : bool) (m : M unit) : M unit :=
  if b then m else ret tt.

Definition of_ext {A} (x : Ext A) : M A :=
  match x with
  | Ok a => ret a
  | Throws msg => raise (OtherException msg)
  end.

(** How a process ends, and its exit status: an exception that nobody
    caught ends the interpreter with status 1. *)
Inductive Termination : Type :=
| Exited (code : Z)
| Crashed (e : Exn).

Definition exit_status (t : Termination) : Z :=
  match t with
  | Exited c => c
  | Crashed _ => 1%Z
  end.

(** The end of a script run as a program: a script that runs to its last
    line ends with status 0. *)
Definition terminate (r : Res unit) : Termination :=
  match r with
  | Ret _ => Exited 0%Z
  | Raise e => Crashed e
  | SysExit c => Exited c
  end.

(** A script run from the empty history. *)
Definition run_script (script : M unit) : Termination * History :=
  let (r, t) := script [] in (terminate r, t).

(** Python's truth value of a string or [None]. *)
Definition truthy (o : option string) : bool :=
  match o with
  | Some s => negb (s =? "")
  | None => false
  end.

(** [o if o is not None else d], as in [os.environ.get(name, d)]. *)
Definition default {A} (d : A) (o : option A) : A :=
  match o with
  | Some a => a
  | None => d
  end.

Definition nat_to_string (n : nat) : string :=
  DecimalString.NilEmpty.string_of_uint (Nat.to_uint n).

(** [x[i]] on a list. *)
Definition index {A} (l : list A) (i : nat) : M A :=
  match nth_error l i with
  | Some x => ret x
  | None => raise IndexError
  end.

Section Common.

Variable w : World.

Definition print (line : string) : M unit := emit (Printed line).

Definition count_asked (h : History) : nat :=
  length (filter (fun e => match e with Asked _ _ => true | _ => false end) h).

(** [input(prompt)]: the next line the operator types, [EOFError] when there
    is none left. *)
Definition input (prompt : string) : M string :=
  fun h =>
    match nth_error (stdin w) (count_asked h) with
    | Some answer => (Ret answer, [Asked prompt answer])
    | None => (Raise EOFError, [AskedEOF prompt])
    end.

Definition run (c : Command) : M Completed :=
  fun h => (Ret (subprocess_run w h c), [Ran c]).

(** [is_admin], the same in the three scripts. *)
Definition is_admin : bool :=
  match IsUserAnAdmin w with
  | Some n => negb (n =? 0)%Z
  | None => false
  end.

(** [run_command], the same in the prober and in the verifier. *)
Definition run_command (command : string) : M (string * string * Z) :=
  r <- run (ShellCmd command) ;;
  match r with
  | completed out err rc => ret (Py.strip out, Py.strip err, rc)
  | raised msg => ret ("", msg, (-1)%Z)
  end.

End Common.

(** The checks of a list run one after the other, whatever the earlier ones
    returned, and the results they returned. *)
Fixpoint run_in_order (cs : list (M bool)) : M (list bool) :=
  match cs with
  | [] => ret []
  | c :: rest =>
      b <- c ;;
      bs <- run_in_order rest ;;
      ret (b :: bs)
  end.

(** The logical AND of the results. *)
Definition all_true (results : list bool) : bool := forallb (fun b => b) results.

(** The end of a script whose checks ended as [r]: status 0 when all of them
    returned true, status 1 when one returned false; a check that raised
    ends the script with its exception. *)
Definition end_of_checks (r : Res (list bool)) : Res unit :=
  match r with
  | Ret results => SysExit (if all_true results then 0 else 1)%Z
  | Raise e => Raise e
  | SysExit c => SysExit c
  end.

(** The checks all returned, and returned true. *)
Definition passed (r : Res (list bool)) : bool :=
  match r with
  | Ret results => all_true results
  | _ => false
  end.

(** A computation that never calls [sys.exit]. *)
Definition no_exit {A} (m : M A) : Prop :=
  forall h c, fst (m h) <> SysExit c.

(** The colours of the console. *)
Module Colors.
Definition SUCCESS : string := Py.esc ++ "[92m".
Definition WARNING : string := Py.esc ++ "[93m".
Definition ERROR : string := Py.esc ++ "[91m".
Definition INFO : string := Py.esc ++ "[94m".
Definition BOLD : string := Py.esc ++ "[1m".
Definition RESET : string := Py.esc ++ "[0m".
End Colors.

Definition rule (c : string) : string := Py.repeat_string c 80.


(** The status of a logged line.  The scripts pass it as one of these five
    strings. *)
Inductive Status : Type := Success | Warning | Error | Info | Title.

Definition status_name (st : Status) : string :=
  match st with
  | Success => "SUCCESS"
  | Warning => "WARNING"
  | Error => "ERROR"
  | Info => "INFO"
  | Title => "TITLE"
  end.

(** The line [log] prints: [f"{status_color}[{status}]{Colors.RESET} {message}"]. *)
Definition log_line (color : string) (st : Status) (message : string) : string :=
  color ++ "[" ++ status_name st ++ "]" ++ Colors.RESET ++ " " ++ message.

(** The colour table of the prober and of the verifier; a status that is
    not in the table gets the colour of INFO. *)
Definition status_color (st : Status) : string :=
  match st with
  | Success => Colors.SUCCESS
  | Warning => Colors.WARNING
  | Error => Colors.ERROR
  | Info => Colors.INFO
  | Title => Colors.INFO
  end.

Definition log (message : string) (st : Status) : M unit :=
  print (log_line (status_color st) st message).

(** [str(e)] *)
Definition str_exn (w : World) (e : Exn) : string :=
  match e with
  | IndexError => "list index out of range"
  | EOFError => "EOF when reading a line"
  | RecursionError => "maximum recursion depth exceeded"
  | ImportError msg => msg
  | CalledProcessError argv rc => str_CalledProcessError w argv rc
  | OtherException msg => msg
  end.

(* ================================================================= *)
(** ** The capability prober, [test_cuda.py] *)

Module TestCuda.

Module Args.
Record t : Type := {
  driver : bool;
  nvcc : bool;
  pytorch : bool;
  compile : bool;
  all : bool
}.
End Args.

(** The source text of the compute kernel that [generate_cuda_program]
    writes. *)
Definition cuda_code_lines : list string :=
  let dq := Py.dq in
  ["#include <cstddef>";
   "#include <stdio.h>";
   "";
   "__global__ void vectorAdd(const float *A, const float *B, float *C, int numElements)";
   "{";
   "    int i = blockDim.x * blockIdx.x + threadIdx.x;";
   "    if (i < numElements)";
   "    {";
   "        C[i] = A[i] + B[i];";
   "    }";
   "}";
   "";
   "int main(void)";
   "{";
   "    // Print the vector length to be used, and compute its size";
   "    int numElements = 50000;";
   "    size_t size = numElements * sizeof(float);";
   "    printf(" ++ dq ++ "[Vector addition of %d elements]\n" ++ dq ++ ", numElements);";
   "";
   "    // Allocate the host vectors";
   "    float *h_A = (float *" ++ ")malloc(size);";
   "    float *h_B = (float *" ++ ")malloc(size);";
   "    float *h_C = (float *" ++ ")malloc(size);";
   "";
   "    // Initialize the host vectors";
   "    for (int i = 0; i < numElements; ++i)";
   "    {";
   "        h_A[i] = rand()/(float)RAND_MAX;";
   "        h_B[i] = rand()/(float)RAND_MAX;";
   "    }";
   "";
   "    // Allocate the device vectors";
   "    float *d_A = NULL;";
   "    float *d_B = NULL;";
   "    float *d_C = NULL;";
   "    cudaMalloc((void **" ++ ")&d_A, size);";
   "    cudaMalloc((void **" ++ ")&d_B, size);";
   "    cudaMalloc((void **" ++ ")&d_C, size);";
   "";
   "    // Copy the host vectors to device";
   "    cudaMemcpy(d_A, h_A, size, cudaMemcpyHostToDevice);";
   "    cudaMemcpy(d_B, h_B, size, cudaMemcpyHostToDevice);";
   "";
   "    // Launch the Vector Add CUDA Kernel";
   "    int threadsPerBlock = 256;";
   "    int blocksPerGrid = (numElements + threadsPerBlock - 1) / threadsPerBlock;";
   "    printf(" ++ dq ++ "CUDA kernel launch with %d blocks of %d threads\n" ++ dq ++ ", blocksPerGrid, threadsPerBlock);";
   "    ";
   "    vectorAdd<<<blocksPerGrid, threadsPerBlock>>>(d_A, d_B, d_C, numElements);";
   "    ";
   "    // Check for errors";
   "    cudaError_t err = cudaGetLastError();";
   "    if (err != cudaSuccess) {";
   "        fprintf(stderr, " ++ dq ++ "Failed to launch vectorAdd kernel (error code %s)!\n" ++ dq ++ ", cudaGetErrorString(err));";
   "        exit(EXIT_FAILURE);";
   "    }";
   "";
   "    // Copy the device result vector to host";
   "    cudaMemcpy(h_C, d_C, size, cudaMemcpyDeviceToHost);";
   "";
   "    // Verify that the result vector is correct";
   "    for (int i = 0; i < numElements; ++i)";
   "    {";
   "        if (fabs(h_A[i] + h_B[i] - h_C[i]) > 1e-5)";
   "        {";
   "            fprintf(stderr, " ++ dq ++ "Result verification failed at element %d!\n" ++ dq ++ ", i);";
   "            exit(EXIT_FAILURE);";
   "        }";
   "    }";
   "    ";
   "    printf(" ++ dq ++ "Test PASSED\n" ++ dq ++ ");";
   "";
   "    // Free device global memory";
   "    cudaFree(d_A);";
   "    cudaFree(d_B);";
   "    cudaFree(d_C);";
   "";
   "    // Free host memory";
   "    free(h_A);";
   "    free(h_B);";
   "    free(h_C);";
   "    ";
   "    printf(" ++ dq ++ "Done\n" ++ dq ++ ");";
   "    return 0;";
   "}"].

Definition cuda_code : string :=
  String.concat Py.nl ([""] ++ cuda_code_lines ++ [""])%list.

(** The four checks of the prober, in the order of [main]. *)
Inductive Check : Type := Driver | Nvcc | Pytorch | Compile.

(** A check is selected by its own flag or by [--all]; with no flag at all,
    [main] sets [all]. *)
Definition is_selected (args : Args.t) (c : Check) : bool :=
  let all := if negb (Args.driver args || Args.nvcc args || Args.pytorch args ||
                      Args.compile args || Args.all args)
             then true else Args.all args in
  match c with
  | Driver => Args.driver args || all
  | Nvcc => Args.nvcc args || all
  | Pytorch => Args.pytorch args || all
  | Compile => Args.compile args || all
  end.

Definition selected (args : Args.t) : list Check :=
  filter (is_selected args) [Driver; Nvcc; Pytorch; Compile].

Section Prober.

Variable w : World.

(** [line.split(':')[1].strip()] *)
Definition field_after_colon (line : string) : M string :=
  x <- index (Py.split line ":") 1 ;;
  ret (Py.strip x).

(** The loop of [check_cuda_driver] over the lines of the output. *)
Fixpoint scan_driver_lines (lines : list string)
  (driver_version cuda_version gpu_name : option string)
  : M (option string * option string * option string) :=
  match lines with
  | [] => ret (driver_version, cuda_version, gpu_name)
  | line :: rest =>
      driver_version <-
        (if Py.contains "Driver Version" line
         then x <- field_after_colon line ;; ret (Some x)
         else ret driver_version) ;;
      cuda_version <-
        (if Py.contains "CUDA Version" line
         then x <- field_after_colon line ;; ret (Some x)
         else ret cuda_version) ;;
      let gpu_name :=
        if Py.contains "NVIDIA" line &&
           (Py.contains "RTX" line || Py.contains "GTX" line ||
            Py.contains "Quadro" line || Py.contains "Tesla" line)
        then Some (Py.strip line)
        else gpu_name in
      scan_driver_lines rest driver_version cuda_version gpu_name
  end.

Definition check_cuda_driver : M bool :=
  log "Verificando controlador NVIDIA..." Info ;;
  '(stdout, stderr, returncode) <- run_command w "nvidia-smi" ;;
  if negb (returncode =? 0)%Z then
    log "❌ No se pudo ejecutar nvidia-smi. El controlador NVIDIA puede no estar instalado correctamente." Error ;;
    log ("Error: " ++ stderr) Error ;;
    ret false
  else
    '(driver_version, cuda_version, gpu_name) <-
      scan_driver_lines (Py.split stdout Py.nl) None None None ;;
    when_ (truthy driver_version)
      (log ("✅ Controlador NVIDIA: " ++ default "" driver_version) Success) ;;
    when_ (truthy cuda_version)
      (log ("✅ Versión CUDA (controlador): " ++ default "" cuda_version) Success) ;;
    when_ (truthy gpu_name)
      (log ("✅ GPU detectada: " ++ default "" gpu_name) Success) ;;
    log ("Salida completa de nvidia-smi:" ++ Py.nl ++ stdout) Info ;;
    ret true.

Definition check_nvcc : M bool :=
  log "Verificando compilador CUDA (nvcc)..." Info ;;
  '(stdout, stderr, returncode) <- run_command w "nvcc --version" ;;
  if negb (returncode =? 0)%Z then
    log "❌ No se pudo ejecutar nvcc. El toolkit CUDA puede no estar instalado correctamente." Error ;;
    log ("Error: " ++ stderr) Error ;;
    ret false
  else
    log ("✅ " ++ stdout) Success ;;
    ret true.

(** [import torch] *)
Definition import_torch : M unit :=
  r <- ask (fun h => import_module w h "torch") ;;
  emit (Imported "torch") ;;
  match r with
  | ImportOk => ret tt
  | ImportFails msg => raise (ImportError msg)
  | ImportThrows msg => raise (OtherException msg)
  end.

(** The loop over the devices, from device [i] on. *)
Fixpoint log_devices (i : nat) (names : list string) : M unit :=
  match names with
  | [] => ret tt
  | name :: rest =>
      log ("   - Dispositivo " ++ nat_to_string i ++ ": " ++ name) Info ;;
      log_devices (S i) rest
  end.

Definition test_pytorch_cuda : M bool :=
  log "Verificando PyTorch con CUDA..." Info ;;
  try_except
    (import_torch ;;
     log ("✅ PyTorch versión " ++ torch_version w ++ " encontrado") Success ;;
     available <- ask (torch_cuda_is_available w) ;;
     available <- of_ext available ;;
     if available : bool then
       log "✅ CUDA disponible para PyTorch" Success ;;
       names <- ask (torch_cuda_device_names w) ;;
       names <- of_ext names ;;
       log ("   - Dispositivos CUDA: " ++ nat_to_string (length names)) Info ;;
       log_devices 0 names ;;
       log ("   - Versión CUDA: " ++ torch_version_cuda w) Info ;;
       b <- ask (torch_benchmark w) ;;
       b <- of_ext b ;;
       log "✅ Prueba de rendimiento:" Success ;;
       log ("   - Tiempo con GPU: " ++ cuda_time b ++ " segundos") Info ;;
       log ("   - Tiempo con CPU: " ++ cpu_time b ++ " segundos") Info ;;
       log ("   - Aceleración: " ++ speedup b ++ "x") Info ;;
       (if speedup_gt_1 b
        then log ("✅ La GPU es " ++ speedup b ++ "x más rápida que la CPU!") Success
        else log "⚠️ La CPU fue más rápida que la GPU para esta operación. Esto puede ocurrir con operaciones pequeñas debido a la sobrecarga de transferencia." Warning) ;;
       ret true
     else
       log "❌ CUDA no está disponible para PyTorch" Error ;;
       log "   Verifica que CUDA y cuDNN estén correctamente instalados" Error ;;
       ret false)
    (fun e =>
       match e with
       | ImportError _ =>
           log "❌ No se pudo importar PyTorch. Asegúrate de que esté instalado con pip install torch torchvision torchaudio --index-url https://download.pytorch.org/whl/cu124" Error ;;
           ret false
       | _ =>
           log ("❌ Error al probar PyTorch con CUDA: " ++ str_exn w e) Error ;;
           ret false
       end).

Definition generate_cuda_program : M bool :=
  log "Generando programa CUDA de prueba..." Info ;;
  let temp_dir := os_path_join w (default "." (environ w "TEMP")) "cuda_test" in
  r <- ask (fun h => os_makedirs w h temp_dir) ;;
  of_ext r ;;
  emit (MadeDirs temp_dir) ;;
  let cuda_file := os_path_join w temp_dir "vector_add.cu" in
  r <- ask (fun h => write_file w h cuda_file cuda_code) ;;
  of_ext r ;;
  emit (Wrote cuda_file cuda_code) ;;
  log ("✅ Archivo CUDA creado en: " ++ cuda_file) Success ;;
  log "Compilando programa CUDA..." Info ;;
  let output_file := os_path_join w temp_dir "vector_add.exe" in
  let compile_cmd :=
    "nvcc " ++ Py.dq ++ cuda_file ++ Py.dq ++ " -o " ++ Py.dq ++ output_file ++ Py.dq in
  '(stdout, stderr, returncode) <- run_command w compile_cmd ;;
  if negb (returncode =? 0)%Z then
    log ("❌ Error al compilar el programa CUDA: " ++ stderr) Error ;;
    ret false
  else
    log "✅ Programa CUDA compilado correctamente" Success ;;
    log "Ejecutando el programa CUDA..." Info ;;
    '(stdout, stderr, returncode) <- run_command w (Py.dq ++ output_file ++ Py.dq) ;;
    if negb (returncode =? 0)%Z then
      log ("❌ Error al ejecutar el programa CUDA: " ++ stderr) Error ;;
      ret false
    else
      log "✅ Programa CUDA ejecutado correctamente" Success ;;
      log ("Salida del programa:" ++ Py.nl ++ stdout) Info ;;
      if Py.contains "Test PASSED" stdout then
        log "✅ La prueba de CUDA fue exitosa!" Success ;;
        ret true
      else
        log "❌ La prueba de CUDA falló" Error ;;
        ret false.

(** [any(vars(args).values())] *)
Definition any_flag (args : Args.t) : bool :=
  Args.driver args || Args.nvcc args || Args.pytorch args ||
  Args.compile args || Args.all args.

(** [main], from the parsed arguments on. *)
Definition main (args : Args.t) : M Z :=
  let all := if negb (any_flag args) then true else Args.all args in
  log "Iniciando pruebas de CUDA..." Info ;;
  print (Py.nl ++ rule "=" ++ Py.nl) ;;
  when_ (negb (platform_system w =? "Windows"))
    (log "Este script está diseñado principalmente para Windows." Warning) ;;
  when_ (negb (is_admin w))
    (log "Se recomienda ejecutar este script como administrador para pruebas completas." Warning) ;;
  let all_passed := true in
  all_passed <-
    (if Args.driver args || all then
       log (Py.nl ++ "PRUEBA 1: Controlador NVIDIA") Info ;;
       print (rule "-") ;;
       driver_passed <- check_cuda_driver ;;
       let all_passed := all_passed && driver_passed in
       print (rule "-" ++ Py.nl) ;;
       ret all_passed
     else ret all_passed) ;;
  all_passed <-
    (if Args.nvcc args || all then
       log (Py.nl ++ "PRUEBA 2: Compilador CUDA (NVCC)") Info ;;
       print (rule "-") ;;
       nvcc_passed <- check_nvcc ;;
       let all_passed := all_passed && nvcc_passed in
       print (rule "-" ++ Py.nl) ;;
       ret all_passed
     else ret all_passed) ;;
  all_passed <-
    (if Args.pytorch args || all then
       log (Py.nl ++ "PRUEBA 3: PyTorch con CUDA") Info ;;
       print (rule "-") ;;
       pytorch_passed <- test_pytorch_cuda ;;
       let all_passed := all_passed && pytorch_passed in
       print (rule "-" ++ Py.nl) ;;
       ret all_passed
     else ret all_passed) ;;
  all_passed <-
    (if Args.compile args || all then
       log (Py.nl ++ "PRUEBA 4: Compilación y ejecución de programa CUDA") Info ;;
       print (rule "-") ;;
       compile_passed <- generate_cuda_program ;;
       let all_passed := all_passed && compile_passed in
       print (rule "-" ++ Py.nl) ;;
       ret all_passed
     else ret all_passed) ;;
  print (Py.nl ++ rule "=" ++ Py.nl) ;;
  (if all_passed : bool then
     log "✅ TODAS LAS PRUEBAS DE CUDA PASARON CORRECTAMENTE!" Success ;;
     log "Tu entorno está configurado correctamente para desarrollo con CUDA." Success
   else
     log "❌ ALGUNAS PRUEBAS DE CUDA FALLARON" Error ;;
     log "Revisa los mensajes de error y consulta troubleshooting.md para resolver problemas." Error) ;;
  ret (if all_passed then 0 else 1)%Z.

(** The script run as a program: [sys.exit(main())]. *)
Definition script (args : Args.t) : M unit :=
  code <- main args ;;
  sys_exit code.

(** *** The selection of checks, as the specification describes it *)

(** What [main] prints before the first check. *)
Definition preamble : M unit :=
  log "Iniciando pruebas de CUDA..." Info ;;
  print (Py.nl ++ rule "=" ++ Py.nl) ;;
  when_ (negb (platform_system w =? "Windows"))
    (log "Este script está diseñado principalmente para Windows." Warning) ;;
  when_ (negb (is_admin w))
    (log "Se recomienda ejecutar este script como administrador para pruebas completas." Warning).

Definition heading (c : Check) : string :=
  match c with
  | Driver => "PRUEBA 1: Controlador NVIDIA"
  | Nvcc => "PRUEBA 2: Compilador CUDA (NVCC)"
  | Pytorch => "PRUEBA 3: PyTorch con CUDA"
  | Compile => "PRUEBA 4: Compilación y ejecución de programa CUDA"
  end.

Definition check_of (c : Check) : M bool :=
  match c with
  | Driver => check_cuda_driver
  | Nvcc => check_nvcc
  | Pytorch => test_pytorch_cuda
  | Compile => generate_cuda_program
  end.

(** A check between the heading and the rules that [main] prints around
    it. *)
Definition framed (c : Check) : M bool :=
  log (Py.nl ++ heading c) Info ;;
  print (rule "-") ;;
  passed <- check_of c ;;
  print (rule "-" ++ Py.nl) ;;
  ret passed.

(** What [main] prints after the last check, and what it returns. *)
Definition report (all_passed : bool) : M Z :=
  print (Py.nl ++ rule "=" ++ Py.nl) ;;
  (if all_passed : bool then
     log "✅ TODAS LAS PRUEBAS DE CUDA PASARON CORRECTAMENTE!" Success ;;
     log "Tu entorno está configurado correctamente para desarrollo con CUDA." Success
   else
     log "❌ ALGUNAS PRUEBAS DE CUDA FALLARON" Error ;;
     log "Revisa los mensajes de error y consulta troubleshooting.md para resolver problemas." Error) ;;
  ret (if all_passed then 0 else 1)%Z.

End Prober.

End TestCuda.

(* ================================================================= *)
(** ** The installation verifier, [verify.py] *)

Module Verify.

(** A Python [dict] from names to results: a key that is set again keeps its
    place. *)
Fixpoint dict_set (d : list (string * bool)) (k : string) (v : bool)
  : list (string * bool) :=
  match d with
  | [] => [(k, v)]
  | (k', v') :: d' =>
      if (k' =? k)%string then (k', v) :: d' else (k', v') :: dict_set d' k v
  end.

Section Verifier.

Variable w : World.

(** The loop of [check_path_env] over the entries of PATH. *)
Fixpoint find_in_paths (name search_pattern : string) (paths : list string)
  : M bool :=
  match paths with
  | [] =>
      log ("❌ " ++ name ++ " no encontrado en PATH") Error ;;
      ret false
  | path :: rest =>
      if Py.contains (Py.lower search_pattern) (Py.lower path) then
        log ("✅ " ++ name ++ " encontrado en PATH: " ++ path) Success ;;
        ret true
      else find_in_paths name search_pattern rest
  end.

Definition check_path_env (name search_pattern : string) : M bool :=
  let paths := Py.split (default "" (environ w "PATH")) (os_pathsep w) in
  find_in_paths name search_pattern paths.

Definition check_python : M bool :=
  log "Verificando Python..." Info ;;
  '(stdout, stderr, returncode) <- run_command w "python --version" ;;
  if negb (returncode =? 0)%Z then
    log "❌ Python no está instalado o no está en PATH" Error ;;
    ret false
  else
    log ("✅ " ++ stdout) Success ;;
    version <- index (Py.words stdout) 1 ;;
    when_ (negb (Py.startswith version "3.10."))
      (log ("⚠️ La versión de Python es " ++ version ++ ", se recomienda 3.10.x") Warning) ;;
    '(stdout, stderr, returncode) <- run_command w "pip --version" ;;
    if negb (returncode =? 0)%Z then
      log "❌ pip no está instalado o no está en PATH" Error ;;
      ret false
    else
      log ("✅ " ++ stdout) Success ;;
      check_path_env "Python" "python" ;;
      ret true.

(** The loop over [vs_paths], left at the first path that exists. *)
Fixpoint find_vs (vs_paths : list string) : M bool :=
  match vs_paths with
  | [] => ret false
  | path :: rest =>
      e <- ask (fun h => os_path_exists w h path) ;;
      if e : bool then
        log ("✅ Visual Studio 2022 encontrado en: " ++ path) Success ;;
        ret true
      else find_vs rest
  end.

(** The loop over [cl_paths], left at the first pattern that matches. *)
Fixpoint find_cl (cl_paths : list string) : M bool :=
  match cl_paths with
  | [] => ret false
  | cl_path_pattern :: rest =>
      g <- ask (fun h => glob w h cl_path_pattern) ;;
      possible_paths <- of_ext g ;;
      match possible_paths with
      | first :: _ =>
          log ("✅ Compilador C/C++ (cl.exe) encontrado en: " ++ first) Success ;;
          ret true
      | [] => find_cl rest
      end
  end.

Definition check_visual_studio : M bool :=
  log "Verificando Visual Studio..." Info ;;
  let vs_paths :=
    ["C:\Program Files\Microsoft Visual Studio\2022\Community";
     "C:\Program Files (x86)\Microsoft Visual Studio\2022\Community"] in
  vs_found <- find_vs vs_paths ;;
  when_ (negb vs_found)
    (log "❌ Visual Studio 2022 Community no encontrado" Error) ;;
  let cl_paths :=
    ["C:\Program Files\Microsoft Visual Studio\2022\Community\VC\Tools\MSVC\*\bin\Hostx64\x64\cl.exe";
     "C:\Program Files (x86)\Microsoft Visual Studio\2022\Community\VC\Tools\MSVC\*\bin\Hostx64\x64\cl.exe"] in
  cl_found <- find_cl cl_paths ;;
  when_ (negb cl_found)
    (log "❌ Compilador C/C++ (cl.exe) no encontrado" Error) ;;
  let vswhere_path :=
    "C:\Program Files (x86)\Microsoft Visual Studio\Installer\vswhere.exe" in
  e <- ask (fun h => os_path_exists w h vswhere_path) ;;
  (if e : bool then
     '(stdout, stderr, returncode) <-
       run_command w (Py.dq ++ vswhere_path ++ Py.dq ++
         " -products * -requires Microsoft.VisualStudio.Workload.NativeDesktop -property displayName") ;;
     (if negb (stdout =? "")%string
      then log "✅ Carga de trabajo 'Desktop development with C++' instalada" Success
      else log "❌ Carga de trabajo 'Desktop development with C++' no encontrada" Error) ;;
     '(stdout, stderr, returncode) <-
       run_command w (Py.dq ++ vswhere_path ++ Py.dq ++
         " -products * -requires Microsoft.VisualStudio.Workload.Python -property displayName") ;;
     (if negb (stdout =? "")%string
      then log "✅ Carga de trabajo 'Python development' instalada" Success
      else log "❌ Carga de trabajo 'Python development' no encontrada" Error)
   else
     log "⚠️ vswhere.exe no encontrado, no se pueden verificar cargas de trabajo de VS" Warning) ;;
  ret (vs_found && cl_found).

(** [stdout.splitlines()[3] if len(stdout.splitlines()) > 3 else stdout] *)
Definition fourth_line_or_all (stdout : string) : M string :=
  if (3 <? length (Py.splitlines stdout))%nat
  then index (Py.splitlines stdout) 3
  else ret stdout.

(** The loop over [cudnn_paths], left at the first header that exists. *)
Fixpoint find_cudnn (cudnn_paths : list (option string)) : M bool :=
  match cudnn_paths with
  | [] => ret false
  | path :: rest =>
      e <- ask (fun h => os_path_exists w h (default "" path)) ;;
      if truthy path && e then
        log ("✅ cuDNN encontrado en: " ++ default "" path) Success ;;
        ret true
      else find_cudnn rest
  end.

Definition check_cuda : M bool :=
  log "Verificando CUDA..." Info ;;
  '(stdout, stderr, returncode) <- run_command w "nvcc --version" ;;
  if negb (returncode =? 0)%Z then
    log "❌ CUDA (nvcc) no está instalado o no está en PATH" Error ;;
    ret false
  else
    shown <- fourth_line_or_all stdout ;;
    log ("✅ " ++ shown) Success ;;
    version_line <- fourth_line_or_all stdout ;;
    (if Py.contains "release" (Py.lower version_line) then
       after <- index (Py.split version_line "release") 1 ;;
       cuda_version <- index (Py.split (Py.strip after) ",") 0 ;;
       when_ (negb (Py.startswith cuda_version "12.4"))
         (log ("⚠️ La versión de CUDA es " ++ cuda_version ++ ", se recomienda 12.4") Warning)
     else ret tt) ;;
    let cuda_home := environ w "CUDA_PATH" in
    (if truthy cuda_home
     then log ("✅ Variable de entorno CUDA_PATH configurada: " ++ default "" cuda_home) Success
     else log "❌ Variable de entorno CUDA_PATH no configurada" Error) ;;
    check_path_env "CUDA" "cuda" ;;
    let cudnn_paths :=
      [(if truthy cuda_home
        then Some (os_path_join w (os_path_join w (default "" cuda_home) "include") "cudnn.h")
        else None);
       Some "C:\Program Files\NVIDIA GPU Computing Toolkit\CUDA\v12.4\include\cudnn.h";
       Some "C:\Program Files\NVIDIA\CUDNN\v8.x\include\cudnn.h"] in
    cudnn_found <- find_cudnn cudnn_paths ;;
    when_ (negb cudnn_found)
      (log "⚠️ cuDNN no encontrado. Recuerda instalarlo manualmente." Warning) ;;
    ret true.

(** [import torch] and [importlib.import_module(name)] *)
Definition import_ (name : string) : M unit :=
  r <- ask (fun h => import_module w h name) ;;
  emit (Imported name) ;;
  match r with
  | ImportOk => ret tt
  | ImportFails msg => raise (ImportError msg)
  | ImportThrows msg => raise (OtherException msg)
  end.

Definition check_pytorch : M bool :=
  log "Verificando PyTorch y soporte CUDA..." Info ;;
  spec <- ask (fun h => find_spec w h "torch") ;;
  if negb spec then
    log "❌ PyTorch no está instalado" Error ;;
    ret false
  else
    import_ "torch" ;;
    log ("✅ PyTorch " ++ torch_version w ++ " instalado") Success ;;
    a <- ask (torch_cuda_is_available w) ;;
    cuda_available <- of_ext a ;;
    (if cuda_available : bool then
       n <- ask (torch_cuda_device_names w) ;;
       names <- of_ext n ;;
       let device_count := length names in
       let device_name := hd "Unknown" names in
       let cuda_version := torch_version_cuda w in
       log "✅ CUDA está disponible para PyTorch" Success ;;
       log ("   - Dispositivos CUDA: " ++ nat_to_string device_count) Info ;;
       log ("   - Nombre del dispositivo: " ++ device_name) Info ;;
       log ("   - Versión de CUDA: " ++ cuda_version) Info
     else
       log "❌ CUDA no está disponible para PyTorch. Comprueba tu instalación de CUDA y PyTorch." Error) ;;
    ret cuda_available.

Definition libraries : list (string * string) :=
  [("numpy", "NumPy");
   ("scipy", "SciPy");
   ("matplotlib", "Matplotlib");
   ("pandas", "Pandas");
   ("sklearn", "Scikit-learn");
   ("transformers", "Transformers (Hugging Face)");
   ("datasets", "Datasets (Hugging Face)");
   ("jupyter", "Jupyter")].

(** The loop of [check_ml_libraries]. *)
Fixpoint check_libraries (libs : list (string * string)) (all_installed : bool)
  : M bool :=
  match libs with
  | [] => ret all_installed
  | (module_name, display_name) :: rest =>
      spec <- ask (fun h => find_spec w h module_name) ;;
      all_installed <-
        (if negb spec then
           log ("❌ " ++ display_name ++ " no está instalado") Error ;;
           ret false
         else
           try_except
             (import_ module_name ;;
              let version := default "versión desconocida" (module_version w module_name) in
              log ("✅ " ++ display_name ++ " " ++ version ++ " instalado") Success ;;
              ret all_installed)
             (fun e =>
                match e with
                | ImportError _ =>
                    log ("❌ Error al importar " ++ display_name) Error ;;
                    ret false
                | _ => raise e
                end)) ;;
      check_libraries rest all_installed
  end.

Definition check_ml_libraries : M bool :=
  log "Verificando bibliotecas para ML/NLP/LLM..." Info ;;
  check_libraries libraries true.

(** The loop of [print_system_info] over the lines of the driver tool. *)
Fixpoint print_gpu_info (gpu_info : list string) : M unit :=
  match gpu_info with
  | [] => ret tt
  | line :: rest =>
      (if Py.contains "NVIDIA" line && Py.contains "GPU" line then
         log ("   - GPU: " ++ Py.strip line) Info
       else if Py.contains "Driver Version" line then
         log ("   - Driver NVIDIA: " ++ Py.strip line) Info
       else if Py.contains "CUDA Version" line then
         log ("   - CUDA Version (driver): " ++ Py.strip line) Info
       else ret tt) ;;
      print_gpu_info rest
  end.

Definition print_system_info : M unit :=
  log "Información del sistema:" Info ;;
  log ("   - Sistema operativo: " ++ platform_system w ++ " " ++
       platform_release w ++ " " ++ platform_version w) Info ;;
  log ("   - Arquitectura: " ++ platform_machine w) Info ;;
  log ("   - Procesador: " ++ platform_processor w) Info ;;
  '(stdout, stderr, returncode) <- run_command w "nvidia-smi" ;;
  if (returncode =? 0)%Z then
    print_gpu_info (Py.split stdout Py.nl)
  else
    log "   - No se pudo obtener información de la GPU con nvidia-smi" Info.

Definition checks : list (string * M bool) :=
  [("Python 3.10", check_python);
   ("Visual Studio 2022", check_visual_studio);
   ("CUDA 12.4", check_cuda);
   ("PyTorch con CUDA", check_pytorch);
   ("Bibliotecas ML/NLP", check_ml_libraries)].

(** The first loop of [run_all_checks]: every check is run and its result
    stored under its name. *)
Fixpoint run_checks (cs : list (string * M bool)) (results : list (string * bool))
  : M (list (string * bool)) :=
  match cs with
  | [] => ret results
  | (name, check_func) :: rest =>
      print (Py.nl ++ rule "-" ++ Py.nl) ;;
      result <- check_func ;;
      run_checks rest (dict_set results name result)
  end.

(** The second loop of [run_all_checks]: the summary. *)
Fixpoint summarize (items : list (string * bool)) (all_pass : bool) : M bool :=
  match items with
  | [] => ret all_pass
  | (name, result) :: rest =>
      let status := if result then Success else Error in
      log (name ++ ": " ++ (if result then "PASS" else "FAIL")) status ;;
      summarize rest (if negb result then false else all_pass)
  end.

Definition run_all_checks : M bool :=
  log "Iniciando verificación del entorno de desarrollo para IA/ML..." Info ;;
  print (Py.nl ++ rule "=" ++ Py.nl) ;;
  print_system_info ;;
  print (Py.nl ++ rule "-" ++ Py.nl) ;;
  results <- run_checks checks [] ;;
  print (Py.nl ++ rule "=" ++ Py.nl) ;;
  log "Resumen de la verificación:" Info ;;
  all_pass <- summarize results true ;;
  print (Py.nl ++ rule "=" ++ Py.nl) ;;
  (if all_pass : bool then
     log "¡Todo el entorno está correctamente configurado!" Success
   else
     log "Se encontraron problemas en el entorno. Revisa los detalles anteriores." Warning ;;
     log "Para solucionar problemas comunes, consulta el archivo troubleshooting.md" Info) ;;
  ret all_pass.

(** The statements under [if __name__ == "__main__"]. *)
Definition script : M unit :=
  (if negb (platform_system w =? "Windows")%string then
     log "Este script solo está diseñado para ejecutarse en Windows." Error ;;
     sys_exit 1%Z
   else ret tt) ;;
  when_ (negb (is_admin w))
    (log "Se recomienda ejecutar este script como administrador para verificaciones completas." Warning) ;;
  success <- run_all_checks ;;
  sys_exit (if success : bool then 0 else 1)%Z.

(** *** The checks in order, as the specification describes them *)

(** What the script prints before the first check. *)
Definition before_checks : M unit :=
  when_ (negb (is_admin w))
    (log "Se recomienda ejecutar este script como administrador para verificaciones completas." Warning) ;;
  log "Iniciando verificación del entorno de desarrollo para IA/ML..." Info ;;
  print (Py.nl ++ rule "=" ++ Py.nl) ;;
  print_system_info ;;
  print (Py.nl ++ rule "-" ++ Py.nl).

(** A check after the rule that [run_all_checks] prints before it. *)
Definition framed (check_func : M bool) : M bool :=
  print (Py.nl ++ rule "-" ++ Py.nl) ;;
  check_func.

(** The summary that [run_all_checks] prints after the last check, and what
    it returns. *)
Definition report (results : list bool) : M bool :=
  print (Py.nl ++ rule "=" ++ Py.nl) ;;
  log "Resumen de la verificación:" Info ;;
  all_pass <- summarize (combine (map fst checks) results) true ;;
  print (Py.nl ++ rule "=" ++ Py.nl) ;;
  (if all_pass : bool then
     log "¡Todo el entorno está correctamente configurado!" Success
   else
     log "Se encontraron problemas en el entorno. Revisa los detalles anteriores." Warning ;;
     log "Para solucionar problemas comunes, consulta el archivo troubleshooting.md" Info) ;;
  ret all_pass.

End Verifier.

End Verify.

(* ================================================================= *)
(** ** The orchestrator, [setup_environment.py] *)

Module Setup.

Module Args.
Record t : Type := {
  clean : bool;
  verify_cleanup : bool;
  install : bool;
  verify : bool;
  cudnn : bool;
  full : bool;
  requirements : bool
}.
End Args.

(** The colour table of the orchestrator, which knows TITLE as well. *)
Definition status_color (st : Status) : string :=
  match st with
  | Success => Colors.SUCCESS
  | Warning => Colors.WARNING
  | Error => Colors.ERROR
  | Info => Colors.INFO
  | Title => Colors.BOLD ++ Colors.INFO
  end.

Definition log (message : string) (st : Status) : M unit :=
  print (log_line (status_color st) st message).

(** A statement that may leave the enclosing function with [return]:
    [inl] carries the value returned, [inr] the value to go on with. *)
Definition or_return {A B} (m : M (A + B)) (k : B -> M A) : M A :=
  r <- m ;;
  match r with
  | inl a => ret a
  | inr b => k b
  end.

Section Orchestrator.

Variable w : World.

(** [subprocess.run(command, check=True)] and the [returncode] of the
    process it gives. *)
Definition subprocess_run_check (command : list string) : M Z :=
  r <- run w (Argv command) ;;
  match r with
  | completed _ _ rc =>
      if negb (rc =? 0)%Z then raise (CalledProcessError command rc) else ret rc
  | raised msg => raise (OtherException msg)
  end.

(** The body shared by [run_powershell_script] and [run_python_script], from
    the command on. *)
Definition run_logged (script_path : string) (command : list string) : M bool :=
  log ("Ejecutando: " ++ os_path_basename w script_path) Info ;;
  try_except
    (returncode <- subprocess_run_check command ;;
     ret (returncode =? 0)%Z)
    (fun e =>
       match e with
       | CalledProcessError _ _ =>
           log ("Error al ejecutar " ++ os_path_basename w script_path ++ ": " ++ str_exn w e) Error ;;
           ret false
       | _ =>
           log ("Error inesperado: " ++ str_exn w e) Error ;;
           ret false
       end).

(** [command.extend(args)] when [args] is given and not empty. *)
Definition extend (command : list string) (args : option (list string))
  : list string :=
  match args with
  | Some (a :: l) => (command ++ a :: l)%list
  | _ => command
  end.

Definition run_powershell_script (script_path : string) (args : option (list string))
  : M bool :=
  e <- ask (fun h => os_path_exists w h script_path) ;;
  if negb e then
    log ("Script no encontrado: " ++ script_path) Error ;;
    ret false
  else
    let command :=
      extend ["powershell"; "-ExecutionPolicy"; "Bypass"; "-File"; script_path] args in
    run_logged script_path command.

Definition run_python_script (script_path : string) (args : option (list string))
  : M bool :=
  e <- ask (fun h => os_path_exists w h script_path) ;;
  if negb e then
    log ("Script no encontrado: " ++ script_path) Error ;;
    ret false
  else
    let command := extend [sys_executable w; script_path] args in
    run_logged script_path command.

Definition show_requirements : M unit :=
  log "REQUISITOS DEL SISTEMA" Title ;;
  print (Py.nl ++ "Para una instalación exitosa, asegúrate de que tu sistema cumpla con estos requisitos:") ;;
  print "1. Windows 11 (64 bits)" ;;
  print "2. Al menos 50 GB de espacio libre en disco" ;;
  print "3. Al menos 8 GB de RAM (16 GB recomendado)" ;;
  print "4. Conexión a Internet" ;;
  print "5. Tarjeta gráfica NVIDIA compatible con CUDA" ;;
  print "6. Privilegios de administrador" ;;
  print (Py.nl ++ "Además, para la instalación de cuDNN necesitarás:") ;;
  print "1. Una cuenta NVIDIA Developer (gratuita)" ;;
  print "2. Descargar manualmente el paquete cuDNN compatible con CUDA 12.4" ;;
  print (Py.nl ++ "IMPORTANTE: Este proceso eliminará completamente las instalaciones existentes de:") ;;
  print "- Visual Studio" ;;
  print "- Python" ;;
  print "- CUDA y componentes relacionados" ;;
  print (Py.nl ++ "Asegúrate de hacer una copia de seguridad de tus datos importantes antes de continuar.").

Definition verify_cleanup : M bool :=
  log "VERIFICANDO LIMPIEZA DEL SISTEMA" Title ;;
  let verify_cleanup_script := beside_script w "verify_cleanup.ps1" in
  success <- run_powershell_script verify_cleanup_script None ;;
  (if success : bool then
     log "Verificación de limpieza completada exitosamente. El sistema está limpio." Success
   else
     log "Verificación de limpieza completada con advertencias. Algunos componentes aún están presentes." Warning) ;;
  ret success.

(** [subprocess.run(["shutdown", "/r", "/t", "10"])], whose result is not
    looked at. *)
Definition shutdown : M unit :=
  r <- run w (Argv ["shutdown"; "/r"; "/t"; "10"]) ;;
  match r with
  | completed _ _ _ => ret tt
  | raised msg => raise (OtherException msg)
  end.

(** The end of [process_cleanup] after a cleanup that succeeded: the
    question about the reboot, and [return success]. *)
Definition ask_restart (success : bool) : M bool :=
  log "Se recomienda reiniciar el sistema antes de continuar con la instalación." Warning ;;
  restart <- input w "¿Quieres reiniciar el sistema ahora? (S/N): " ;;
  if (Py.upper restart =? "S")%string then
    log "Reiniciando el sistema..." Info ;;
    shutdown ;;
    log "El sistema se reiniciará en 10 segundos. El script debe ejecutarse nuevamente después del reinicio." Info ;;
    sys_exit 0%Z
  else ret success.

(** [process_cleanup] calls itself when the operator asks for another
    cleanup; [depth] bounds the nesting of these calls, and a call beyond it
    raises [RecursionError]. *)
Fixpoint process_cleanup (depth : nat) : M bool :=
  match depth with
  | O => raise RecursionError
  | S depth' =>
      log "INICIANDO PROCESO DE LIMPIEZA" Title ;;
      let cleanup_script := beside_script w "cleanup.ps1" in
      success <- run_powershell_script cleanup_script None ;;
      if success : bool then
        log "Proceso de limpieza completado exitosamente." Success ;;
        verify_cleanup_success <- verify_cleanup ;;
        if negb verify_cleanup_success then
          log "El verificador de limpieza ha detectado componentes que aún están presentes." Warning ;;
          retry <- input w "¿Deseas intentar ejecutar nuevamente el script de limpieza? (S/N): " ;;
          if (Py.upper retry =? "S")%string then
            log "Ejecutando nuevamente el proceso de limpieza..." Info ;;
            process_cleanup depth'
          else
            log "Se recomienda realizar una limpieza manual de los componentes detectados antes de continuar." Warning ;;
            continue_anyway <- input w "¿Deseas continuar de todos modos con la instalación? (S/N): " ;;
            if negb (Py.upper continue_anyway =? "S")%string then
              log "Instalación cancelada por el usuario." Info ;;
              ret false
            else ask_restart success
        else ask_restart success
      else
        log "Proceso de limpieza completado con errores. Revisa el archivo de log para más detalles." Warning ;;
        ret success
  end.

Definition process_installation : M bool :=
  log "INICIANDO PROCESO DE INSTALACIÓN" Title ;;
  let install_script := beside_script w "install.ps1" in
  success <- run_powershell_script install_script None ;;
  (if success : bool then
     log "Proceso de instalación completado exitosamente." Success ;;
     log "Para completar la configuración, es necesario instalar cuDNN manualmente." Info ;;
     log "Consulta las instrucciones en el archivo README.md o utiliza el script setup_cudnn.ps1" Info
   else
     log "Proceso de instalación completado con errores. Revisa el archivo de log para más detalles." Warning) ;;
  ret success.

Definition process_verification : M bool :=
  log "INICIANDO PROCESO DE VERIFICACIÓN" Title ;;
  let verify_script := beside_script w "verify.py" in
  success <- run_python_script verify_script None ;;
  (if success : bool then
     log "Verificación completada exitosamente. El entorno está correctamente configurado." Success
   else
     log "Verificación completada con errores. Revisa los resultados para más detalles." Warning) ;;
  ret success.

Definition process_cudnn_setup : M bool :=
  log "CONFIGURACIÓN DE CUDNN" Title ;;
  let cudnn_script := beside_script w "setup_cudnn.ps1" in
  log "cuDNN requiere descarga manual desde NVIDIA Developer:" Info ;;
  log "1. Visita: https://developer.nvidia.com/cudnn" Info ;;
  log "2. Inicia sesión o crea una cuenta gratuita" Info ;;
  log "3. Descarga la versión compatible con CUDA 12.4" Info ;;
  log "4. Una vez descargado, ejecuta el script setup_cudnn.ps1" Info ;;
  download_choice <- input w "¿Ya has descargado cuDNN y quieres instalarlo ahora? (S/N): " ;;
  if (Py.upper download_choice =? "S")%string then
    success <- run_powershell_script cudnn_script None ;;
    (if success : bool then
       log "Configuración de cuDNN completada exitosamente." Success
     else
       log "Configuración de cuDNN completada con errores. Revisa el archivo de log para más detalles." Warning) ;;
    ret success
  else
    log "Puedes ejecutar el script setup_cudnn.ps1 más tarde cuando hayas descargado cuDNN." Info ;;
    ret true.

(** [any(vars(args).values())] *)
Definition any_flag (args : Args.t) : bool :=
  Args.clean args || Args.verify_cleanup args || Args.install args ||
  Args.verify args || Args.cudnn args || Args.full args ||
  Args.requirements args.

(** [main] from the installation on: the last three phases and the report. *)
Definition finish_phases (args : Args.t) (success : bool) : M Z :=
  success <-
    (if Args.install args || Args.full args then
       installed <- process_installation ;;
       ret (installed && success)
     else ret success) ;;
  success <-
    (if Args.cudnn args || Args.full args then
       configured <- process_cudnn_setup ;;
       ret (configured && success)
     else ret success) ;;
  success <-
    (if Args.verify args || Args.full args then
       verified <- process_verification ;;
       ret (verified && success)
     else ret success) ;;
  print (Py.nl ++ rule "=") ;;
  (if success : bool
   then log "PROCESO COMPLETADO EXITOSAMENTE" Success
   else log "PROCESO COMPLETADO CON ERRORES" Warning) ;;
  print (rule "=" ++ Py.nl) ;;
  ret (if success then 0 else 1)%Z.

(** The banner that [main] prints before the phases. *)
Definition banner : M unit :=
  print (Py.nl ++ rule "=") ;;
  log "CONFIGURACIÓN DE ENTORNO DE DESARROLLO PARA IA/ML EN WINDOWS 11" Title ;;
  print (rule "=" ++ Py.nl).

(** [main] from the banner on. *)
Definition run_phases (depth : nat) (args : Args.t) : M Z :=
  banner ;;
  let success := true in
  or_return
    (if Args.clean args || Args.full args then
       cleaned <- process_cleanup depth ;;
       let success := cleaned && success in
       if Args.full args && negb success then
         log "El proceso de limpieza falló. No se continuará con la instalación." Error ;;
         ret (inl 1%Z)
       else ret (inr success)
     else ret (inr success))
    (fun success =>
  or_return
    (if Args.verify_cleanup args || (Args.full args && negb (Args.clean args)) then
       verified <- verify_cleanup ;;
       let success := verified && success in
       if Args.full args && negb success then
         proceed <- input w "La verificación de limpieza falló. ¿Deseas continuar de todos modos? (S/N): " ;;
         if negb (Py.upper proceed =? "S")%string then
           log "Instalación cancelada por el usuario." Info ;;
           ret (inl 1%Z)
         else ret (inr success)
       else ret (inr success)
     else ret (inr success))
    (finish_phases args)).

(** [main], from the parsed arguments on.  The arguments are parsed after the
    two checks of the platform. *)
Definition main (depth : nat) (args : Args.t) : M Z :=
  if negb (platform_system w =? "Windows")%string then
    log "Este script solo está diseñado para ejecutarse en Windows." Error ;;
    ret 1%Z
  else if negb (is_admin w) then
    log "Este script requiere privilegios de administrador." Error ;;
    log "Por favor, ejecuta el script como administrador." Info ;;
    ret 1%Z
  else if negb (any_flag args) then
    emit PrintedHelp ;;
    ret 0%Z
  else if Args.requirements args then
    show_requirements ;;
    ret 0%Z
  else run_phases depth args.

(** The script run as a program: [sys.exit(main())]. *)
Definition script (depth : nat) (args : Args.t) : M unit :=
  code <- main depth args ;;
  sys_exit code.

End Orchestrator.

End Setup.

(* ================================================================= *)
(** ** Machines for concrete runs *)

(** A machine with the given platform, privilege, operator, files and
    commands, on which the framework and the libraries are not installed. *)
Definition machine (system : string) (admin : option Z) (typed : list string)
  (files : History -> string -> bool)
  (commands : History -> Command -> Completed) : World :=
  {| platform_system := system;
     platform_release := "11";
     platform_version := "10.0.22631";
     platform_machine := "AMD64";
     platform_processor := "Intel64 Family 6";
     IsUserAnAdmin := admin;
     stdin := typed;
     environ := fun _ => None;
     os_pathsep := ";";
     os_path_join := fun a b => a ++ "\" ++ b;
     os_path_basename := fun path => path;
     os_path_exists := files;
     os_makedirs := fun _ _ => Ok tt;
     write_file := fun _ _ _ => Ok tt;
     glob := fun _ _ => Ok [];
     beside_script := fun name => name;
     sys_executable := "python";
     subprocess_run := commands;
     str_CalledProcessError := fun _ _ => "Command returned non-zero exit status.";
     find_spec := fun _ _ => false;
     import_module := fun _ _ => ImportFails "No module named 'torch'";
     module_version := fun _ => None;
     torch_version := "";
     torch_version_cuda := "";
     torch_cuda_is_available := fun _ => Ok false;
     torch_cuda_device_names := fun _ => Ok [];
     torch_benchmark := fun _ => Throws "no CUDA device" |}.

(** The same machine with the framework installed and a device for it. *)
Definition with_torch (w : World) : World :=
  {| platform_system := platform_system w;
     platform_release := platform_release w;
     platform_version := platform_version w;
     platform_machine := platform_machine w;
     platform_processor := platform_processor w;
     IsUserAnAdmin := IsUserAnAdmin w;
     stdin := stdin w;
     environ := environ w;
     os_pathsep := os_pathsep w;
     os_path_join := os_path_join w;
     os_path_basename := os_path_basename w;
     os_path_exists := os_path_exists w;
     os_makedirs := os_makedirs w;
     write_file := write_file w;
     glob := glob w;
     beside_script := beside_script w;
     sys_executable := sys_executable w;
     subprocess_run := subprocess_run w;
     str_CalledProcessError := str_CalledProcessError w;
     find_spec := fun _ _ => true;
     import_module := fun _ _ => ImportOk;
     module_version := fun _ => Some "1.0";
     torch_version := "2.4.0+cu124";
     torch_version_cuda := "12.4";
     torch_cuda_is_available := fun _ => Ok true;
     torch_cuda_device_names := fun _ => Ok ["NVIDIA GeForce RTX 4090"];
     torch_benchmark := fun _ =>
       Ok {| cuda_time := "0.0021"; cpu_time := "0.0934";
             speedup := "44.48"; speedup_gt_1 := true |} |}.

Definition no_files : History -> string -> bool := fun _ _ => false.
Definition all_files : History -> string -> bool := fun _ _ => true.

(** Every command is missing. *)
Definition no_commands : History -> Command -> Completed :=
  fun _ _ => raised "command not found".

(** Every command succeeds and prints [out]. *)
Definition commands_print (out : string) : History -> Command -> Completed :=
  fun _ _ => completed out "" 0%Z.

(** Every command succeeds but the one given, which ends with status 1. *)
Definition commands_but (failing : Command) : History -> Command -> Completed :=
  fun _ c =>
    match c, failing with
    | Argv a, Argv b =>
        if list_eq_dec string_dec a b then completed "" "" 1%Z else completed "" "" 0%Z
    | ShellCmd a, ShellCmd b =>
        if string_dec a b then completed "" "error" 1%Z else completed "" "" 0%Z
    | _, _ => completed "" "" 0%Z
    end.

(* ================================================================= *)
(** ** What a run shows *)

(** The commands that were run, in order. *)
Fixpoint commands_run (h : History) : list Command :=
  match h with
  | [] => []
  | Ran c :: rest => c :: commands_run rest
  | _ :: rest => commands_run rest
  end.

(** The questions that were put to the operator, in order. *)
Fixpoint questions (h : History) : list string :=
  match h with
  | [] => []
  | Asked prompt _ :: rest => prompt :: questions rest
  | AskedEOF prompt :: rest => prompt :: questions rest
  | _ :: rest => questions rest
  end.

(** The usage help was printed. *)
Definition printed_help (h : History) : bool :=
  existsb (fun e => match e with PrintedHelp => true | _ => false end) h.

(** The line is among those printed. *)
Definition printed (line : string) (h : History) : bool :=
  existsb (fun e => match e with Printed l => (l =? line)%string | _ => false end) h.

(** The flags of the prober and of the orchestrator, all unset. *)
Definition prober_no_flag : TestCuda.Args.t :=
  {| TestCuda.Args.driver := false; TestCuda.Args.nvcc := false;
     TestCuda.Args.pytorch := false; TestCuda.Args.compile := false;
     TestCuda.Args.all := false |}.

Definition prober_all : TestCuda.Args.t :=
  {| TestCuda.Args.driver := false; TestCuda.Args.nvcc := false;
     TestCuda.Args.pytorch := false; TestCuda.Args.compile := false;
     TestCuda.Args.all := true |}.

Definition prober_only_driver : TestCuda.Args.t :=
  {| TestCuda.Args.driver := true; TestCuda.Args.nvcc := false;
     TestCuda.Args.pytorch := false; TestCuda.Args.compile := false;
     TestCuda.Args.all := false |}.

Definition setup_no_flag : Setup.Args.t :=
  {| Setup.Args.clean := false; Setup.Args.verify_cleanup := false;
     Setup.Args.install := false; Setup.Args.verify := false;
     Setup.Args.cudnn := false; Setup.Args.full := false;
     Setup.Args.requirements := false |}.

Definition setup_only_cudnn : Setup.Args.t :=
  {| Setup.Args.clean := false; Setup.Args.verify_cleanup := false;
     Setup.Args.install := false; Setup.Args.verify := false;
     Setup.Args.cudnn := true; Setup.Args.full := false;
     Setup.Args.requirements := false |}.

Definition setup_full : Setup.Args.t :=
  {| Setup.Args.clean := false; Setup.Args.verify_cleanup := false;
     Setup.Args.install := false; Setup.Args.verify := false;
     Setup.Args.cudnn := false; Setup.Args.full := true;
     Setup.Args.requirements := false |}.

(** A Linux machine on which every command succeeds. *)
Definition linux_box : World :=
  with_torch (machine "Linux" None [] all_files (commands_print "Test PASSED")).

(** A Windows machine, run by an administrator, on which no command is
    found. *)
Definition bare_windows : World :=
  machine "Windows" (Some 1%Z) [] no_files no_commands.

(** The lines of the three scripts at the check of the platform. *)
Definition setup_not_windows : string :=
  log_line (Setup.status_color Error) Error
    "Este script solo está diseñado para ejecutarse en Windows.".

Definition verify_not_windows : string :=
  log_line (status_color Error) Error
    "Este script solo está diseñado para ejecutarse en Windows.".

Definition prober_not_windows : string :=
  log_line (status_color Warning) Warning
    "Este script está diseñado principalmente para Windows.".

(** A Windows machine, run by an administrator, on which every command
    succeeds and prints [out]. *)
Definition windows_printing (out : string) : World :=
  machine "Windows" (Some 1%Z) [] all_files (commands_print out).

(** The two lines with which the prober ends. *)
Definition prober_all_passed : string :=
  log_line (status_color Success) Success
    "✅ TODAS LAS PRUEBAS DE CUDA PASARON CORRECTAMENTE!".

Definition prober_some_failed : string :=
  log_line (status_color Error) Error "❌ ALGUNAS PRUEBAS DE CUDA FALLARON".

(** The last character of [p] is [c]. *)
Fixpoint ends_in (p : string) (c : ascii) : bool :=
  match p with
  | EmptyString => false
  | String a EmptyString => Ascii.eqb a c
  | String _ p' => ends_in p' c
  end.

(** *** The places of a run of the compile-and-run check *)

Section CompilePoints.

Variable w : World.

Definition temp_dir : string :=
  os_path_join w (default "." (environ w "TEMP")) "cuda_test".
Definition cuda_file : string := os_path_join w temp_dir "vector_add.cu".
Definition output_file : string := os_path_join w temp_dir "vector_add.exe".
Definition compile_cmd : string :=
  "nvcc " ++ Py.dq ++ cuda_file ++ Py.dq ++ " -o " ++ Py.dq ++ output_file ++ Py.dq.
Definition binary_cmd : string := Py.dq ++ output_file ++ Py.dq.

(** The history when the directory is made, when the source is written,
    when the compiler is run and when the binary is run, in a check started
    at [h]. *)
Definition at_makedirs (h : History) : History :=
  (h ++ [Printed (log_line (status_color Info) Info "Generando programa CUDA de prueba...")])%list.

Definition at_write (h : History) : History :=
  (h ++ [Printed (log_line (status_color Info) Info "Generando programa CUDA de prueba...");
         MadeDirs temp_dir])%list.

Definition at_compile (h : History) : History :=
  (h ++ [Printed (log_line (status_color Info) Info "Generando programa CUDA de prueba...");
         MadeDirs temp_dir;
         Wrote cuda_file TestCuda.cuda_code;
         Printed (log_line (status_color Success) Success ("✅ Archivo CUDA creado en: " ++ cuda_file));
         Printed (log_line (status_color Info) Info "Compilando programa CUDA...")])%list.

Definition at_binary (h : History) : History :=
  (h ++ [Printed (log_line (status_color Info) Info "Generando programa CUDA de prueba...");
         MadeDirs temp_dir;
         Wrote cuda_file TestCuda.cuda_code;
         Printed (log_line (status_color Success) Success ("✅ Archivo CUDA creado en: " ++ cuda_file));
         Printed (log_line (status_color Info) Info "Compilando programa CUDA...");
         Ran (ShellCmd compile_cmd);
         Printed (log_line (status_color Success) Success "✅ Programa CUDA compilado correctamente");
         Printed (log_line (status_color Info) Info "Ejecutando el programa CUDA...")])%list.

(** The source is written and the compiler ends with status 0. *)
Definition source_compiles (h : History) : Prop :=
  os_makedirs w (at_makedirs h) temp_dir = Ok tt /\
  write_file w (at_write h) cuda_file TestCuda.cuda_code = Ok tt /\
  exists out err,
    subprocess_run w (at_compile h) (ShellCmd compile_cmd) = completed out err 0%Z.

(** What running the binary gives. *)
Definition binary_run (h : History) : Completed :=
  subprocess_run w (at_binary h) (ShellCmd binary_cmd).

End CompilePoints.

(** A command that did not end with status 0, or could not be run at all. *)
Definition fails (c : Completed) : bool :=
  match c with
  | completed _ _ rc => negb (rc =? 0)%Z
  | raised _ => true
  end.

(** The text [run_command] gives as the standard error of a command. *)
Definition stderr_of (c : Completed) : string :=
  match c with
  | completed _ err _ => Py.strip err
  | raised msg => msg
  end.

(** The questions of the orchestrator. *)
Definition retry_question : string :=
  "¿Deseas intentar ejecutar nuevamente el script de limpieza? (S/N): ".
Definition continue_question : string :=
  "¿Deseas continuar de todos modos con la instalación? (S/N): ".
Definition restart_question : string :=
  "¿Quieres reiniciar el sistema ahora? (S/N): ".
Definition override_question : string :=
  "La verificación de limpieza falló. ¿Deseas continuar de todos modos? (S/N): ".

(** The lines of the cleanup phase. *)
Definition cleanup_title : Event :=
  Printed (log_line (Setup.status_color Title) Title "INICIANDO PROCESO DE LIMPIEZA").
Definition cleanup_succeeded : Event :=
  Printed (log_line (Setup.status_color Success) Success
    "Proceso de limpieza completado exitosamente.").
Definition cleanup_with_errors : Event :=
  Printed (log_line (Setup.status_color Warning) Warning
    "Proceso de limpieza completado con errores. Revisa el archivo de log para más detalles.").
Definition components_still_present : Event :=
  Printed (log_line (Setup.status_color Warning) Warning
    "El verificador de limpieza ha detectado componentes que aún están presentes.").

(** A computation that puts no question to the operator. *)
Definition quiet {A} (m : M A) : Prop :=
  forall h, questions (snd (m h)) = [].

(** The banner of the orchestrator, as events. *)
Definition banner_lines : History :=
  [Printed (Py.nl ++ rule "=");
   Printed (log_line (Setup.status_color Title) Title
     "CONFIGURACIÓN DE ENTORNO DE DESARROLLO PARA IA/ML EN WINDOWS 11");
   Printed (rule "=" ++ Py.nl)].

(** The end of the orchestrator's [main]: the report and the status. *)
Definition setup_report (success : bool) : M Z :=
  print (Py.nl ++ rule "=") ;;
  (if success : bool
   then Setup.log "PROCESO COMPLETADO EXITOSAMENTE" Success
   else Setup.log "PROCESO COMPLETADO CON ERRORES" Warning) ;;
  print (rule "=" ++ Py.nl) ;;
  ret (if success then 0 else 1)%Z.


(** The commands of the orchestrator on a machine where the scripts lie
    beside it under their own names. *)
Definition powershell (script : string) : Command :=
  Argv ["powershell"; "-ExecutionPolicy"; "Bypass"; "-File"; script].

(** A Windows machine, run by an administrator, where every script is
    present and succeeds but the installation, and where the operator
    declines the reboot and the cuDNN configuration. *)
Definition failing_install : World :=
  machine "Windows" (Some 1%Z) ["N"; "N"] all_files
    (commands_but (powershell "install.ps1")).

(** The line in which the verifier looks for the version of the compiler:
    the fourth line of the output when there is one, the whole output
    otherwise. *)
Definition version_line (stdout : string) : string :=
  if (3 <? length (Py.splitlines stdout))%nat
  then nth 3 (Py.splitlines stdout) ""
  else stdout.

(** A computation that never raises the exception [e]. *)
Definition never_raises {A} (e : Exn) (m : M A) : Prop :=
  forall h, fst (m h) <> Raise e.

(* ================================================================= *)
(** ** The phases of the orchestrator *)

(** The five phases of the orchestrator, in the order of [main]. *)
Inductive Phase : Type := Clean | VerifyClean | Install | Cudnn | Verification.

Definition phase (w : World) (depth : nat) (p : Phase) : M bool :=
  match p with
  | Clean => Setup.process_cleanup w depth
  | VerifyClean => Setup.verify_cleanup w
  | Install => Setup.process_installation w
  | Cudnn => Setup.process_cudnn_setup w
  | Verification => Setup.process_verification w
  end.

(** The phases that the flags other than [--full] select. *)
Definition flag_of (args : Setup.Args.t) (p : Phase) : bool :=
  match p with
  | Clean => Setup.Args.clean args
  | VerifyClean => Setup.Args.verify_cleanup args
  | Install => Setup.Args.install args
  | Cudnn => Setup.Args.cudnn args
  | Verification => Setup.Args.verify args
  end.

Definition selected_phases (args : Setup.Args.t) : list Phase :=
  filter (flag_of args) [Clean; VerifyClean; Install; Cudnn; Verification].

(** The command that [run_python_script] builds. *)
Definition python (w : World) (script : string) : Command :=
  Argv [sys_executable w; script].

(** The two lines of the orchestrator when it is not run by an
    administrator. *)
Definition needs_administrator : History :=
  [Printed (log_line (Setup.status_color Error) Error
     "Este script requiere privilegios de administrador.");
   Printed (log_line (Setup.status_color Info) Info
     "Por favor, ejecuta el script como administrador.")].

Definition shutdown_command : Command := Argv ["shutdown"; "/r"; "/t"; "10"].

Definition cudnn_question : string :=
  "¿Ya has descargado cuDNN y quieres instalarlo ahora? (S/N): ".

Definition setup_install_and_verify : Setup.Args.t :=
  {| Setup.Args.clean := false; Setup.Args.verify_cleanup := false;
     Setup.Args.install := true; Setup.Args.verify := true;
     Setup.Args.cudnn := false; Setup.Args.full := false;
     Setup.Args.requirements := false |}.

Definition setup_full_with_requirements : Setup.Args.t :=
  {| Setup.Args.clean := true; Setup.Args.verify_cleanup := false;
     Setup.Args.install := false; Setup.Args.verify := false;
     Setup.Args.cudnn := false; Setup.Args.full := true;
     Setup.Args.requirements := true |}.

(** A Windows machine, run by an administrator, where every script is
    present and succeeds, with an operator who answers s once. *)
Definition rebooting_windows : World :=
  machine "Windows" (Some 1%Z) ["s"] all_files (commands_print "").

(** The same machine with nobody at the keyboard. *)
Definition unattended_windows : World :=
  machine "Windows" (Some 1%Z) [] all_files (commands_print "").

(* ================================================================= *)
(** ** The lines of the driver tool *)

(** A line on which the driver check reads a version. *)
Definition labelled (line : string) : bool :=
  Py.contains "Driver Version" line || Py.contains "CUDA Version" line.

(** A line that the driver check can read: it has no label, or a colon. *)
Definition readable (line : string) : bool :=
  negb (labelled line) || Py.contains ":" line.

(** The output of the driver tool on a real machine, in short. *)
Definition smi_banner : string :=
  "| NVIDIA-SMI 535.104.05   Driver Version: 535.104.05   CUDA Version: 12.2  |".

(* ================================================================= *)
(** ** The places of a run of the framework check of the prober *)

Section TorchPoints.

Variable w : World.

(** The lines of the loop over the devices, from device [i] on. *)
Fixpoint device_lines (i : nat) (names : list string) : History :=
  match names with
  | [] => []
  | name :: rest =>
      Printed (log_line (status_color Info) Info
                 ("   - Dispositivo " ++ nat_to_string i ++ ": " ++ name))
      :: device_lines (S i) rest
  end.

(** The history when the framework is imported, when it is asked for an
    accelerator, when it is asked for the devices and when the timing
    comparison is run, in a check started at [h]. *)
Definition at_import (h : History) : History :=
  (h ++ [Printed (log_line (status_color Info) Info "Verificando PyTorch con CUDA...")])%list.

Definition at_is_available (h : History) : History :=
  (h ++ [Printed (log_line (status_color Info) Info "Verificando PyTorch con CUDA...");
         Imported "torch";
         Printed (log_line (status_color Success) Success
                    ("✅ PyTorch versión " ++ torch_version w ++ " encontrado"))])%list.

Definition at_devices (h : History) : History :=
  (h ++ [Printed (log_line (status_color Info) Info "Verificando PyTorch con CUDA...");
         Imported "torch";
         Printed (log_line (status_color Success) Success
                    ("✅ PyTorch versión " ++ torch_version w ++ " encontrado"));
         Printed (log_line (status_color Success) Success "✅ CUDA disponible para PyTorch")])%list.

Definition at_benchmark (h : History) (names : list string) : History :=
  (h ++ [Printed (log_line (status_color Info) Info "Verificando PyTorch con CUDA...");
         Imported "torch";
         Printed (log_line (status_color Success) Success
                    ("✅ PyTorch versión " ++ torch_version w ++ " encontrado"));
         Printed (log_line (status_color Success) Success "✅ CUDA disponible para PyTorch");
         Printed (log_line (status_color Info) Info
                    ("   - Dispositivos CUDA: " ++ nat_to_string (length names)))]
     ++ device_lines 0 names
     ++ [Printed (log_line (status_color Info) Info
                    ("   - Versión CUDA: " ++ torch_version_cuda w))])%list.

(** The framework is imported, reports an accelerator and its devices, and
    the timing comparison runs to its end. *)
Definition torch_works (h : History) : bool :=
  match import_module w (at_import h) "torch" with
  | ImportOk =>
      match torch_cuda_is_available w (at_is_available h) with
      | Ok true =>
          match torch_cuda_device_names w (at_devices h) with
          | Ok names =>
              match torch_benchmark w (at_benchmark h names) with
              | Ok _ => true
              | Throws _ => false
              end
          | Throws _ => false
          end
      | _ => false
      end
  | _ => false
  end.

End TorchPoints.

(* ================================================================= *)
(** ** The places of a run of the checks of the verifier *)

(** An entry of PATH in which [check_path_env] finds the pattern. *)
Definition path_hit (search_pattern path : string) : bool :=
  Py.contains (Py.lower search_pattern) (Py.lower path).

(** The one line [check_path_env] prints. *)
Definition path_line (name search_pattern : string) (paths : list string) : string :=
  match find (path_hit search_pattern) paths with
  | Some path =>
      log_line (status_color Success) Success
        ("✅ " ++ name ++ " encontrado en PATH: " ++ path)
  | None =>
      log_line (status_color Error) Error ("❌ " ++ name ++ " no encontrado en PATH")
  end.

(** The history when the Python check of the verifier runs the installer
    of packages, after an interpreter that printed [stdout] and whose
    version is [version]. *)
Definition at_pip (h : History) (stdout version : string) : History :=
  (h ++ [Printed (log_line (status_color Info) Info "Verificando Python...");
         Ran (ShellCmd "python --version");
         Printed (log_line (status_color Success) Success ("✅ " ++ stdout))]
     ++ (if Py.startswith version "3.10." then []
         else [Printed (log_line (status_color Warning) Warning
                 ("⚠️ La versión de Python es " ++ version ++ ", se recomienda 3.10.x"))]))%list.

(** The machine [w] with other answers of the commands. *)
Definition with_commands (w : World) (commands : History -> Command -> Completed)
  : World :=
  {| platform_system := platform_system w;
     platform_release := platform_release w;
     platform_version := platform_version w;
     platform_machine := platform_machine w;
     platform_processor := platform_processor w;
     IsUserAnAdmin := IsUserAnAdmin w;
     stdin := stdin w;
     environ := environ w;
     os_pathsep := os_pathsep w;
     os_path_join := os_path_join w;
     os_path_basename := os_path_basename w;
     os_path_exists := os_path_exists w;
     os_makedirs := os_makedirs w;
     write_file := write_file w;
     glob := glob w;
     beside_script := beside_script w;
     sys_executable := sys_executable w;
     subprocess_run := commands;
     str_CalledProcessError := str_CalledProcessError w;
     find_spec := find_spec w;
     import_module := import_module w;
     module_version := module_version w;
     torch_version := torch_version w;
     torch_version_cuda := torch_version_cuda w;
     torch_cuda_is_available := torch_cuda_is_available w;
     torch_cuda_device_names := torch_cuda_device_names w;
     torch_benchmark := torch_benchmark w |}.

(** The machine [w] with the modules that are found and what their import
    does, the same during the whole run. *)
Definition with_modules (w : World) (found : string -> bool)
  (outcome : string -> ImportOutcome) : World :=
  {| platform_system := platform_system w;
     platform_release := platform_release w;
     platform_version := platform_version w;
     platform_machine := platform_machine w;
     platform_processor := platform_processor w;
     IsUserAnAdmin := IsUserAnAdmin w;
     stdin := stdin w;
     environ := environ w;
     os_pathsep := os_pathsep w;
     os_path_join := os_path_join w;
     os_path_basename := os_path_basename w;
     os_path_exists := os_path_exists w;
     os_makedirs := os_makedirs w;
     write_file := write_file w;
     glob := glob w;
     beside_script := beside_script w;
     sys_executable := sys_executable w;
     subprocess_run := subprocess_run w;
     str_CalledProcessError := str_CalledProcessError w;
     find_spec := fun _ name => found name;
     import_module := fun _ name => outcome name;
     module_version := module_version w;
     torch_version := torch_version w;
     torch_version_cuda := torch_version_cuda w;
     torch_cuda_is_available := torch_cuda_is_available w;
     torch_cuda_device_names := torch_cuda_device_names w;
     torch_benchmark := torch_benchmark w |}.

(** The import succeeded. *)
Definition imported (o : ImportOutcome) : bool :=
  match o with
  | ImportOk => true
  | _ => false
  end.

(** A library that is found and whose import succeeds. *)
Definition installed (found : string -> bool) (outcome : string -> ImportOutcome)
  (library : string * string) : bool :=
  found (fst library) && imported (outcome (fst library)).

(** All libraries but SciPy are found, and Pandas cannot be imported. *)
Definition scipy_missing (name : string) : bool := negb (name =? "scipy")%string.

Definition pandas_broken (name : string) : ImportOutcome :=
  if (name =? "pandas")%string then ImportFails "DLL load failed" else ImportOk.

(** The history when the framework check of the verifier looks for the
    framework and imports it, and when it asks for an accelerator. *)
Definition at_find_spec (h : History) : History :=
  (h ++ [Printed (log_line (status_color Info) Info
                    "Verificando PyTorch y soporte CUDA...")])%list.

Definition at_cuda_query (w : World) (h : History) : History :=
  (h ++ [Printed (log_line (status_color Info) Info
                    "Verificando PyTorch y soporte CUDA...");
         Imported "torch";
         Printed (log_line (status_color Success) Success
                    ("✅ PyTorch " ++ torch_version w ++ " instalado"))])%list.

(** The modules of which an import was tried, in order. *)
Fixpoint imports (h : History) : list string :=
  match h with
  | [] => []
  | Imported name :: rest => name :: imports rest
  | _ :: rest => imports rest
  end.

(* ================================================================= *)
(** ** The commands of a run *)

(** A computation that runs no command outside [allowed]. *)
Definition runs_only {A} (allowed : list Command) (m : M A) : Prop :=
  forall h, incl (commands_run (snd (m h))) allowed.

(** The commands of the phases of the orchestrator other than the cleanup. *)
Definition later_commands (w : World) : list Command :=
  [powershell (beside_script w "verify_cleanup.ps1");
   powershell (beside_script w "install.ps1");
   powershell (beside_script w "setup_cudnn.ps1");
   python w (beside_script w "verify.py")].

(** Only the verification of the cleanup and the installation are asked
    for. *)
Definition setup_verify_cleanup_and_install : Setup.Args.t :=
  {| Setup.Args.clean := false; Setup.Args.verify_cleanup := true;
     Setup.Args.install := true; Setup.Args.verify := false;
     Setup.Args.cudnn := false; Setup.Args.full := false;
     Setup.Args.requirements := false |}.

(** A machine whose commands all print the version line of a compiler that
    writes the word release with a capital letter, and one whose commands
    all print a driver version without a colon. *)
Definition capital_release : World :=
  windows_printing "Cuda compilation tools, Release 12.4, V12.4.131".

Definition driver_without_colon : World :=
  windows_printing "Driver Version 535.104.05".

(* ================================================================= *)
(** ** The summary of the verifier *)

(** The line of the summary for a check and its result. *)
Definition summary_line (item : string * bool) : string :=
  let status := if snd item then Success else Error in
  log_line (status_color status) status
    (fst item ++ ": " ++ (if snd item then "PASS" else "FAIL")).

(** What the verifier prints after its last check, for the results of the
    checks. *)
Definition summary (names : list string) (results : list bool) : History :=
  ([Printed (Py.nl ++ rule "=" ++ Py.nl);
    Printed (log_line (status_color Info) Info "Resumen de la verificación:")]
   ++ map (fun item => Printed (summary_line item)) (combine names results)
   ++ Printed (Py.nl ++ rule "=" ++ Py.nl)
   :: (if all_true results
       then [Printed (log_line (status_color Success) Success
                        "¡Todo el entorno está correctamente configurado!")]
       else [Printed (log_line (status_color Warning) Warning
                        "Se encontraron problemas en el entorno. Revisa los detalles anteriores.");
             Printed (log_line (status_color Info) Info
                        "Para solucionar problemas comunes, consulta el archivo troubleshooting.md")]))%list.

(** What [run_all_checks] prints before the first check. *)
Definition opening (w : World) : M unit :=
  log "Iniciando verificación del entorno de desarrollo para IA/ML..." Info ;;
  print (Py.nl ++ rule "=" ++ Py.nl) ;;
  Verify.print_system_info w ;;
  print (Py.nl ++ rule "-" ++ Py.nl).

(** A Linux machine with the framework and the libraries, on which every
    command prints the version of the interpreter; none of the paths of
    Visual Studio exists there and the search for its compiler finds
    nothing. *)
Definition linux_without_cl : World :=
  with_torch (machine "Linux" None [] no_files (commands_print "Python 3.10.11")).

(** A full run asked for with [--clean] too. *)
Definition setup_full_and_clean : Setup.Args.t :=
  {| Setup.Args.clean := true; Setup.Args.verify_cleanup := false;
     Setup.Args.install := false; Setup.Args.verify := false;
     Setup.Args.cudnn := false; Setup.Args.full := true;
     Setup.Args.requirements := false |}.

(** A full run asked for with [--clean] and [--verify-cleanup]. *)
Definition setup_full_clean_and_verify_cleanup : Setup.Args.t :=
  {| Setup.Args.clean := true; Setup.Args.verify_cleanup := true;
     Setup.Args.install := false; Setup.Args.verify := false;
     Setup.Args.cudnn := false; Setup.Args.full := true;
     Setup.Args.requirements := false |}.

(** A Windows machine, run by an administrator, where every script is
    present and succeeds, with an operator who answers n to every question
    put in a full run. *)
Definition declining_windows : World :=
  machine "Windows" (Some 1%Z) ["n"; "n"; "n"] all_files (commands_print "").

(** The cleanup and the installation are asked for. *)
Definition setup_clean_and_install : Setup.Args.t :=
  {| Setup.Args.clean := true; Setup.Args.verify_cleanup := false;
     Setup.Args.install := true; Setup.Args.verify := false;
     Setup.Args.cudnn := false; Setup.Args.full := false;
     Setup.Args.requirements := false |}.

(* ================================================================= *)
(** ** Properties of computations *)

Unset Implicit Arguments.

Arguments log_line : simpl never.
Arguments status_color : simpl never.
Arguments Setup.status_color : simpl never.
Arguments String.append : simpl never.
Arguments rule : simpl never.
Arguments Py.strip : simpl never.
Arguments Py.split : simpl never.
Arguments Py.contains : simpl never.
Arguments Py.upper : simpl never.
Arguments Py.lower : simpl never.
Arguments nat_to_string : simpl never.

#[export] Instance meq_Equivalence A : Equivalence (@meq A).
Proof.
  split.
  - intros m h; reflexivity.
  - intros m m' H h; symmetry; apply H.
  - intros m1 m2 m3 H1 H2 h; rewrite H1; apply H2.
Qed.

#[export] Instance bind_Proper A B :
  Proper (@meq A ==> pointwise_relation A (@meq B) ==> @meq B) (@bind A B).
Proof.
  intros m m' Hm k k' Hk h. unfold bind. rewrite Hm.
  destruct (m' h) as [[a|e|c] t]; try reflexivity.
  rewrite (Hk a). reflexivity.
Qed.

Lemma bind_assoc A B C (m : M A) (f : A -> M B) (g : B -> M C) :
  bind (bind m f) g =~ bind m (fun x => bind (f x) g).
Proof.
  intros h. unfold bind.
  destruct (m h) as [[a|e|c] t]; try reflexivity.
  destruct (f a (h ++ t)%list) as [[b|e|c] t'] eqn:E; try reflexivity.
  rewrite <- app_assoc. destruct (g b _) as [r t'']. rewrite app_assoc. reflexivity.
Qed.

Lemma ret_bind A B (a : A) (f : A -> M B) : bind (ret a) f =~ f a.
Proof.
  intros h. unfold bind, ret. rewrite app_nil_r. destruct (f a h); reflexivity.
Qed.

Lemma bind_ret A (m : M A) : bind m (fun a => ret a) =~ m.
Proof.
  intros h. unfold bind, ret. destruct (m h) as [[a|e|c] t]; try reflexivity.
  rewrite app_nil_r. reflexivity.
Qed.

(** The result and the events of a sequence. *)
Lemma fst_bind A B (m : M A) (k : A -> M B) h :
  fst (bind m k h) =
  match fst (m h) with
  | Ret a => fst (k a (h ++ snd (m h))%list)
  | Raise e => Raise e
  | SysExit c => SysExit c
  end.
Proof.
  unfold bind. destruct (m h) as [[a|e|c] t]; cbn; try reflexivity.
  destruct (k a _); reflexivity.
Qed.

Lemma snd_bind A B (m : M A) (k : A -> M B) h :
  snd (bind m k h) =
  match fst (m h) with
  | Ret a => (snd (m h) ++ snd (k a (h ++ snd (m h))%list))%list
  | _ => snd (m h)
  end.
Proof.
  unfold bind. destruct (m h) as [[a|e|c] t]; cbn; try reflexivity.
  destruct (k a _); reflexivity.
Qed.

(** Bringing the two sides of an equation between computations to the same
    nesting, one step after the other. *)
Ltac norm_l :=
  lazymatch goal with
  | |- bind (bind _ _) _ =~ _ => etransitivity; [apply bind_assoc |]; cbn beta zeta
  | |- bind (ret _) _ =~ _ => etransitivity; [apply ret_bind |]; cbn beta zeta
  end.
Ltac norm_r :=
  lazymatch goal with
  | |- _ =~ bind (bind _ _) _ => etransitivity; [| symmetry; apply bind_assoc]; cbn beta zeta
  | |- _ =~ bind (ret _) _ => etransitivity; [| symmetry; apply ret_bind]; cbn beta zeta
  end.
Ltac sync :=
  repeat first [ norm_l | norm_r | (apply bind_Proper; [reflexivity | intros ?]) ].
Ltac by_cases :=
  repeat match goal with b : bool |- _ => destruct b end; reflexivity.

(** *** Computations that never call [sys.exit] *)

Lemma no_exit_ret A (a : A) : no_exit (ret a).
Proof. intros h c; discriminate. Qed.

Lemma no_exit_raise A e : no_exit (@raise A e).
Proof. intros h c; discriminate. Qed.

Lemma no_exit_emit e : no_exit (emit e).
Proof. intros h c; discriminate. Qed.

Lemma no_exit_ask A (f : History -> A) : no_exit (ask f).
Proof. intros h c; discriminate. Qed.

Lemma no_exit_bind A B (m : M A) (k : A -> M B) :
  no_exit m -> (forall a, no_exit (k a)) -> no_exit (bind m k).
Proof.
  intros Hm Hk h c. rewrite fst_bind.
  specialize (Hm h). destruct (fst (m h)) as [a|e|c'].
  - apply Hk.
  - discriminate.
  - intros E. apply (Hm c'). reflexivity.
Qed.

Lemma no_exit_try A (m : M A) (handler : Exn -> M A) :
  no_exit m -> (forall e, no_exit (handler e)) -> no_exit (try_except m handler).
Proof.
  intros Hm Hk h c. unfold try_except.
  specialize (Hm h). destruct (m h) as [[a|e|c'] t]; cbn in *.
  - discriminate.
  - specialize (Hk e (h ++ t)%list c). destruct (handler e _); exact Hk.
  - exact (Hm c).
Qed.

Lemma no_exit_index A (l : list A) i : no_exit (index l i).
Proof. unfold index. destruct (nth_error l i); [apply no_exit_ret | apply no_exit_raise]. Qed.

Lemma no_exit_of_ext A (x : Ext A) : no_exit (of_ext x).
Proof. destruct x; [apply no_exit_ret | apply no_exit_raise]. Qed.

Lemma no_exit_when b m : no_exit m -> no_exit (when_ b m).
Proof. intros H. destruct b; [exact H | apply no_exit_ret]. Qed.

Lemma no_exit_log s st : no_exit (log s st).
Proof. apply no_exit_emit. Qed.

Lemma no_exit_print s : no_exit (print s).
Proof. apply no_exit_emit. Qed.

Lemma no_exit_run w c : no_exit (run w c).
Proof. intros h c'; discriminate. Qed.

Lemma no_exit_run_command w c : no_exit (run_command w c).
Proof.
  apply no_exit_bind; [apply no_exit_run |].
  intros [out err rc | msg]; apply no_exit_ret.
Qed.

Ltac no_exit_step :=
  first
    [ apply no_exit_ret | apply no_exit_raise | apply no_exit_log
    | apply no_exit_print | apply no_exit_emit | apply no_exit_ask
    | apply no_exit_index | apply no_exit_of_ext | apply no_exit_run_command
    | apply no_exit_run
    | apply no_exit_when
    | apply no_exit_try; [| intros ?]
    | apply no_exit_bind; [| intros ?]
    | match goal with
      | |- no_exit (match ?x with _ => _ end) => destruct x
      end ].

Ltac no_exit_auto := repeat no_exit_step.

Lemma no_exit_run_in_order cs :
  Forall (fun c => no_exit c) cs -> no_exit (run_in_order cs).
Proof.
  induction 1 as [| c cs Hc _ IH]; cbn [run_in_order].
  - apply no_exit_ret.
  - apply no_exit_bind; [exact Hc | intros b].
    apply no_exit_bind; [exact IH | intros bs]. apply no_exit_ret.
Qed.

(** *** The checks of the prober never call [sys.exit] *)

Lemma no_exit_scan_driver_lines lines dv cv gn :
  no_exit (TestCuda.scan_driver_lines lines dv cv gn).
Proof.
  revert dv cv gn. induction lines as [| line rest IH]; intros; cbn [TestCuda.scan_driver_lines].
  - apply no_exit_ret.
  - unfold TestCuda.field_after_colon.
    apply no_exit_bind; [no_exit_auto | intros ?].
    apply no_exit_bind; [no_exit_auto | intros ?].
    apply IH.
Qed.

Lemma no_exit_check_cuda_driver w : no_exit (TestCuda.check_cuda_driver w).
Proof.
  unfold TestCuda.check_cuda_driver.
  apply no_exit_bind; [no_exit_auto | intros ?].
  apply no_exit_bind; [no_exit_auto | intros [[out err] rc]].
  destruct (negb (rc =? 0)%Z); [no_exit_auto |].
  apply no_exit_bind; [apply no_exit_scan_driver_lines | intros [[dv cv] gn]].
  no_exit_auto.
Qed.

Lemma no_exit_check_nvcc w : no_exit (TestCuda.check_nvcc w).
Proof. unfold TestCuda.check_nvcc. no_exit_auto. Qed.

Lemma no_exit_log_devices i names : no_exit (TestCuda.log_devices i names).
Proof.
  revert i. induction names as [| n rest IH]; intros i; cbn [TestCuda.log_devices].
  - apply no_exit_ret.
  - apply no_exit_bind; [no_exit_auto | intros ?]. apply IH.
Qed.

Lemma no_exit_test_pytorch_cuda w : no_exit (TestCuda.test_pytorch_cuda w).
Proof.
  unfold TestCuda.test_pytorch_cuda, TestCuda.import_torch.
  apply no_exit_bind; [no_exit_auto | intros ?].
  apply no_exit_try; [| intros ?; no_exit_auto].
  apply no_exit_bind; [no_exit_auto | intros ?].
  apply no_exit_bind; [no_exit_auto | intros ?].
  apply no_exit_bind; [no_exit_auto | intros ?].
  apply no_exit_bind; [no_exit_auto | intros [|]]; [| no_exit_auto].
  apply no_exit_bind; [no_exit_auto | intros ?].
  apply no_exit_bind; [no_exit_auto | intros ?].
  apply no_exit_bind; [no_exit_auto | intros ?].
  apply no_exit_bind; [no_exit_auto | intros ?].
  apply no_exit_bind; [apply no_exit_log_devices | intros ?].
  no_exit_auto.
Qed.

Lemma no_exit_generate_cuda_program w : no_exit (TestCuda.generate_cuda_program w).
Proof. unfold TestCuda.generate_cuda_program. no_exit_auto. Qed.

Lemma no_exit_framed w c : no_exit (TestCuda.framed w c).
Proof.
  unfold TestCuda.framed.
  apply no_exit_bind; [no_exit_auto | intros ?].
  apply no_exit_bind; [no_exit_auto | intros ?].
  apply no_exit_bind; [| intros ?; no_exit_auto].
  destruct c; cbn [TestCuda.check_of].
  - apply no_exit_check_cuda_driver.
  - apply no_exit_check_nvcc.
  - apply no_exit_test_pytorch_cuda.
  - apply no_exit_generate_cuda_program.
Qed.

(** *** The prober as a sequence of its selected checks *)

Lemma prober_main_structure w args :
  TestCuda.main w args =~
  (TestCuda.preamble w ;;
   results <- run_in_order (map (TestCuda.framed w) (TestCuda.selected args)) ;;
   TestCuda.report (all_true results)).
Proof.
  unfold TestCuda.main, TestCuda.selected, TestCuda.preamble, TestCuda.report.
  unfold TestCuda.is_selected, TestCuda.any_flag.
  set (all := if negb _ then true else TestCuda.Args.all args).
  cbn [filter].
  unfold TestCuda.is_selected, TestCuda.any_flag. fold all.
  destruct (TestCuda.Args.driver args || all), (TestCuda.Args.nvcc args || all),
     (TestCuda.Args.pytorch args || all), (TestCuda.Args.compile args || all);
  cbn [map run_in_order]; unfold TestCuda.framed; cbn [TestCuda.check_of TestCuda.heading];
  sync; by_cases.
Qed.

Lemma preamble_returns w h : fst (TestCuda.preamble w h) = Ret tt.
Proof.
  unfold TestCuda.preamble.
  destruct (negb (platform_system w =? "Windows")), (negb (is_admin w)); reflexivity.
Qed.

Lemma prober_report_returns b h :
  fst (TestCuda.report b h) = Ret (if b then 0 else 1)%Z.
Proof. destruct b; reflexivity. Qed.

Lemma prober_script_result w args h :
  fst (TestCuda.script w args h) =
  end_of_checks
    (fst (run_in_order (map (TestCuda.framed w) (TestCuda.selected args))
            (h ++ snd (TestCuda.preamble w h))%list)).
Proof.
  unfold TestCuda.script. rewrite fst_bind.
  rewrite (prober_main_structure w args h).
  rewrite fst_bind, preamble_returns, fst_bind.
  destruct (fst (run_in_order _ _)) as [results|e|c]; cbn [end_of_checks]; try reflexivity.
  rewrite prober_report_returns. reflexivity.
Qed.

(** *** The verifier as a sequence of its checks *)

Lemma no_exit_find_in_paths name pattern paths :
  no_exit (Verify.find_in_paths name pattern paths).
Proof.
  induction paths as [| path rest IH]; cbn [Verify.find_in_paths].
  - no_exit_auto.
  - destruct (Py.contains _ _); [no_exit_auto | exact IH].
Qed.

Lemma no_exit_check_path_env w name pattern :
  no_exit (Verify.check_path_env w name pattern).
Proof. apply no_exit_find_in_paths. Qed.

Lemma no_exit_check_python w : no_exit (Verify.check_python w).
Proof.
  unfold Verify.check_python.
  apply no_exit_bind; [no_exit_auto | intros ?].
  apply no_exit_bind; [no_exit_auto | intros [[out err] rc]].
  destruct (negb (rc =? 0)%Z); [no_exit_auto |].
  apply no_exit_bind; [no_exit_auto | intros ?].
  apply no_exit_bind; [no_exit_auto | intros ?].
  apply no_exit_bind; [no_exit_auto | intros ?].
  apply no_exit_bind; [no_exit_auto | intros [[out' err'] rc']].
  destruct (negb (rc' =? 0)%Z); [no_exit_auto |].
  apply no_exit_bind; [no_exit_auto | intros ?].
  apply no_exit_bind; [apply no_exit_check_path_env | intros ?].
  no_exit_auto.
Qed.

Lemma no_exit_find_vs w paths : no_exit (Verify.find_vs w paths).
Proof.
  induction paths as [| path rest IH]; cbn [Verify.find_vs].
  - no_exit_auto.
  - apply no_exit_bind; [no_exit_auto | intros [|]]; [no_exit_auto | exact IH].
Qed.

Lemma no_exit_find_cl w paths : no_exit (Verify.find_cl w paths).
Proof.
  induction paths as [| path rest IH]; cbn [Verify.find_cl].
  - no_exit_auto.
  - apply no_exit_bind; [no_exit_auto | intros ?].
    apply no_exit_bind; [no_exit_auto | intros [| first others]]; [exact IH | no_exit_auto].
Qed.

Lemma no_exit_check_visual_studio w : no_exit (Verify.check_visual_studio w).
Proof.
  unfold Verify.check_visual_studio.
  apply no_exit_bind; [no_exit_auto | intros ?].
  apply no_exit_bind; [apply no_exit_find_vs | intros ?].
  apply no_exit_bind; [no_exit_auto | intros ?].
  apply no_exit_bind; [apply no_exit_find_cl | intros ?].
  no_exit_auto.
Qed.

Lemma no_exit_fourth_line_or_all s : no_exit (Verify.fourth_line_or_all s).
Proof. unfold Verify.fourth_line_or_all. no_exit_auto. Qed.

Lemma no_exit_find_cudnn w paths : no_exit (Verify.find_cudnn w paths).
Proof.
  induction paths as [| path rest IH]; cbn [Verify.find_cudnn].
  - no_exit_auto.
  - apply no_exit_bind; [no_exit_auto | intros e].
    destruct (truthy path && e); [no_exit_auto | exact IH].
Qed.

Lemma no_exit_check_cuda w : no_exit (Verify.check_cuda w).
Proof.
  unfold Verify.check_cuda.
  apply no_exit_bind; [no_exit_auto | intros ?].
  apply no_exit_bind; [no_exit_auto | intros [[out err] rc]].
  destruct (negb (rc =? 0)%Z); [no_exit_auto |].
  apply no_exit_bind; [apply no_exit_fourth_line_or_all | intros ?].
  apply no_exit_bind; [no_exit_auto | intros ?].
  apply no_exit_bind; [apply no_exit_fourth_line_or_all | intros ?].
  apply no_exit_bind; [no_exit_auto | intros ?].
  apply no_exit_bind; [no_exit_auto | intros ?].
  apply no_exit_bind; [apply no_exit_check_path_env | intros ?].
  apply no_exit_bind; [apply no_exit_find_cudnn | intros ?].
  no_exit_auto.
Qed.

Lemma no_exit_import w name : no_exit (Verify.import_ w name).
Proof. unfold Verify.import_. no_exit_auto. Qed.

Lemma no_exit_check_pytorch w : no_exit (Verify.check_pytorch w).
Proof.
  unfold Verify.check_pytorch.
  apply no_exit_bind; [no_exit_auto | intros ?].
  apply no_exit_bind; [no_exit_auto | intros spec].
  destruct (negb spec); [no_exit_auto |].
  apply no_exit_bind; [apply no_exit_import | intros ?].
  no_exit_auto.
Qed.

Lemma no_exit_check_libraries w libs acc :
  no_exit (Verify.check_libraries w libs acc).
Proof.
  revert acc. induction libs as [| [module_name display_name] rest IH]; intros acc;
    cbn [Verify.check_libraries].
  - no_exit_auto.
  - apply no_exit_bind; [no_exit_auto | intros spec].
    apply no_exit_bind; [| intros ?; apply IH].
    destruct (negb spec); [no_exit_auto |].
    apply no_exit_try; [| intros ?; no_exit_auto].
    apply no_exit_bind; [apply no_exit_import | intros ?]. no_exit_auto.
Qed.

Lemma no_exit_check_ml_libraries w : no_exit (Verify.check_ml_libraries w).
Proof.
  unfold Verify.check_ml_libraries.
  apply no_exit_bind; [no_exit_auto | intros ?]. apply no_exit_check_libraries.
Qed.

Lemma no_exit_verifier_checks w :
  Forall (fun c => no_exit c) (map (@Verify.framed) (map snd (Verify.checks w))).
Proof.
  unfold Verify.checks, Verify.framed; cbn [map snd].
  repeat constructor; (apply no_exit_bind; [no_exit_auto | intros ?]).
  - apply no_exit_check_python.
  - apply no_exit_check_visual_studio.
  - apply no_exit_check_cuda.
  - apply no_exit_check_pytorch.
  - apply no_exit_check_ml_libraries.
Qed.

Lemma print_gpu_info_returns lines h : fst (Verify.print_gpu_info lines h) = Ret tt.
Proof.
  revert h. induction lines as [| line rest IH]; intros h; cbn [Verify.print_gpu_info].
  - reflexivity.
  - rewrite fst_bind.
    assert (E : forall h', fst ((if Py.contains "NVIDIA" line && Py.contains "GPU" line
                 then log ("   - GPU: " ++ Py.strip line) Info
                 else if Py.contains "Driver Version" line
                      then log ("   - Driver NVIDIA: " ++ Py.strip line) Info
                      else if Py.contains "CUDA Version" line
                           then log ("   - CUDA Version (driver): " ++ Py.strip line) Info
                           else ret tt) h') = Ret tt).
    { intros h'. destruct (_ && _); [reflexivity |].
      destruct (Py.contains "Driver Version" line); [reflexivity |].
      destruct (Py.contains "CUDA Version" line); reflexivity. }
    rewrite E. apply IH.
Qed.

Lemma print_system_info_returns w h : fst (Verify.print_system_info w h) = Ret tt.
Proof.
  unfold Verify.print_system_info.
  repeat (rewrite fst_bind; cbn [log print emit fst snd]).
  unfold run_command. rewrite fst_bind. cbn [run fst snd].
  destruct (subprocess_run w _ _) as [out err rc | msg]; cbn [ret fst snd].
  - destruct (rc =? 0)%Z; [apply print_gpu_info_returns | reflexivity].
  - reflexivity.
Qed.

Lemma before_checks_returns w h : fst (Verify.before_checks w h) = Ret tt.
Proof.
  unfold Verify.before_checks.
  rewrite fst_bind.
  assert (E : forall h', fst (when_ (negb (is_admin w))
     (log "Se recomienda ejecutar este script como administrador para verificaciones completas." Warning) h') = Ret tt).
  { intros h'. destruct (negb (is_admin w)); reflexivity. }
  rewrite E.
  repeat (rewrite fst_bind; cbn [log print emit fst snd]).
  rewrite print_system_info_returns. reflexivity.
Qed.

Lemma verifier_script_structure w :
  platform_system w = "Windows" ->
  Verify.script w =~
  (Verify.before_checks w ;;
   results <- run_in_order (map (@Verify.framed) (map snd (Verify.checks w))) ;;
   success <- Verify.report w results ;;
   sys_exit (if success : bool then 0 else 1)%Z).
Proof.
  intros Hw. unfold Verify.script. rewrite Hw. cbn [String.eqb Ascii.eqb Bool.eqb negb].
  unfold Verify.run_all_checks, Verify.before_checks, Verify.report, Verify.framed.
  unfold Verify.checks. cbn [map snd fst Verify.run_checks run_in_order].
  sync. reflexivity.
Qed.

Lemma run_in_order_length cs h results :
  fst (run_in_order cs h) = Ret results -> length results = length cs.
Proof.
  revert h results. induction cs as [| c cs IH]; intros h results; cbn [run_in_order].
  - intros E. injection E as <-. reflexivity.
  - rewrite fst_bind. destruct (fst (c h)) as [b|e|x]; try discriminate.
    rewrite fst_bind. destruct (fst (run_in_order cs _)) as [bs|e|x] eqn:E; try discriminate.
    cbn. intros E'. injection E' as <-. cbn. f_equal. exact (IH _ _ E).
Qed.

Lemma summarize_returns items acc h :
  fst (Verify.summarize items acc h) = Ret (acc && all_true (map snd items)).
Proof.
  revert acc h. induction items as [| [name result] rest IH]; intros acc h;
    cbn [Verify.summarize map snd all_true forallb].
  - rewrite andb_true_r. reflexivity.
  - rewrite fst_bind. cbn [log print emit fst snd]. rewrite IH.
    destruct result, acc; reflexivity.
Qed.

Lemma verifier_report_returns w results h :
  length results = 5 ->
  fst (Verify.report w results h) = Ret (all_true results).
Proof.
  intros Hlen.
  destruct results as [| b1 [| b2 [| b3 [| b4 [| b5 [| b6 rest]]]]]]; try discriminate.
  unfold Verify.report.
  repeat (rewrite fst_bind; cbn [log print emit fst snd]).
  rewrite summarize_returns.
  unfold Verify.checks; cbn [map fst snd combine all_true forallb andb].
  rewrite fst_bind. cbn [print emit fst snd]. rewrite fst_bind.
  destruct b1, b2, b3, b4, b5; reflexivity.
Qed.

Lemma verifier_script_result w h :
  platform_system w = "Windows" ->
  fst (Verify.script w h) =
  end_of_checks
    (fst (run_in_order (map (@Verify.framed) (map snd (Verify.checks w)))
            (h ++ snd (Verify.before_checks w h))%list)).
Proof.
  intros Hw. rewrite (verifier_script_structure w Hw h).
  rewrite fst_bind, before_checks_returns, fst_bind.
  destruct (fst (run_in_order _ _)) as [results|e|c] eqn:E; cbn [end_of_checks]; try reflexivity.
  apply run_in_order_length in E. rewrite fst_bind.
  rewrite verifier_report_returns by exact E.
  destruct (all_true results); reflexivity.
Qed.

Lemma exit_status_end_of_checks r :
  (forall c, r <> SysExit c) ->
  exit_status (terminate (end_of_checks r)) = (if passed r then 0 else 1)%Z.
Proof.
  intros H. destruct r as [results|e|c]; cbn.
  - destruct (all_true results); reflexivity.
  - reflexivity.
  - destruct (H c). reflexivity.
Qed.

Lemma all_true_iff results :
  all_true results = true <-> (forall b, In b results -> b = true).
Proof.
  unfold all_true. rewrite forallb_forall. reflexivity.
Qed.

Lemma all_true_Permutation results results' :
  Permutation results results' -> all_true results = all_true results'.
Proof.
  induction 1 as [| b l l' _ IH | a b l | l l' l'' _ IH1 _ IH2]; cbn.
  - reflexivity.
  - unfold all_true in IH. rewrite IH. reflexivity.
  - destruct a, b; reflexivity.
  - congruence.
Qed.

(** C3.  In the prober and in the verifier the exit status is 0 exactly when
    every selected check returned true, and 1 otherwise: the script ends as
    [end_of_checks] says from the results of the selected checks run in
    order, the aggregate being their logical AND, which is true exactly when
    each result is true and does not depend on the order of the results. *)
Theorem aggregate_is_conjunction_of_selected_checks :
  (forall w args h,
     let r := fst (run_in_order (map (TestCuda.framed w) (TestCuda.selected args))
                     (h ++ snd (TestCuda.preamble w h))%list) in
     fst (TestCuda.script w args h) = end_of_checks r /\
     exit_status (terminate (fst (TestCuda.script w args h))) =
       (if passed r then 0 else 1)%Z) /\
  (forall w h,
     platform_system w = "Windows" ->
     let r := fst (run_in_order (map (@Verify.framed) (map snd (Verify.checks w)))
                     (h ++ snd (Verify.before_checks w h))%list) in
     fst (Verify.script w h) = end_of_checks r /\
     exit_status (terminate (fst (Verify.script w h))) =
       (if passed r then 0 else 1)%Z) /\
  (forall results,
     all_true results = true <-> (forall b, In b results -> b = true)) /\
  (forall results results',
     Permutation results results' -> all_true results = all_true results').
Proof.
  split; [| split; [| split]].
  - intros w args h r. split.
    + apply prober_script_result.
    + rewrite prober_script_result. apply exit_status_end_of_checks.
      intros c. apply no_exit_run_in_order.
      apply Forall_forall. intros m Hm. apply in_map_iff in Hm.
      destruct Hm as [c' [<- _]]. apply no_exit_framed.
  - intros w h Hw r. split.
    + apply verifier_script_result, Hw.
    + rewrite verifier_script_result by exact Hw. apply exit_status_end_of_checks.
      intros c. apply no_exit_run_in_order, no_exit_verifier_checks.
  - apply all_true_iff.
  - apply all_true_Permutation.
Qed.

(* ================================================================= *)
(** ** The check of the platform (C1) *)

Lemma setup_stops_off_windows w depth args h :
  platform_system w <> "Windows" ->
  Setup.script w depth args h = (SysExit 1%Z, [Printed setup_not_windows]).
Proof.
  intros Hw. apply String.eqb_neq in Hw.
  unfold Setup.script, Setup.main. rewrite Hw. reflexivity.
Qed.

Lemma verify_stops_off_windows w h :
  platform_system w <> "Windows" ->
  Verify.script w h = (SysExit 1%Z, [Printed verify_not_windows]).
Proof.
  intros Hw. apply String.eqb_neq in Hw.
  unfold Verify.script. rewrite Hw. reflexivity.
Qed.

Lemma snd_script_prober w args h :
  exists t, snd (TestCuda.script w args h) = (snd (TestCuda.preamble w h) ++ t)%list.
Proof.
  unfold TestCuda.script. rewrite snd_bind.
  rewrite (prober_main_structure w args h).
  rewrite fst_bind, snd_bind, preamble_returns.
  destruct (fst (_ (h ++ _)%list)) as [code|e|c].
  - rewrite <- app_assoc. eexists; reflexivity.
  - eexists; reflexivity.
  - eexists; reflexivity.
Qed.

Lemma printed_app line (h t : History) :
  printed line (h ++ t)%list = printed line h || printed line t.
Proof. apply existsb_app. Qed.

Lemma prober_warns_off_windows w h :
  platform_system w <> "Windows" ->
  printed prober_not_windows (snd (TestCuda.preamble w h)) = true.
Proof.
  intros Hw. apply String.eqb_neq in Hw.
  unfold TestCuda.preamble. rewrite Hw.
  destruct (negb (is_admin w)); cbn -[String.eqb prober_not_windows log_line];
    unfold prober_not_windows; rewrite String.eqb_refl;
    rewrite ?orb_true_r; reflexivity.
Qed.

(** C1, as amended.  When the platform is not Windows, the orchestrator and
    the verifier print one error line and exit with status 1, whatever the
    flags, and nothing else happens; the prober prints a warning and goes on:
    it ends as its selected checks decide. *)
Theorem platform_check_stops_orchestrator_and_verifier w :
  platform_system w <> "Windows" ->
  (forall depth args h,
     Setup.script w depth args h = (SysExit 1%Z, [Printed setup_not_windows])) /\
  (forall h,
     Verify.script w h = (SysExit 1%Z, [Printed verify_not_windows])) /\
  (forall args h,
     printed prober_not_windows (snd (TestCuda.script w args h)) = true /\
     fst (TestCuda.script w args h) =
       end_of_checks
         (fst (run_in_order (map (TestCuda.framed w) (TestCuda.selected args))
                 (h ++ snd (TestCuda.preamble w h))%list))).
Proof.
  intros Hw. split; [| split].
  - intros depth args h. apply setup_stops_off_windows, Hw.
  - intros h. apply verify_stops_off_windows, Hw.
  - intros args h. split.
    + destruct (snd_script_prober w args h) as [t ->].
      rewrite printed_app, prober_warns_off_windows by exact Hw. reflexivity.
    + apply prober_script_result.
Qed.

(** On a Linux machine the orchestrator stops at the check of the platform,
    whatever its flags. *)
Lemma platform_check_witness :
  platform_system linux_box <> "Windows" /\
  (forall depth args h,
     Setup.script linux_box depth args h = (SysExit 1%Z, [Printed setup_not_windows])).
Proof.
  split; [discriminate |].
  apply (platform_check_stops_orchestrator_and_verifier linux_box). discriminate.
Defined.

(** C1 fails as stated: on Linux the prober runs the driver check and exits
    with status 0. *)
Lemma prober_runs_off_windows :
  platform_system linux_box <> "Windows" /\
  fst (TestCuda.script linux_box prober_only_driver []) = SysExit 0%Z /\
  commands_run (snd (TestCuda.script linux_box prober_only_driver [])) =
    [ShellCmd "nvidia-smi"].
Proof.
  split; [discriminate |]. split; vm_compute; reflexivity.
Qed.

(* ================================================================= *)
(** ** No flag at all (C2) *)

Lemma setup_no_flag_prints_help w depth args h :
  platform_system w = "Windows" ->
  is_admin w = true ->
  Setup.any_flag args = false ->
  Setup.script w depth args h = (SysExit 0%Z, [PrintedHelp]).
Proof.
  intros Hw Ha Hf. unfold Setup.script, Setup.main.
  rewrite Hw, Ha, Hf. reflexivity.
Qed.

Lemma prober_no_flag_is_all w args h :
  TestCuda.any_flag args = false ->
  TestCuda.selected args = [TestCuda.Driver; TestCuda.Nvcc; TestCuda.Pytorch; TestCuda.Compile] /\
  TestCuda.script w args h = TestCuda.script w prober_all h.
Proof.
  intros Hf. destruct args as [d n p c a]. unfold TestCuda.any_flag in Hf. cbn in Hf.
  destruct d, n, p, c, a; try discriminate. split; reflexivity.
Qed.

(** C2, as amended.  With no flag set, the orchestrator, once the platform
    and the privileges are checked, prints the usage help and nothing else
    and exits with status 0; the prober selects its four checks and runs as
    with [--all].  (The verifier has no flags.) *)
Theorem no_flag_is_help_in_orchestrator_and_all_in_prober :
  forall w,
    (forall depth args h,
       platform_system w = "Windows" ->
       is_admin w = true ->
       Setup.any_flag args = false ->
       Setup.script w depth args h = (SysExit 0%Z, [PrintedHelp])) /\
    (forall args h,
       TestCuda.any_flag args = false ->
       TestCuda.selected args =
         [TestCuda.Driver; TestCuda.Nvcc; TestCuda.Pytorch; TestCuda.Compile] /\
       TestCuda.script w args h = TestCuda.script w prober_all h).
Proof.
  intros w. split.
  - intros depth args h. apply setup_no_flag_prints_help.
  - intros args h. apply prober_no_flag_is_all.
Qed.

(** C2 fails as stated: with no flag the prober prints no help, runs the
    commands of its checks and, on a machine without them, exits with
    status 1. *)
Lemma prober_no_flag_runs_checks :
  TestCuda.any_flag prober_no_flag = false /\
  printed_help (snd (TestCuda.script bare_windows prober_no_flag [])) = false /\
  firstn 2 (commands_run (snd (TestCuda.script bare_windows prober_no_flag []))) =
    [ShellCmd "nvidia-smi"; ShellCmd "nvcc --version"] /\
  fst (TestCuda.script bare_windows prober_no_flag []) = SysExit 1%Z.
Proof.
  split; [reflexivity |]. split; [| split]; vm_compute; reflexivity.
Qed.

(* ================================================================= *)
(** ** The operator declines the cuDNN configuration (C10) *)

Lemma count_asked_app (h t : History) :
  count_asked (h ++ t)%list = count_asked h + count_asked t.
Proof. unfold count_asked. rewrite filter_app, length_app. reflexivity. Qed.

Lemma input_at w prompt h answer :
  nth_error (stdin w) (count_asked h) = Some answer ->
  input w prompt h = (Ret answer, [Asked prompt answer]).
Proof. intros Ha. unfold input. rewrite Ha. reflexivity. Qed.

(** The number of answers given so far, when the history ends with events
    that are known. *)
Ltac count_answers :=
  rewrite ?count_asked_app; cbn [count_asked filter length]; rewrite ?Nat.add_0_r.

Lemma cudnn_declined_run w h answer :
  nth_error (stdin w) (count_asked h) = Some answer ->
  Py.upper answer <> "S" ->
  Setup.process_cudnn_setup w h =
  (Ret true,
   [Printed (log_line (Setup.status_color Title) Title "CONFIGURACIÓN DE CUDNN");
    Printed (log_line (Setup.status_color Info) Info "cuDNN requiere descarga manual desde NVIDIA Developer:");
    Printed (log_line (Setup.status_color Info) Info "1. Visita: https://developer.nvidia.com/cudnn");
    Printed (log_line (Setup.status_color Info) Info "2. Inicia sesión o crea una cuenta gratuita");
    Printed (log_line (Setup.status_color Info) Info "3. Descarga la versión compatible con CUDA 12.4");
    Printed (log_line (Setup.status_color Info) Info "4. Una vez descargado, ejecuta el script setup_cudnn.ps1");
    Asked "¿Ya has descargado cuDNN y quieres instalarlo ahora? (S/N): " answer;
    Printed (log_line (Setup.status_color Info) Info "Puedes ejecutar el script setup_cudnn.ps1 más tarde cuando hayas descargado cuDNN.")]).
Proof.
  intros Ha Hn. apply String.eqb_neq in Hn.
  unfold Setup.process_cudnn_setup, bind. cbn [Setup.log print emit].
  rewrite (input_at w _ _ answer) by (count_answers; exact Ha).
  rewrite Hn. reflexivity.
Qed.

Lemma finish_only_cudnn_declined w h answer success :
  nth_error (stdin w) (count_asked h) = Some answer ->
  Py.upper answer <> "S" ->
  fst (Setup.finish_phases w setup_only_cudnn success h) =
  Ret (if success then 0 else 1)%Z.
Proof.
  intros Ha Hn. unfold Setup.finish_phases, setup_only_cudnn.
  cbn [Setup.Args.install Setup.Args.full Setup.Args.cudnn Setup.Args.verify orb].
  rewrite fst_bind. cbn [ret fst snd].
  rewrite fst_bind, fst_bind.
  rewrite (cudnn_declined_run w _ answer) by (count_answers; assumption).
  cbn [fst snd ret andb].
  repeat (rewrite fst_bind; cbn [ret fst snd print emit]).
  destruct success; reflexivity.
Qed.

Lemma script_only_cudnn_declined w depth h answer :
  nth_error (stdin w) (count_asked h) = Some answer ->
  Py.upper answer <> "S" ->
  platform_system w = "Windows" ->
  is_admin w = true ->
  fst (Setup.script w depth setup_only_cudnn h) = SysExit 0%Z.
Proof.
  intros Ha Hn Hw Hadm. unfold Setup.script, Setup.main.
  rewrite Hw, Hadm. unfold Setup.run_phases, Setup.or_return.
  cbn [String.eqb Ascii.eqb Bool.eqb negb Setup.any_flag setup_only_cudnn
    Setup.Args.clean Setup.Args.verify_cleanup Setup.Args.install Setup.Args.verify
    Setup.Args.cudnn Setup.Args.full Setup.Args.requirements orb andb].
  rewrite fst_bind, fst_bind. unfold Setup.banner at 1.
  repeat (rewrite fst_bind; cbn [ret fst snd print emit Setup.log]).
  rewrite (finish_only_cudnn_declined w _ answer true); [reflexivity | | assumption].
  unfold Setup.banner, bind; cbn [print emit Setup.log fst snd ret].
  count_answers. exact Ha.
Qed.

(** C10.  When the operator answers the question about the cuDNN download
    with a text of ASCII characters other than S and s, the cuDNN phase runs
    no command and returns true; the aggregate is left as it was, and a run
    with the cuDNN flag alone exits with status 0. *)
Theorem declined_cudnn_counts_as_success w h answer :
  nth_error (stdin w) (count_asked h) = Some answer ->
  Py.isascii answer = true ->
  Py.upper answer <> "S" ->
  fst (Setup.process_cudnn_setup w h) = Ret true /\
  commands_run (snd (Setup.process_cudnn_setup w h)) = [] /\
  questions (snd (Setup.process_cudnn_setup w h)) =
    ["¿Ya has descargado cuDNN y quieres instalarlo ahora? (S/N): "] /\
  (forall success,
     fst (Setup.finish_phases w setup_only_cudnn success h) =
     Ret (if success then 0 else 1)%Z) /\
  (forall depth,
     platform_system w = "Windows" ->
     is_admin w = true ->
     fst (Setup.script w depth setup_only_cudnn h) = SysExit 0%Z).
Proof.
  intros Ha _ Hn.
  rewrite (cudnn_declined_run w h answer Ha Hn).
  split; [reflexivity |]. split; [reflexivity |]. split; [reflexivity |]. split.
  - intros success. apply (finish_only_cudnn_declined w h answer); assumption.
  - intros depth Hw Hadm. apply (script_only_cudnn_declined w depth h answer); assumption.
Qed.

(** An operator who answers n to the question about the cuDNN download, on
    a machine without any command: the phase returns true and the run with
    the cuDNN flag alone exits with status 0. *)
Lemma declined_cudnn_witness :
  fst (Setup.process_cudnn_setup (machine "Windows" (Some 1%Z) ["n"] all_files no_commands) []) =
    Ret true /\
  fst (Setup.script (machine "Windows" (Some 1%Z) ["n"] all_files no_commands) 1
         setup_only_cudnn []) = SysExit 0%Z.
Proof.
  pose proof (declined_cudnn_counts_as_success
                (machine "Windows" (Some 1%Z) ["n"] all_files no_commands) [] "n"
                eq_refl eq_refl ltac:(vm_compute; discriminate)) as H.
  split.
  - exact (proj1 H).
  - exact (proj2 (proj2 (proj2 (proj2 H))) 1 eq_refl eq_refl).
Defined.

(* ================================================================= *)
(** ** The driver tool prints a label without a colon (C7) *)

(** C7 fails on the code.  When the driver tool succeeds and prints the
    label of the driver version on a line without a colon, the driver check
    raises [IndexError]; nobody catches it, and the prober ends without its
    summary. *)
Theorem driver_label_without_colon_crashes_prober :
  let w := windows_printing "Driver Version 535.104.05" in
  fst (TestCuda.check_cuda_driver w []) = Raise IndexError /\
  terminate (fst (TestCuda.script w prober_all [])) = Crashed IndexError /\
  exit_status (terminate (fst (TestCuda.script w prober_all []))) = 1%Z /\
  commands_run (snd (TestCuda.script w prober_all [])) = [ShellCmd "nvidia-smi"] /\
  printed prober_all_passed (snd (TestCuda.script w prober_all [])) = false /\
  printed prober_some_failed (snd (TestCuda.script w prober_all [])) = false.
Proof.
  cbv zeta. repeat split; vm_compute; reflexivity.
Qed.

(* ================================================================= *)
(** ** The toolkit check of the verifier (C9) *)

(** C9 fails on the code.  When the compiler answers its version query with
    status 0 and writes the word release with a capital letter, the test on
    the lower-case line succeeds, the split of the line itself on "release"
    has one piece only, and the check raises [IndexError] instead of
    returning true. *)
Theorem check_cuda_raises_on_capitalised_release :
  let w := windows_printing "Cuda compilation tools, Release 12.4, V12.4.131" in
  subprocess_run w [] (ShellCmd "nvcc --version") =
    completed "Cuda compilation tools, Release 12.4, V12.4.131" "" 0%Z /\
  fst (Verify.check_cuda w []) = Raise IndexError.
Proof.
  cbv zeta. split; vm_compute; reflexivity.
Qed.

(* ================================================================= *)
(** ** Searching in a stripped string *)

Lemma prefix_empty t : String.prefix "" t = true.
Proof. destruct t; reflexivity. Qed.

Lemma prefix_snoc p t c :
  p <> "" -> ends_in p c = false ->
  String.prefix p (t ++ String c "") = String.prefix p t.
Proof.
  revert t. induction p as [| a p' IH]; intros t Hp He; [congruence |].
  destruct t as [| y t'].
  - change ("" ++ String c "") with (String c ""). cbn [String.prefix].
    destruct (ascii_dec a c) as [-> |]; [| reflexivity].
    destruct p' as [| b p'']; [| reflexivity].
    cbn in He. rewrite Ascii.eqb_refl in He. discriminate.
  - change (String y t' ++ String c "") with (String y (t' ++ String c "")).
    cbn [String.prefix].
    destruct (ascii_dec a y); [| reflexivity].
    destruct p' as [| b p'']; [rewrite !prefix_empty; reflexivity |].
    apply IH; [discriminate | exact He].
Qed.

Lemma contains_eq sub s :
  Py.contains sub s =
  if String.prefix sub s then true
  else match s with
       | EmptyString => false
       | String _ s' => Py.contains sub s'
       end.
Proof. destruct s; reflexivity. Qed.

Lemma contains_snoc p s c :
  p <> "" -> ends_in p c = false ->
  Py.contains p (s ++ String c "") = Py.contains p s.
Proof.
  intros Hp He. induction s as [| x s' IH].
  - pose proof (prefix_snoc p "" c Hp He) as H.
    change ("" ++ String c "") with (String c "") in *.
    rewrite (contains_eq p (String c "")), H, (contains_eq p "").
    destruct p; [congruence | reflexivity].
  - pose proof (prefix_snoc p (String x s') c Hp He) as H.
    change (String x s' ++ String c "") with (String x (s' ++ String c "")) in *.
    rewrite (contains_eq p (String x (s' ++ String c ""))), H, IH.
    rewrite (contains_eq p (String x s')). reflexivity.
Qed.

Lemma string_of_list_ascii_app l1 l2 :
  string_of_list_ascii (l1 ++ l2) =
  string_of_list_ascii l1 ++ string_of_list_ascii l2.
Proof.
  induction l1 as [| a l1 IH]; [reflexivity |].
  cbn [app string_of_list_ascii]. rewrite IH. reflexivity.
Qed.

Lemma contains_rev_drop_spaces p r :
  p <> "" -> (forall c, Py.isspace c = true -> ends_in p c = false) ->
  Py.contains p (Py.rev_string (Py.drop_spaces r)) = Py.contains p (Py.rev_string r).
Proof.
  intros Hp He. induction r as [| c r' IH]; [reflexivity |].
  cbn [Py.drop_spaces]. destruct (Py.isspace c) eqn:Hc; [| reflexivity].
  rewrite IH. unfold Py.rev_string. cbn [rev].
  rewrite string_of_list_ascii_app. cbn [string_of_list_ascii].
  symmetry. apply contains_snoc; [exact Hp | apply He, Hc].
Qed.

Lemma contains_rstrip p s :
  p <> "" -> (forall c, Py.isspace c = true -> ends_in p c = false) ->
  Py.contains p (Py.rstrip s) = Py.contains p s.
Proof.
  intros Hp He. unfold Py.rstrip. rewrite contains_rev_drop_spaces by assumption.
  unfold Py.rev_string.
  rewrite rev_involutive, string_of_list_ascii_of_string. reflexivity.
Qed.

Lemma contains_lstrip a p' s :
  Py.isspace a = false ->
  Py.contains (String a p') (Py.lstrip s) = Py.contains (String a p') s.
Proof.
  intros Ha. induction s as [| c s' IH]; [reflexivity |].
  cbn [Py.lstrip]. destruct (Py.isspace c) eqn:Hc; [| reflexivity].
  rewrite IH, (contains_eq (String a p') (String c s')). cbn [String.prefix].
  destruct (ascii_dec a c) as [-> |]; [congruence | reflexivity].
Qed.

(** Stripping a string neither adds nor removes an occurrence of a text
    that begins and ends with characters that are not white space. *)
Lemma contains_strip a p' s :
  Py.isspace a = false ->
  (forall c, Py.isspace c = true -> ends_in (String a p') c = false) ->
  Py.contains (String a p') (Py.strip s) = Py.contains (String a p') s.
Proof.
  intros Ha He. unfold Py.strip.
  rewrite contains_rstrip by (discriminate || exact He).
  apply contains_lstrip, Ha.
Qed.

Lemma marker_in_stripped_output s :
  Py.contains "Test PASSED" (Py.strip s) = Py.contains "Test PASSED" s.
Proof.
  apply contains_strip; [reflexivity |].
  intros c Hc. cbn [ends_in].
  destruct (Ascii.eqb_spec "D"%char c) as [<- |]; [discriminate | reflexivity].
Qed.

(* ================================================================= *)
(** ** The compile-and-run check (C8) *)

Lemma run_command_eq w command h :
  run_command w command h =
  (Ret match subprocess_run w h (ShellCmd command) with
       | completed out err rc => (Py.strip out, Py.strip err, rc)
       | raised msg => ("", msg, (-1)%Z)
       end,
   [Ran (ShellCmd command)]).
Proof.
  unfold run_command, bind, run.
  destruct (subprocess_run w h (ShellCmd command)); reflexivity.
Qed.

(** Histories in the form [h ++ [e1; ...; en]]. *)
Ltac flatten := rewrite ?app_nil_r, <- ?app_assoc; cbn [app].
Ltac exec :=
  rewrite fst_bind; cbn [log print emit ask ret of_ext raise fst snd]; flatten;
  lazymatch goal with
  | |- context [match fst _ with Ret _ => _ | Raise _ => _ | SysExit _ => _ end] => fail
  | |- _ => idtac
  end.

Lemma generate_cuda_program_result w h :
  fst (TestCuda.generate_cuda_program w h) =
  match os_makedirs w (at_makedirs h) (temp_dir w) with
  | Throws msg => Raise (OtherException msg)
  | Ok _ =>
      match write_file w (at_write w h) (cuda_file w) TestCuda.cuda_code with
      | Throws msg => Raise (OtherException msg)
      | Ok _ =>
          match subprocess_run w (at_compile w h) (ShellCmd (compile_cmd w)) with
          | raised _ => Ret false
          | completed _ _ rc =>
              if negb (rc =? 0)%Z then Ret false
              else match binary_run w h with
                   | raised _ => Ret false
                   | completed out _ rc' =>
                       if negb (rc' =? 0)%Z then Ret false
                       else Ret (Py.contains "Test PASSED" (Py.strip out))
                   end
          end
      end
  end.
Proof.
  unfold TestCuda.generate_cuda_program, binary_run.
  fold (temp_dir w). fold (cuda_file w). fold (output_file w).
  fold (compile_cmd w). fold (binary_cmd w).
  repeat exec. fold (at_makedirs h).
  destruct (os_makedirs w (at_makedirs h) (temp_dir w)) as [[] | msg]; [| reflexivity].
  unfold at_makedirs. repeat exec. fold (at_write w h).
  destruct (write_file w (at_write w h) (cuda_file w) TestCuda.cuda_code) as [[] | msg];
    [| reflexivity].
  unfold at_write. repeat exec. rewrite fst_bind, run_command_eq. cbn [fst snd]. flatten.
  fold (at_compile w h).
  destruct (subprocess_run w (at_compile w h) (ShellCmd (compile_cmd w))) as [out err rc | msg].
  - destruct (negb (rc =? 0)%Z); [repeat exec; reflexivity |].
    unfold at_compile. repeat exec. rewrite fst_bind, run_command_eq. cbn [fst snd]. flatten.
    fold (at_binary w h).
    destruct (subprocess_run w (at_binary w h) (ShellCmd (binary_cmd w))) as [out' err' rc' | msg'].
    + destruct (negb (rc' =? 0)%Z); [repeat exec; reflexivity |].
      repeat exec. destruct (Py.contains "Test PASSED" (Py.strip out')); repeat exec; reflexivity.
    + cbn [negb Z.eqb]. repeat exec. reflexivity.
  - cbn [negb Z.eqb]. repeat exec. reflexivity.
Qed.

(** C8.  The compile-and-run check returns true exactly when the source is
    written and compiled, the binary ends with status 0 and its standard
    output contains "Test PASSED"; and whenever the binary is run and its
    output lacks that text, the check returns false, whatever the status of
    the binary. *)
Theorem compile_check_passes_iff_marker w h :
  (fst (TestCuda.generate_cuda_program w h) = Ret true <->
   source_compiles w h /\
   exists out err,
     binary_run w h = completed out err 0%Z /\
     Py.contains "Test PASSED" out = true) /\
  (source_compiles w h ->
   forall out err rc,
     binary_run w h = completed out err rc ->
     Py.contains "Test PASSED" out = false ->
     fst (TestCuda.generate_cuda_program w h) = Ret false).
Proof.
  rewrite generate_cuda_program_result. unfold source_compiles. split; [split |].
  - intros H.
    destruct (os_makedirs w _ _) as [[] | ?]; [| discriminate].
    destruct (write_file w _ _ _) as [[] | ?]; [| discriminate].
    destruct (subprocess_run w (at_compile w h) _) as [out err rc | ?]; [| discriminate].
    destruct (rc =? 0)%Z eqn:E; [apply Z.eqb_eq in E; subst rc | discriminate].
    cbn [negb] in H.
    destruct (binary_run w h) as [out' err' rc' | ?]; [| discriminate].
    destruct (rc' =? 0)%Z eqn:E'; [apply Z.eqb_eq in E'; subst rc' | discriminate].
    cbn [negb] in H.
    rewrite marker_in_stripped_output in H.
    repeat split; eauto. exists out', err'. split; [reflexivity | congruence].
  - intros [[-> [-> [out [err ->]]]] [out' [err' [-> Hm]]]].
    cbn [negb Z.eqb]. rewrite marker_in_stripped_output, Hm. reflexivity.
  - intros [-> [-> [out [err ->]]]] out' err' rc' -> Hm.
    cbn [negb Z.eqb]. rewrite marker_in_stripped_output, Hm.
    destruct (negb (rc' =? 0)%Z); reflexivity.
Qed.

(* ================================================================= *)
(** ** A check whose command fails (C4) *)

Lemma driver_command_fails w h :
  let outcome :=
    subprocess_run w
      (h ++ [Printed (log_line (status_color Info) Info "Verificando controlador NVIDIA...")])%list
      (ShellCmd "nvidia-smi") in
  fails outcome = true ->
  TestCuda.check_cuda_driver w h =
  (Ret false,
   [Printed (log_line (status_color Info) Info "Verificando controlador NVIDIA...");
    Ran (ShellCmd "nvidia-smi");
    Printed (log_line (status_color Error) Error
      "❌ No se pudo ejecutar nvidia-smi. El controlador NVIDIA puede no estar instalado correctamente.");
    Printed (log_line (status_color Error) Error ("Error: " ++ stderr_of outcome))]).
Proof.
  cbv zeta. intros Hf. unfold TestCuda.check_cuda_driver, bind at 1. cbn [log print emit].
  unfold bind at 1. rewrite run_command_eq.
  destruct (subprocess_run w _ _) as [out err rc | msg]; cbn [fails] in Hf.
  - rewrite Hf. reflexivity.
  - reflexivity.
Qed.

Lemma nvcc_command_fails w h :
  let outcome :=
    subprocess_run w
      (h ++ [Printed (log_line (status_color Info) Info "Verificando compilador CUDA (nvcc)...")])%list
      (ShellCmd "nvcc --version") in
  fails outcome = true ->
  TestCuda.check_nvcc w h =
  (Ret false,
   [Printed (log_line (status_color Info) Info "Verificando compilador CUDA (nvcc)...");
    Ran (ShellCmd "nvcc --version");
    Printed (log_line (status_color Error) Error
      "❌ No se pudo ejecutar nvcc. El toolkit CUDA puede no estar instalado correctamente.");
    Printed (log_line (status_color Error) Error ("Error: " ++ stderr_of outcome))]).
Proof.
  cbv zeta. intros Hf. unfold TestCuda.check_nvcc, bind at 1. cbn [log print emit].
  unfold bind at 1. rewrite run_command_eq.
  destruct (subprocess_run w _ _) as [out err rc | msg]; cbn [fails] in Hf.
  - rewrite Hf. reflexivity.
  - reflexivity.
Qed.

Lemma compiler_fails w h :
  os_makedirs w (at_makedirs h) (temp_dir w) = Ok tt ->
  write_file w (at_write w h) (cuda_file w) TestCuda.cuda_code = Ok tt ->
  fails (subprocess_run w (at_compile w h) (ShellCmd (compile_cmd w))) = true ->
  fst (TestCuda.generate_cuda_program w h) = Ret false.
Proof.
  intros Hd Hw Hf. rewrite generate_cuda_program_result, Hd, Hw.
  destruct (subprocess_run w _ _) as [out err rc | msg]; cbn [fails] in Hf.
  - rewrite Hf. reflexivity.
  - reflexivity.
Qed.

Lemma binary_fails w h :
  source_compiles w h ->
  fails (binary_run w h) = true ->
  fst (TestCuda.generate_cuda_program w h) = Ret false.
Proof.
  intros [Hd [Hw [out [err Hc]]]] Hf. rewrite generate_cuda_program_result, Hd, Hw, Hc.
  cbn [negb Z.eqb].
  destruct (binary_run w h) as [out' err' rc' | msg]; cbn [fails] in Hf.
  - rewrite Hf. reflexivity.
  - reflexivity.
Qed.

(** The events of a sequence begin with those of its first part. *)
Lemma snd_bind_prefix A B (m : M A) (k : A -> M B) h :
  exists t, snd (bind m k h) = (snd (m h) ++ t)%list.
Proof.
  rewrite snd_bind. destruct (fst (m h)).
  - eexists; reflexivity.
  - exists []. rewrite app_nil_r. reflexivity.
  - exists []. rewrite app_nil_r. reflexivity.
Qed.

Lemma run_in_order_app cs1 cs2 h results t :
  run_in_order cs1 h = (Ret results, t) ->
  exists t', snd (run_in_order (cs1 ++ cs2) h) =
             (t ++ snd (run_in_order cs2 (h ++ t)%list) ++ t')%list.
Proof.
  revert h results t. induction cs1 as [| c cs1 IH]; intros h results t E.
  - cbn in E. injection E as <- <-. cbn [app]. rewrite app_nil_r.
    exists []. rewrite app_nil_r. reflexivity.
  - cbn [app run_in_order] in *. rewrite snd_bind.
    unfold bind in E at 1.
    destruct (c h) as [[b|e|x] t1] eqn:Ec; try discriminate. cbn [fst snd].
    unfold bind in E.
    destruct (run_in_order cs1 (h ++ t1)%list) as [[bs|e|x] t2] eqn:E1; try discriminate.
    cbn in E. injection E as <- <-.
    destruct (IH _ _ _ E1) as [t' Ht'].
    rewrite snd_bind.
    exists t'. destruct (fst (run_in_order (cs1 ++ cs2) (h ++ t1)%list));
      cbn [ret snd]; rewrite Ht', ?app_nil_r, <- ?app_assoc; reflexivity.
Qed.

Lemma snd_cons_prefix c cs h :
  exists t, snd (run_in_order (c :: cs) h) = (snd (c h) ++ t)%list.
Proof. cbn [run_in_order]. apply snd_bind_prefix. Qed.

Lemma preamble_run w h : exists t, TestCuda.preamble w h = (Ret tt, t).
Proof.
  pose proof (preamble_returns w h) as H.
  destruct (TestCuda.preamble w h) as [r t]. cbn in H. subst r. eexists; reflexivity.
Qed.

(** After the checks selected before it have returned, whatever they
    returned, a selected check is run. *)
Lemma next_check_is_run w args h before c after results t :
  TestCuda.selected args = (before ++ c :: after)%list ->
  run_in_order (map (TestCuda.framed w) before) (h ++ snd (TestCuda.preamble w h))%list =
    (Ret results, t) ->
  exists t',
    snd (TestCuda.main w args h) =
    (snd (TestCuda.preamble w h) ++ t ++
     snd (TestCuda.framed w c (h ++ snd (TestCuda.preamble w h) ++ t)%list) ++ t')%list.
Proof.
  intros Hs Hr. rewrite (prober_main_structure w args h), Hs, map_app.
  cbn [map]. rewrite snd_bind, preamble_returns.
  destruct (snd_bind_prefix _ _
              (run_in_order (map (TestCuda.framed w) before ++
                             TestCuda.framed w c :: map (TestCuda.framed w) after))
              (fun results => TestCuda.report (all_true results))
              (h ++ snd (TestCuda.preamble w h))%list) as [t1 ->].
  destruct (run_in_order_app _ (TestCuda.framed w c :: map (TestCuda.framed w) after) _ _ _ Hr)
    as [t2 ->].
  destruct (snd_cons_prefix (TestCuda.framed w c) (map (TestCuda.framed w) after)
              ((h ++ snd (TestCuda.preamble w h)) ++ t)%list) as [t3 ->].
  rewrite <- !app_assoc. eexists. reflexivity.
Qed.

Lemma python_command_fails w h :
  fails (subprocess_run w
           (h ++ [Printed (log_line (status_color Info) Info "Verificando Python...")])%list
           (ShellCmd "python --version")) = true ->
  fst (Verify.check_python w h) = Ret false.
Proof.
  intros Hf. unfold Verify.check_python. exec. rewrite fst_bind, run_command_eq.
  destruct (subprocess_run w _ _) as [out err rc | msg]; cbn [fails] in Hf; cbn [fst snd].
  - rewrite Hf. repeat exec. reflexivity.
  - cbn [negb Z.eqb]. repeat exec. reflexivity.
Qed.

Lemma toolkit_command_fails w h :
  fails (subprocess_run w
           (h ++ [Printed (log_line (status_color Info) Info "Verificando CUDA...")])%list
           (ShellCmd "nvcc --version")) = true ->
  fst (Verify.check_cuda w h) = Ret false.
Proof.
  intros Hf. unfold Verify.check_cuda. exec. rewrite fst_bind, run_command_eq.
  destruct (subprocess_run w _ _) as [out err rc | msg]; cbn [fails] in Hf; cbn [fst snd].
  - rewrite Hf. repeat exec. reflexivity.
  - cbn [negb Z.eqb]. repeat exec. reflexivity.
Qed.

Lemma before_checks_run w h : exists t, Verify.before_checks w h = (Ret tt, t).
Proof.
  pose proof (before_checks_returns w h) as H.
  destruct (Verify.before_checks w h) as [r t]. cbn in H. subst r. eexists; reflexivity.
Qed.

(** In the verifier too, a check is run after the checks before it have
    returned, whatever they returned. *)
Lemma verifier_next_check_is_run w h before c after results t :
  platform_system w = "Windows" ->
  map (@Verify.framed) (map snd (Verify.checks w)) = (before ++ c :: after)%list ->
  run_in_order before (h ++ snd (Verify.before_checks w h))%list = (Ret results, t) ->
  exists t',
    snd (Verify.script w h) =
    (snd (Verify.before_checks w h) ++ t ++
     snd (c (h ++ snd (Verify.before_checks w h) ++ t)%list) ++ t')%list.
Proof.
  intros Hw Hs Hr. rewrite (verifier_script_structure w Hw h), Hs.
  rewrite snd_bind, before_checks_returns.
  match goal with
  | |- context [snd (bind ?m ?k ?h')] =>
      destruct (snd_bind_prefix _ _ m k h') as [t1 ->]
  end.
  destruct (run_in_order_app _ (c :: after) _ _ _ Hr) as [t2 ->].
  destruct (snd_cons_prefix c after ((h ++ snd (Verify.before_checks w h)) ++ t)%list)
    as [t3 ->].
  rewrite <- !app_assoc. eexists. reflexivity.
Qed.

(** C4.  A check whose command does not end with status 0, or cannot be
    run at all, returns false and raises nothing: in the prober the driver
    check and the compiler check on their query, the compile-and-run check
    on the compiler and on the binary; in the verifier the Python check and
    the toolkit check on their version query.  And in both scripts a
    selected check is run after the checks before it have returned, whatever
    they returned. *)
Theorem failed_command_fails_its_check_only :
  forall w,
    (forall h,
       fails (subprocess_run w
                (h ++ [Printed (log_line (status_color Info) Info
                                  "Verificando controlador NVIDIA...")])%list
                (ShellCmd "nvidia-smi")) = true ->
       fst (TestCuda.check_cuda_driver w h) = Ret false) /\
    (forall h,
       fails (subprocess_run w
                (h ++ [Printed (log_line (status_color Info) Info
                                  "Verificando compilador CUDA (nvcc)...")])%list
                (ShellCmd "nvcc --version")) = true ->
       fst (TestCuda.check_nvcc w h) = Ret false) /\
    (forall h,
       os_makedirs w (at_makedirs h) (temp_dir w) = Ok tt ->
       write_file w (at_write w h) (cuda_file w) TestCuda.cuda_code = Ok tt ->
       fails (subprocess_run w (at_compile w h) (ShellCmd (compile_cmd w))) = true ->
       fst (TestCuda.generate_cuda_program w h) = Ret false) /\
    (forall h,
       source_compiles w h ->
       fails (binary_run w h) = true ->
       fst (TestCuda.generate_cuda_program w h) = Ret false) /\
    (forall args h before c after results t,
       TestCuda.selected args = (before ++ c :: after)%list ->
       run_in_order (map (TestCuda.framed w) before)
         (h ++ snd (TestCuda.preamble w h))%list = (Ret results, t) ->
       exists t',
         snd (TestCuda.main w args h) =
         (snd (TestCuda.preamble w h) ++ t ++
          snd (TestCuda.framed w c (h ++ snd (TestCuda.preamble w h) ++ t)%list) ++ t')%list) /\
    (forall h,
       fails (subprocess_run w
                (h ++ [Printed (log_line (status_color Info) Info "Verificando Python...")])%list
                (ShellCmd "python --version")) = true ->
       fst (Verify.check_python w h) = Ret false) /\
    (forall h,
       fails (subprocess_run w
                (h ++ [Printed (log_line (status_color Info) Info "Verificando CUDA...")])%list
                (ShellCmd "nvcc --version")) = true ->
       fst (Verify.check_cuda w h) = Ret false) /\
    (forall h before c after results t,
       platform_system w = "Windows" ->
       map (@Verify.framed) (map snd (Verify.checks w)) = (before ++ c :: after)%list ->
       run_in_order before (h ++ snd (Verify.before_checks w h))%list = (Ret results, t) ->
       exists t',
         snd (Verify.script w h) =
         (snd (Verify.before_checks w h) ++ t ++
          snd (c (h ++ snd (Verify.before_checks w h) ++ t)%list) ++ t')%list).
Proof.
  intros w. repeat split.
  - intros h Hf. rewrite (driver_command_fails w h Hf). reflexivity.
  - intros h Hf. rewrite (nvcc_command_fails w h Hf). reflexivity.
  - apply compiler_fails.
  - apply binary_fails.
  - apply next_check_is_run.
  - apply python_command_fails.
  - apply toolkit_command_fails.
  - apply verifier_next_check_is_run.
Qed.

(** On a machine without any of the commands, the prober run with [--all]
    starts its four checks one after the other and exits with status 1. *)
Example prober_goes_on_after_failures :
  fst (TestCuda.script bare_windows prober_all []) = SysExit 1%Z /\
  firstn 2 (commands_run (snd (TestCuda.script bare_windows prober_all []))) =
    [ShellCmd "nvidia-smi"; ShellCmd "nvcc --version"] /\
  printed (log_line (status_color Info) Info "Verificando PyTorch con CUDA...")
    (snd (TestCuda.script bare_windows prober_all [])) = true /\
  printed (log_line (status_color Info) Info "Generando programa CUDA de prueba...")
    (snd (TestCuda.script bare_windows prober_all [])) = true /\
  printed prober_some_failed (snd (TestCuda.script bare_windows prober_all [])) = true.
Proof. repeat split; vm_compute; reflexivity. Qed.

(* ================================================================= *)
(** ** The questions of the orchestrator *)

Lemma questions_app (h t : History) :
  questions (h ++ t)%list = (questions h ++ questions t)%list.
Proof.
  induction h as [| e h IH]; [reflexivity |].
  destruct e; cbn [app questions]; rewrite IH; reflexivity.
Qed.

Lemma no_question_no_answer (t : History) : questions t = [] -> count_asked t = 0.
Proof.
  induction t as [| e t IH]; [reflexivity |].
  destruct e; cbn [questions]; try discriminate; intros H;
    unfold count_asked in *; cbn [filter]; apply IH, H.
Qed.

Lemma input_asks w prompt h : questions (snd (input w prompt h)) = [prompt].
Proof. unfold input. destruct (nth_error _ _); reflexivity. Qed.

Lemma bind_ret_eq A B (m : M A) (k : A -> M B) h a t :
  m h = (Ret a, t) ->
  bind m k h = (fst (k a (h ++ t)%list), (t ++ snd (k a (h ++ t)%list))%list).
Proof. intros E. unfold bind. rewrite E. destruct (k a _); reflexivity. Qed.

Lemma quiet_bind A B (m : M A) (k : A -> M B) :
  quiet m -> (forall a, quiet (k a)) -> quiet (bind m k).
Proof.
  intros Hm Hk h. rewrite snd_bind. destruct (fst (m h)); try apply Hm.
  rewrite questions_app, Hm, Hk. reflexivity.
Qed.

Lemma quiet_try A (m : M A) (handler : Exn -> M A) :
  quiet m -> (forall e, quiet (handler e)) -> quiet (try_except m handler).
Proof.
  intros Hm Hk h. unfold try_except. specialize (Hm h).
  destruct (m h) as [[a|e|c] t]; cbn [snd] in *; try exact Hm.
  specialize (Hk e (h ++ t)%list). destruct (handler e _) as [r t'].
  cbn [snd] in *. rewrite questions_app, Hm, Hk. reflexivity.
Qed.

Lemma quiet_ret A (a : A) : quiet (ret a).
Proof. intros h; reflexivity. Qed.

Lemma quiet_raise A e : quiet (@raise A e).
Proof. intros h; reflexivity. Qed.

Lemma quiet_log s st : quiet (Setup.log s st).
Proof. intros h; reflexivity. Qed.

Lemma quiet_ask A (f : History -> A) : quiet (ask f).
Proof. intros h; reflexivity. Qed.

Lemma quiet_run w c : quiet (run w c).
Proof. intros h; reflexivity. Qed.

Ltac quiet_step :=
  first
    [ apply quiet_ret | apply quiet_raise | apply quiet_log | apply quiet_ask
    | apply quiet_run
    | apply quiet_try; [| intros ?]
    | apply quiet_bind; [| intros ?]
    | match goal with
      | |- quiet (match ?x with _ => _ end) => destruct x
      end ].

Lemma quiet_run_powershell_script w path args :
  quiet (Setup.run_powershell_script w path args).
Proof.
  unfold Setup.run_powershell_script, Setup.run_logged, Setup.subprocess_run_check.
  repeat quiet_step.
Qed.

Lemma quiet_verify_cleanup w : quiet (Setup.verify_cleanup w).
Proof.
  unfold Setup.verify_cleanup.
  apply quiet_bind; [apply quiet_log | intros ?].
  apply quiet_bind; [apply quiet_run_powershell_script | intros ?].
  repeat quiet_step.
Qed.

(** What is known of the events of a computation that is quiet. *)
Lemma quiet_events A (m : M A) h r t :
  quiet m -> m h = (r, t) -> questions t = [] /\ count_asked t = 0.
Proof.
  intros Hq E. specialize (Hq h). rewrite E in Hq. cbn [snd] in Hq.
  split; [exact Hq | apply no_question_no_answer, Hq].
Qed.

(* ================================================================= *)
(** ** The cleanup phase (C6) *)

Lemma cleanup_script_fails w depth h t :
  Setup.run_powershell_script w (beside_script w "cleanup.ps1") None
    (h ++ [cleanup_title])%list = (Ret false, t) ->
  Setup.process_cleanup w (S depth) h =
    (Ret false, cleanup_title :: t ++ [cleanup_with_errors])%list.
Proof.
  intros E. cbn [Setup.process_cleanup].
  rewrite (bind_ret_eq _ _ _ _ h tt [cleanup_title]) by reflexivity.
  rewrite (bind_ret_eq _ _ _ _ _ false t E).
  reflexivity.
Qed.

Lemma cleanup_verification_fails w depth h t1 t2 :
  Setup.run_powershell_script w (beside_script w "cleanup.ps1") None
    (h ++ [cleanup_title])%list = (Ret true, t1) ->
  Setup.verify_cleanup w (h ++ cleanup_title :: t1 ++ [cleanup_succeeded])%list =
    (Ret false, t2) ->
  exists r t3,
    Setup.process_cleanup w (S depth) h =
    (r, cleanup_title :: t1 ++ cleanup_succeeded :: t2 ++ components_still_present :: t3)%list /\
    exists qs, questions t3 = retry_question :: qs.
Proof.
  intros E1 E2. cbn [Setup.process_cleanup].
  rewrite (bind_ret_eq _ _ _ _ h tt [cleanup_title]) by reflexivity.
  rewrite (bind_ret_eq _ _ _ _ _ true t1 E1). cbn [fst snd].
  rewrite (bind_ret_eq _ _ _ _ _ tt [cleanup_succeeded]) by reflexivity. cbn [fst snd].
  assert (E2' : Setup.verify_cleanup w (((h ++ [cleanup_title]) ++ t1) ++ [cleanup_succeeded])%list
                = (Ret false, t2)).
  { rewrite <- E2. f_equal. rewrite <- !app_assoc. reflexivity. }
  rewrite (bind_ret_eq _ _ _ _ _ false t2 E2'). cbn [fst snd negb].
  rewrite (bind_ret_eq _ _ _ _ _ tt [components_still_present]) by reflexivity. cbn [fst snd].
  match goal with
  | |- context [bind (input w ?p) ?k ?h'] =>
      destruct (snd_bind_prefix _ _ (input w p) k h') as [t4 Ht4];
      pose proof (input_asks w p h') as Hq
  end.
  rewrite Ht4. eexists _, (snd (input w retry_question _) ++ t4)%list. split.
  - cbn [app]. rewrite <- ?app_assoc. cbn [app]. reflexivity.
  - rewrite questions_app, input_asks. eexists; reflexivity.
Qed.

Lemma cleanup_retry_declined w depth h t1 t2 answer :
  Setup.run_powershell_script w (beside_script w "cleanup.ps1") None
    (h ++ [cleanup_title])%list = (Ret true, t1) ->
  Setup.verify_cleanup w (h ++ cleanup_title :: t1 ++ [cleanup_succeeded])%list =
    (Ret false, t2) ->
  nth_error (stdin w) (count_asked h) = Some answer ->
  Py.upper answer <> "S" ->
  exists qs,
    questions (snd (Setup.process_cleanup w (S depth) h)) =
    retry_question :: continue_question :: qs.
Proof.
  intros E1 E2 Ha Hn. apply String.eqb_neq in Hn.
  destruct (quiet_events _ _ _ _ _ (quiet_run_powershell_script w _ _) E1) as [Q1 C1].
  destruct (quiet_events _ _ _ _ _ (quiet_verify_cleanup w) E2) as [Q2 C2].
  cbn [Setup.process_cleanup].
  rewrite (bind_ret_eq _ _ _ _ h tt [cleanup_title]) by reflexivity.
  rewrite (bind_ret_eq _ _ _ _ _ true t1 E1). cbn [fst snd].
  rewrite (bind_ret_eq _ _ _ _ _ tt [cleanup_succeeded]) by reflexivity. cbn [fst snd].
  assert (E2' : Setup.verify_cleanup w (((h ++ [cleanup_title]) ++ t1) ++ [cleanup_succeeded])%list
                = (Ret false, t2)).
  { rewrite <- E2. f_equal. rewrite <- !app_assoc. reflexivity. }
  rewrite (bind_ret_eq _ _ _ _ _ false t2 E2'). cbn [fst snd negb].
  rewrite (bind_ret_eq _ _ _ _ _ tt [components_still_present]) by reflexivity. cbn [fst snd].
  rewrite (bind_ret_eq _ _ _ _ _ answer [Asked retry_question answer]).
  2:{ apply input_at. rewrite !count_asked_app, C1, C2. cbn. rewrite !Nat.add_0_r. exact Ha. }
  rewrite Hn. cbn [fst snd].
  match goal with
  | |- context [bind (Setup.log ?s ?st) ?k ?h'] =>
      rewrite (bind_ret_eq _ _ (Setup.log s st) k h' tt
                 [Printed (log_line (Setup.status_color st) st s)]) by reflexivity
  end.
  cbn [fst snd].
  match goal with
  | |- context [bind (input w ?p) ?k ?h'] =>
      destruct (snd_bind_prefix _ _ (input w p) k h') as [t4 Ht4]
  end.
  rewrite Ht4. rewrite !questions_app, Q1, Q2, input_asks. cbn. eexists; reflexivity.
Qed.

(** C6, as amended.  When the cleanup script itself fails, the cleanup
    phase returns false and has asked nothing.  When the script succeeds and
    the verification of the cleanup that follows fails, the operator is
    asked whether to run the cleanup again before the phase ends, and, on an
    answer of ASCII characters other than S and s, whether to continue with
    the installation. *)
Theorem cleanup_asks_after_failed_verification_only :
  forall w depth h,
    (forall t,
       Setup.run_powershell_script w (beside_script w "cleanup.ps1") None
         (h ++ [cleanup_title])%list = (Ret false, t) ->
       Setup.process_cleanup w (S depth) h =
         (Ret false, cleanup_title :: t ++ [cleanup_with_errors])%list /\
       questions (snd (Setup.process_cleanup w (S depth) h)) = []) /\
    (forall t1 t2,
       Setup.run_powershell_script w (beside_script w "cleanup.ps1") None
         (h ++ [cleanup_title])%list = (Ret true, t1) ->
       Setup.verify_cleanup w (h ++ cleanup_title :: t1 ++ [cleanup_succeeded])%list =
         (Ret false, t2) ->
       (exists r t3,
          Setup.process_cleanup w (S depth) h =
          (r, cleanup_title :: t1 ++ cleanup_succeeded :: t2 ++
              components_still_present :: t3)%list /\
          exists qs, questions t3 = retry_question :: qs) /\
       (forall answer,
          nth_error (stdin w) (count_asked h) = Some answer ->
          Py.isascii answer = true ->
          Py.upper answer <> "S" ->
          exists qs,
            questions (snd (Setup.process_cleanup w (S depth) h)) =
            retry_question :: continue_question :: qs)).
Proof.
  intros w depth h. split.
  - intros t E. rewrite (cleanup_script_fails w depth h t E). split; [reflexivity |].
    destruct (quiet_events _ _ _ _ _ (quiet_run_powershell_script w _ _) E) as [Q _].
    cbn [snd]. change (cleanup_title :: t ++ [cleanup_with_errors])%list
      with ([cleanup_title] ++ t ++ [cleanup_with_errors])%list.
    rewrite !questions_app, Q. reflexivity.
  - intros t1 t2 E1 E2. split.
    + apply cleanup_verification_fails; assumption.
    + intros answer Ha _ Hn.
      apply (cleanup_retry_declined w depth h t1 t2 answer); assumption.
Qed.

(** C6 fails as stated: on a machine where the cleanup script is missing,
    the cleanup phase fails and the operator is asked nothing. *)
Lemma failed_cleanup_asks_nothing :
  fst (Setup.process_cleanup bare_windows 1 []) = Ret false /\
  questions (snd (Setup.process_cleanup bare_windows 1 [])) = [].
Proof. split; vm_compute; reflexivity. Qed.

(** On a machine where the cleanup script succeeds and the verification of
    the cleanup fails, an operator who answers N twice is asked the two
    questions, and the phase returns false. *)
Example cleanup_questions_on_failed_verification :
  let w := machine "Windows" (Some 1%Z) ["N"; "N"] all_files
             (commands_but (powershell "verify_cleanup.ps1")) in
  fst (Setup.process_cleanup w 1 []) = Ret false /\
  questions (snd (Setup.process_cleanup w 1 [])) = [retry_question; continue_question] /\
  commands_run (snd (Setup.process_cleanup w 1 [])) =
    [powershell "cleanup.ps1"; powershell "verify_cleanup.ps1"].
Proof. cbv zeta. repeat split; vm_compute; reflexivity. Qed.

(* ================================================================= *)
(** ** The full pipeline (C5) *)




Lemma banner_run h : Setup.banner h = (Ret tt, banner_lines).
Proof. reflexivity. Qed.






(* ================================================================= *)
(** ** The toolkit check of the verifier, when the version line is read
       as it is tested *)

Lemma split_go_nonempty sep skip cur s : Py.split_go sep skip cur s <> [].
Proof.
  revert skip cur. induction s as [| c s IH]; intros skip cur; cbn [Py.split_go].
  - discriminate.
  - destruct skip; [| apply IH].
    destruct (String.prefix sep (String c s)); [discriminate | apply IH].
Qed.

Lemma split_go_two sep cur s :
  sep <> "" -> Py.contains sep s = true ->
  exists a b rest, Py.split_go sep 0 cur s = a :: b :: rest.
Proof.
  intros Hsep. revert cur. induction s as [| c s IH]; intros cur H.
  - rewrite contains_eq in H. destruct sep; [congruence | discriminate].
  - rewrite contains_eq in H. cbn [Py.split_go].
    destruct (String.prefix sep (String c s)).
    + destruct (Py.split_go sep (String.length sep - 1) [] s) as [| b rest] eqn:E.
      * destruct (split_go_nonempty _ _ _ _ E).
      * eexists _, _, _; reflexivity.
    + apply IH, H.
Qed.

Lemma index_split_1 s sep :
  sep <> "" -> Py.contains sep s = true ->
  exists x, index (Py.split s sep) 1 = ret x.
Proof.
  intros Hsep H. unfold Py.split.
  destruct (split_go_two sep [] s Hsep H) as [a [b [rest ->]]].
  exists b. reflexivity.
Qed.

Lemma index_split_0 s sep : exists x, index (Py.split s sep) 0 = ret x.
Proof.
  unfold Py.split. destruct (Py.split_go sep 0 [] s) as [| a rest] eqn:E.
  - destruct (split_go_nonempty _ _ _ _ E).
  - exists a. reflexivity.
Qed.

Lemma fourth_line_or_all_run stdout h :
  Verify.fourth_line_or_all stdout h = (Ret (version_line stdout), []).
Proof.
  unfold Verify.fourth_line_or_all, version_line.
  destruct (3 <? length (Py.splitlines stdout))%nat eqn:E; [| reflexivity].
  apply Nat.ltb_lt in E. unfold index.
  rewrite (nth_error_nth' _ "" E). reflexivity.
Qed.

Lemma find_in_paths_returns name pattern paths h :
  exists b, fst (Verify.find_in_paths name pattern paths h) = Ret b.
Proof.
  induction paths as [| path rest IH]; cbn [Verify.find_in_paths].
  - eexists; reflexivity.
  - destruct (Py.contains _ _); [eexists; reflexivity | exact IH].
Qed.

Lemma find_cudnn_returns w paths h :
  exists b, fst (Verify.find_cudnn w paths h) = Ret b.
Proof.
  revert h. induction paths as [| path rest IH]; intros h; cbn [Verify.find_cudnn].
  - eexists; reflexivity.
  - rewrite fst_bind. cbn [ask fst snd].
    destruct (truthy path && _); [eexists; reflexivity | apply IH].
Qed.

(** When the compiler answers its version query with status 0, and the
    version line holds the word release in lower case whenever it holds it
    in any case, the toolkit check returns true, whatever the CUDA_PATH
    variable and the cuDNN header are. *)
Lemma check_cuda_needs_the_compiler_only w h out err :
  subprocess_run w
    (h ++ [Printed (log_line (status_color Info) Info "Verificando CUDA...")])%list
    (ShellCmd "nvcc --version") = completed out err 0%Z ->
  (Py.contains "release" (Py.lower (version_line (Py.strip out))) = true ->
   Py.contains "release" (version_line (Py.strip out)) = true) ->
  fst (Verify.check_cuda w h) = Ret true.
Proof.
  intros E Hrel. unfold Verify.check_cuda.
  exec. rewrite fst_bind, run_command_eq, E. cbn [fst snd negb Z.eqb].
  rewrite fst_bind, fourth_line_or_all_run. cbn [fst snd]. exec.
  rewrite fst_bind, fourth_line_or_all_run. cbn [fst snd]. flatten.
  rewrite fst_bind.
  match goal with
  | |- context [fst ((if ?c then ?m else ret tt) ?h')] =>
      assert (Hv : exists t, (if c then m else ret tt) h' = (Ret tt, t))
  end.
  { destruct (Py.contains "release" (Py.lower (version_line (Py.strip out)))) eqn:Hc;
      [| eexists; reflexivity].
    destruct (index_split_1 (version_line (Py.strip out)) "release"
                ltac:(discriminate) (Hrel eq_refl)) as [after ->].
    match goal with |- context [bind (ret ?a) ?k ?h'] => rewrite (ret_bind _ _ a k h') end.
    match goal with |- context [index (Py.split ?s ?sep) 0] =>
      destruct (index_split_0 s sep) as [version ->]
    end.
    match goal with |- context [bind (ret ?a) ?k ?h'] => rewrite (ret_bind _ _ a k h') end.
    destruct (negb _); eexists; reflexivity. }
  destruct Hv as [tv ->]. cbn [fst snd].
  rewrite fst_bind.
  assert (Hhome : forall h', exists ev,
    (if truthy (environ w "CUDA_PATH")
     then log ("✅ Variable de entorno CUDA_PATH configurada: " ++ default "" (environ w "CUDA_PATH")) Success
     else log "❌ Variable de entorno CUDA_PATH no configurada" Error) h' = (Ret tt, [ev])).
  { intros h'. destruct (truthy _); eexists; reflexivity. }
  match goal with |- context [fst ((if truthy _ then _ else _) ?h')] =>
    destruct (Hhome h') as [ev ->]
  end.
  cbn [fst snd]. rewrite fst_bind. unfold Verify.check_path_env.
  match goal with |- context [Verify.find_in_paths ?n ?p ?l ?h'] =>
    destruct (find_in_paths_returns n p l h') as [b ->]
  end.
  rewrite fst_bind.
  match goal with |- context [Verify.find_cudnn w ?l ?h'] =>
    destruct (find_cudnn_returns w l h') as [found ->]
  end.
  rewrite fst_bind. destruct found; reflexivity.
Qed.

(* ================================================================= *)
(** ** The depth of the cleanup phase *)

Lemma raise_neq A B (e e' : Exn) : @Raise A e <> Raise e' -> @Raise B e <> Raise e'.
Proof. intros H E. apply H. injection E as ->. reflexivity. Qed.

Lemma never_raises_bind A B e (m : M A) (k : A -> M B) :
  never_raises e m -> (forall a, never_raises e (k a)) -> never_raises e (bind m k).
Proof.
  intros Hm Hk h. rewrite fst_bind. specialize (Hm h).
  destruct (fst (m h)) as [a|e'|c]; [apply Hk | | discriminate].
  intros E. apply Hm. injection E as ->. reflexivity.
Qed.

Lemma never_raises_try A e (m : M A) (handler : Exn -> M A) :
  (forall e', never_raises e (handler e')) -> never_raises e (try_except m handler).
Proof.
  intros Hk h. unfold try_except.
  destruct (m h) as [[a|e'|c] t]; cbn [fst]; try discriminate.
  specialize (Hk e' (h ++ t)%list). destruct (handler e' _); exact Hk.
Qed.

Lemma never_raises_ret A e (a : A) : never_raises e (ret a).
Proof. intros h; discriminate. Qed.

Lemma never_raises_log e s st : never_raises e (Setup.log s st).
Proof. intros h; discriminate. Qed.

Lemma never_raises_ask A e (f : History -> A) : never_raises e (ask f).
Proof. intros h; discriminate. Qed.

Lemma never_raises_exit A e c : never_raises e (@sys_exit A c).
Proof. intros h; discriminate. Qed.

Lemma input_never_overflows w prompt : never_raises RecursionError (input w prompt).
Proof. intros h. unfold input. destruct (nth_error _ _); discriminate. Qed.

Ltac never_step :=
  first
    [ apply never_raises_ret | apply never_raises_log | apply never_raises_ask
    | apply never_raises_exit | apply input_never_overflows
    | apply never_raises_try; intros ?
    | apply never_raises_bind; [| intros ?]
    | match goal with
      | |- never_raises _ (match ?x with _ => _ end) => destruct x
      end ].

Lemma run_powershell_script_never_raises e w path args :
  never_raises e (Setup.run_powershell_script w path args).
Proof.
  unfold Setup.run_powershell_script, Setup.run_logged. repeat never_step.
Qed.

Lemma verify_cleanup_never_raises e w : never_raises e (Setup.verify_cleanup w).
Proof.
  unfold Setup.verify_cleanup.
  apply never_raises_bind; [apply never_raises_log | intros ?].
  apply never_raises_bind; [apply run_powershell_script_never_raises | intros ?].
  repeat never_step.
Qed.

Lemma ask_restart_never_overflows w success :
  never_raises RecursionError (Setup.ask_restart w success).
Proof.
  unfold Setup.ask_restart, Setup.shutdown.
  apply never_raises_bind; [apply never_raises_log | intros ?].
  apply never_raises_bind; [apply input_never_overflows | intros restart].
  destruct (Py.upper restart =? "S")%string; [| apply never_raises_ret].
  apply never_raises_bind; [apply never_raises_log | intros ?].
  apply never_raises_bind; [| intros ?; repeat never_step].
  apply never_raises_bind; [intros h; discriminate | intros [? ? ? | ?]];
    intros h; discriminate.
Qed.

Lemma input_answer w prompt h answer t :
  input w prompt h = (Ret answer, t) ->
  count_asked h < length (stdin w) /\ count_asked t = 1.
Proof.
  unfold input. destruct (nth_error (stdin w) (count_asked h)) eqn:E; [| discriminate].
  intros H. injection H as <- <-. split; [| reflexivity].
  apply nth_error_Some. congruence.
Qed.

(** The bound on the nesting of the cleanup phase is never reached when it
    exceeds the number of answers the operator has left: every further call
    of the phase has consumed one. *)
Lemma process_cleanup_depth_suffices w depth :
  forall h,
    length (stdin w) - count_asked h < depth ->
    fst (Setup.process_cleanup w depth h) <> Raise RecursionError.
Proof.
  induction depth as [| depth IH]; intros h Hd; [lia |].
  cbn [Setup.process_cleanup].
  rewrite fst_bind. cbn [Setup.log print emit fst snd].
  rewrite fst_bind.
  pose proof (run_powershell_script_never_raises RecursionError w
                (beside_script w "cleanup.ps1") None (h ++ [cleanup_title])%list) as H1.
  change (Printed (log_line (Setup.status_color Title) Title "INICIANDO PROCESO DE LIMPIEZA"))
    with cleanup_title.
  destruct (Setup.run_powershell_script w _ None _) as [[success|e|c] t1];
    cbn [fst snd] in *; [| exact H1 | discriminate].
  destruct success; [| rewrite fst_bind; discriminate].
  rewrite fst_bind. cbn [Setup.log print emit fst snd]. rewrite fst_bind.
  match goal with |- context [Setup.verify_cleanup w ?h'] =>
    pose proof (verify_cleanup_never_raises RecursionError w h') as H2;
    destruct (Setup.verify_cleanup w h') as [[verified|e|c] t2]
  end; cbn [fst snd] in *; [| exact H2 | discriminate].
  destruct verified; cbn [negb]; [apply ask_restart_never_overflows |].
  rewrite fst_bind. cbn [Setup.log print emit fst snd]. rewrite fst_bind.
  match goal with |- context [input w ?p ?h'] =>
    pose proof (input_never_overflows w p h') as H3;
    pose proof (input_answer w p h') as H4;
    destruct (input w p h') as [[retry|e|c] t3]
  end; cbn [fst snd] in *; [| exact (raise_neq _ _ _ _ H3) | discriminate].
  destruct (H4 retry t3 eq_refl) as [Hlt Hone].
  destruct (Py.upper retry =? "S")%string.
  - rewrite fst_bind. cbn [Setup.log print emit fst snd].
    apply IH. rewrite !count_asked_app in *. rewrite Hone. lia.
  - rewrite fst_bind. cbn [Setup.log print emit fst snd]. rewrite fst_bind.
    match goal with |- context [input w ?p ?h'] =>
      pose proof (input_never_overflows w p h') as H5;
      destruct (input w p h') as [[answer|e|c] t4]
    end; cbn [fst snd] in *; [| exact (raise_neq _ _ _ _ H5) | discriminate].
    destruct (negb _); [rewrite fst_bind; discriminate |].
    apply ask_restart_never_overflows.
Qed.

(* ================================================================= *)
(** ** Runs on concrete machines *)

(** The compile-and-run check on a machine whose binary prints the marker,
    and on one whose binary ends with status 0 without printing it. *)
Example compile_check_with_marker :
  fst (TestCuda.generate_cuda_program (windows_printing "Test PASSED") []) = Ret true.
Proof. vm_compute. reflexivity. Qed.

Example compile_check_without_marker :
  fst (TestCuda.generate_cuda_program (windows_printing "Test FAILED") []) = Ret false.
Proof. vm_compute. reflexivity. Qed.

(** The prober with all its checks passing, and the verifier with one check
    failing (the compiler of Visual Studio is not found). *)
Example prober_all_checks_pass :
  fst (TestCuda.script linux_box prober_all []) = SysExit 0%Z /\
  printed prober_all_passed (snd (TestCuda.script linux_box prober_all [])) = true.
Proof. split; vm_compute; reflexivity. Qed.

Example verifier_one_check_fails :
  fst (Verify.script (with_torch (windows_printing "Python 3.10.11")) []) = SysExit 1%Z /\
  printed (log_line (status_color Error) Error "Visual Studio 2022: FAIL")
    (snd (Verify.script (with_torch (windows_printing "Python 3.10.11")) [])) = true /\
  printed (log_line (status_color Success) Success "Python 3.10: PASS")
    (snd (Verify.script (with_torch (windows_printing "Python 3.10.11")) [])) = true.
Proof. repeat split; vm_compute; reflexivity. Qed.

(** The operator asks twice for another cleanup and then gives up: the
    phase calls itself twice and returns false. *)
Example cleanup_retried_twice :
  let w := machine "Windows" (Some 1%Z) ["s"; "S"; "n"; "n"] all_files
             (commands_but (powershell "verify_cleanup.ps1")) in
  fst (Setup.process_cleanup w 3 []) = Ret false /\
  questions (snd (Setup.process_cleanup w 3 [])) =
    [retry_question; retry_question; retry_question; continue_question] /\
  fst (Setup.process_cleanup w 2 []) = Raise RecursionError.
Proof. cbv zeta. repeat split; vm_compute; reflexivity. Qed.

(* ================================================================= *)
(** ** The orchestrator before its phases *)

(** X1.  On Windows, an orchestrator that is not run by an administrator
    (the query answers 0, or raises) prints two lines and exits with status
    1, whatever its flags: no phase is run and nothing is asked. *)
Theorem orchestrator_needs_administrator w depth args h :
  platform_system w = "Windows" ->
  IsUserAnAdmin w = None \/ IsUserAnAdmin w = Some 0%Z ->
  Setup.script w depth args h = (SysExit 1%Z, needs_administrator).
Proof.
  intros Hw Ha. unfold Setup.script, Setup.main. rewrite Hw.
  assert (is_admin w = false) as -> by (unfold is_admin; destruct Ha as [-> | ->]; reflexivity).
  reflexivity.
Qed.

Lemma orchestrator_needs_administrator_witness :
  Setup.script (machine "Windows" None [] all_files no_commands) 1 setup_full [] =
  (SysExit 1%Z, needs_administrator).
Proof.
  apply (orchestrator_needs_administrator
           (machine "Windows" None [] all_files no_commands) 1 setup_full []).
  - reflexivity.
  - left. reflexivity.
Defined.

(** X2.  With [--requirements], an orchestrator that has passed its two
    checks prints the requirements and exits with status 0 whatever the
    other flags, [--full] included: it runs no command and asks nothing. *)
Theorem requirements_flag_comes_first w depth args h :
  platform_system w = "Windows" ->
  is_admin w = true ->
  Setup.Args.requirements args = true ->
  Setup.script w depth args h = (SysExit 0%Z, snd (Setup.show_requirements h)) /\
  commands_run (snd (Setup.script w depth args h)) = [] /\
  questions (snd (Setup.script w depth args h)) = [] /\
  length (snd (Setup.script w depth args h)) = 16.
Proof.
  intros Hw Ha Hr.
  assert (E : Setup.script w depth args h = (SysExit 0%Z, snd (Setup.show_requirements h))).
  { unfold Setup.script, Setup.main. rewrite Hw, Ha.
    assert (Setup.any_flag args = true) as ->
      by (unfold Setup.any_flag; rewrite Hr; apply orb_true_r).
    rewrite Hr. reflexivity. }
  rewrite E. repeat split; reflexivity.
Qed.

Lemma requirements_flag_witness :
  Setup.script bare_windows 1 setup_full_with_requirements [] =
  (SysExit 0%Z, snd (Setup.show_requirements [])).
Proof.
  apply (requirements_flag_comes_first bare_windows 1 setup_full_with_requirements []);
    reflexivity.
Defined.

(* ================================================================= *)
(** ** The two script runners of the orchestrator *)

Lemma run_logged_result w path command h :
  let outcome :=
    subprocess_run w
      (h ++ [Printed (log_line (Setup.status_color Info) Info
                        ("Ejecutando: " ++ os_path_basename w path))])%list
      (Argv command) in
  fst (Setup.run_logged w path command h) = Ret (negb (fails outcome)) /\
  commands_run (snd (Setup.run_logged w path command h)) = [Argv command] /\
  questions (snd (Setup.run_logged w path command h)) = [].
Proof.
  cbv zeta. unfold Setup.run_logged, Setup.subprocess_run_check, try_except, bind, run.
  cbn [Setup.log print emit].
  destruct (subprocess_run w _ (Argv command)) as [out err rc | msg]; cbn [fails].
  - destruct (rc =? 0)%Z eqn:E; cbn [negb raise ret]; [rewrite E |]; repeat split; reflexivity.
  - repeat split; reflexivity.
Qed.

Lemma script_runner_result w path command h
  (runner : M bool) :
  runner =
    (e <- ask (fun h => os_path_exists w h path) ;;
     if negb e then
       Setup.log ("Script no encontrado: " ++ path) Error ;; ret false
     else Setup.run_logged w path command) ->
  fst (runner h) =
    Ret (os_path_exists w h path &&
         negb (fails (subprocess_run w
                 (h ++ [Printed (log_line (Setup.status_color Info) Info
                                   ("Ejecutando: " ++ os_path_basename w path))])%list
                 (Argv command)))) /\
  commands_run (snd (runner h)) =
    (if os_path_exists w h path then [Argv command] else []) /\
  questions (snd (runner h)) = [].
Proof.
  intros ->. rewrite fst_bind, snd_bind. cbn [ask fst snd app]. rewrite app_nil_r.
  destruct (os_path_exists w h path); cbn [negb andb].
  - apply run_logged_result.
  - repeat split; reflexivity.
Qed.

(** X3.  [run_powershell_script] and [run_python_script] never raise and
    ask nothing.  They return true exactly when the script exists and the
    command they build ends with status 0; when the script does not exist
    they run no command, otherwise they run that one command. *)
Theorem script_runners_return_the_exit_status :
  forall w path args h,
    let at_run :=
      (h ++ [Printed (log_line (Setup.status_color Info) Info
                        ("Ejecutando: " ++ os_path_basename w path))])%list in
    let ps :=
      Argv (Setup.extend ["powershell"; "-ExecutionPolicy"; "Bypass"; "-File"; path] args) in
    let py := Argv (Setup.extend [sys_executable w; path] args) in
    (fst (Setup.run_powershell_script w path args h) =
       Ret (os_path_exists w h path && negb (fails (subprocess_run w at_run ps))) /\
     commands_run (snd (Setup.run_powershell_script w path args h)) =
       (if os_path_exists w h path then [ps] else []) /\
     questions (snd (Setup.run_powershell_script w path args h)) = []) /\
    (fst (Setup.run_python_script w path args h) =
       Ret (os_path_exists w h path && negb (fails (subprocess_run w at_run py))) /\
     commands_run (snd (Setup.run_python_script w path args h)) =
       (if os_path_exists w h path then [py] else []) /\
     questions (snd (Setup.run_python_script w path args h)) = []).
Proof.
  intros w path args h. cbv zeta. split.
  - apply (script_runner_result w path _ h (Setup.run_powershell_script w path args)).
    reflexivity.
  - apply (script_runner_result w path _ h (Setup.run_python_script w path args)).
    reflexivity.
Qed.

(* ================================================================= *)
(** ** The orchestrator without [--full] *)

Ltac norm_l' :=
  lazymatch goal with
  | |- bind (bind _ _) _ =~ _ => etransitivity; [apply bind_assoc |]; cbn beta iota zeta
  | |- bind (ret _) _ =~ _ => etransitivity; [apply ret_bind |]; cbn beta iota zeta
  end.
Ltac norm_r' :=
  lazymatch goal with
  | |- _ =~ bind (bind _ _) _ => etransitivity; [| symmetry; apply bind_assoc]; cbn beta iota zeta
  | |- _ =~ bind (ret _) _ => etransitivity; [| symmetry; apply ret_bind]; cbn beta iota zeta
  end.
Ltac sync' :=
  repeat first [ norm_l' | norm_r' | (apply bind_Proper; [reflexivity | intros ?]) ].

Lemma run_phases_without_full w depth args :
  Setup.Args.full args = false ->
  Setup.run_phases w depth args =~
  (Setup.banner ;;
   results <- run_in_order (map (phase w depth) (selected_phases args)) ;;
   setup_report (all_true results)).
Proof.
  intros Hf. unfold Setup.run_phases, Setup.or_return, Setup.finish_phases, selected_phases,
    setup_report.
  rewrite Hf. cbn [filter flag_of]. rewrite !orb_false_r. cbn [andb].
  destruct (Setup.Args.clean args), (Setup.Args.verify_cleanup args),
    (Setup.Args.install args), (Setup.Args.cudnn args), (Setup.Args.verify args);
    cbn [map run_in_order phase orb];
    sync'; by_cases.
Qed.

Lemma setup_report_returns b h :
  fst (setup_report b h) = Ret (if b then 0 else 1)%Z.
Proof. destruct b; reflexivity. Qed.

Lemma no_exit_setup_log s st : no_exit (Setup.log s st).
Proof. intros h c; discriminate. Qed.

Lemma no_exit_input w prompt : no_exit (input w prompt).
Proof. intros h c. unfold input. destruct (nth_error _ _); discriminate. Qed.

Lemma no_exit_run_powershell_script w path args :
  no_exit (Setup.run_powershell_script w path args).
Proof.
  unfold Setup.run_powershell_script, Setup.run_logged, Setup.subprocess_run_check.
  repeat first [ apply no_exit_setup_log | no_exit_step ].
Qed.

Lemma no_exit_run_python_script w path args :
  no_exit (Setup.run_python_script w path args).
Proof.
  unfold Setup.run_python_script, Setup.run_logged, Setup.subprocess_run_check.
  repeat first [ apply no_exit_setup_log | no_exit_step ].
Qed.

Lemma no_exit_later_phase w depth p : p <> Clean -> no_exit (phase w depth p).
Proof.
  intros Hp. destruct p; [congruence | | | |]; cbn [phase].
  - unfold Setup.verify_cleanup.
    repeat first [ apply no_exit_setup_log | apply no_exit_run_powershell_script
                 | no_exit_step ].
  - unfold Setup.process_installation.
    repeat first [ apply no_exit_setup_log | apply no_exit_run_powershell_script
                 | no_exit_step ].
  - unfold Setup.process_cudnn_setup.
    repeat first [ apply no_exit_setup_log | apply no_exit_input
                 | apply no_exit_run_powershell_script | no_exit_step ].
  - unfold Setup.process_verification.
    repeat first [ apply no_exit_setup_log | apply no_exit_run_python_script
                 | no_exit_step ].
Qed.

(** X4.  Run with flags other than [--full] (and without
    [--requirements]), the orchestrator runs the selected phases in the
    order cleanup, cleanup verification, installation, cuDNN, verification,
    each after the ones before it have returned, whatever they returned.
    When all of them return, the exit status is 0 exactly when all returned
    true.  When a phase ends the process (the cleanup phase does, with
    status 0, when the operator asks for the reboot) or raises, the run ends
    there with that status or that exception; without [--clean] no phase
    ends the process. *)
Theorem phases_without_full_are_independent w depth args :
  platform_system w = "Windows" ->
  is_admin w = true ->
  Setup.any_flag args = true ->
  Setup.Args.requirements args = false ->
  Setup.Args.full args = false ->
  (forall h results,
     fst (run_in_order (map (phase w depth) (selected_phases args))
            (h ++ banner_lines)%list) = Ret results ->
     fst (Setup.script w depth args h) = SysExit (if all_true results then 0 else 1)%Z) /\
  (forall h c,
     fst (run_in_order (map (phase w depth) (selected_phases args))
            (h ++ banner_lines)%list) = SysExit c ->
     fst (Setup.script w depth args h) = SysExit c) /\
  (forall h e,
     fst (run_in_order (map (phase w depth) (selected_phases args))
            (h ++ banner_lines)%list) = Raise e ->
     fst (Setup.script w depth args h) = Raise e) /\
  (Setup.Args.clean args = false ->
   forall h c,
     fst (run_in_order (map (phase w depth) (selected_phases args))
            (h ++ banner_lines)%list) <> SysExit c) /\
  (forall h before p after results t,
     selected_phases args = (before ++ p :: after)%list ->
     run_in_order (map (phase w depth) before) (h ++ banner_lines)%list = (Ret results, t) ->
     exists t',
       snd (Setup.script w depth args h) =
       (banner_lines ++ t ++ snd (phase w depth p (h ++ banner_lines ++ t)%list) ++ t')%list).
Proof.
  intros Hw Ha Hany Hr Hf.
  assert (Hmain : forall h, Setup.main w depth args h =
            (Setup.banner ;;
             results <- run_in_order (map (phase w depth) (selected_phases args)) ;;
             setup_report (all_true results)) h).
  { intros h. unfold Setup.main. rewrite Hw, Ha, Hany, Hr.
    cbn [String.eqb Ascii.eqb Bool.eqb negb]. apply run_phases_without_full, Hf. }
  assert (Hend : forall h,
            fst (Setup.script w depth args h) =
            end_of_checks
              (fst (run_in_order (map (phase w depth) (selected_phases args))
                      (h ++ banner_lines)%list))).
  { intros h. unfold Setup.script. rewrite fst_bind, Hmain.
    rewrite fst_bind, banner_run. cbn [fst snd].
    rewrite fst_bind.
    destruct (fst (run_in_order _ _)) as [results|e|c]; cbn [end_of_checks]; try reflexivity.
    rewrite setup_report_returns. reflexivity. }
  split; [| split; [| split; [| split]]].
  - intros h results E. rewrite Hend, E. reflexivity.
  - intros h c E. rewrite Hend, E. reflexivity.
  - intros h e E. rewrite Hend, E. reflexivity.
  - intros Hc h c. apply no_exit_run_in_order.
    apply Forall_forall. intros m Hin.
    apply in_map_iff in Hin. destruct Hin as [p [<- Hp]].
    apply no_exit_later_phase. intros ->.
    unfold selected_phases in Hp. apply filter_In in Hp. destruct Hp as [_ Hp].
    cbn [flag_of] in Hp. congruence.
  - intros h before p after results t Hs Hrun. unfold Setup.script.
    destruct (snd_bind_prefix Z unit (Setup.main w depth args) (fun code => sys_exit code) h)
      as [t0 ->].
    rewrite Hmain, Hs, map_app. cbn [map].
    rewrite snd_bind, banner_run. cbn [fst snd].
    match goal with
    | |- context [snd (bind ?m ?k ?h')] =>
        destruct (snd_bind_prefix _ _ m k h') as [t1 ->]
    end.
    destruct (run_in_order_app _ (phase w depth p :: map (phase w depth) after) _ _ _ Hrun)
      as [t2 ->].
    destruct (snd_cons_prefix (phase w depth p) (map (phase w depth) after)
                ((h ++ banner_lines) ++ t)%list) as [t3 ->].
    rewrite <- !app_assoc. eexists. reflexivity.
Qed.

Lemma phases_without_full_witness :
  fst (Setup.script failing_install 1 setup_install_and_verify []) = SysExit 1%Z /\
  fst (Setup.script rebooting_windows 1 setup_clean_and_install []) = SysExit 0%Z.
Proof.
  split.
  - apply (proj1 (phases_without_full_are_independent failing_install 1
                    setup_install_and_verify
                    eq_refl eq_refl eq_refl eq_refl eq_refl) [] [false; true]).
    vm_compute. reflexivity.
  - apply (proj1 (proj2 (phases_without_full_are_independent rebooting_windows 1
                           setup_clean_and_install
                           eq_refl eq_refl eq_refl eq_refl eq_refl)) [] 0%Z).
    vm_compute. reflexivity.
Defined.

(** On the machine where the installation fails, the run with [--install]
    and [--verify] still runs the verification and exits with status 1. *)
Example verification_runs_after_failed_installation :
  fst (Setup.script failing_install 1 setup_install_and_verify []) = SysExit 1%Z /\
  commands_run (snd (Setup.script failing_install 1 setup_install_and_verify [])) =
    [powershell "install.ps1"; python failing_install "verify.py"].
Proof. split; vm_compute; reflexivity. Qed.

(* ================================================================= *)
(** ** The reboot, and a question without an answer *)

Lemma commands_run_app (h t : History) :
  commands_run (h ++ t)%list = (commands_run h ++ commands_run t)%list.
Proof.
  induction h as [| e h IH]; [reflexivity |].
  destruct e; cbn [app commands_run]; rewrite IH; reflexivity.
Qed.

Lemma ask_restart_reboots w success h answer :
  nth_error (stdin w) (count_asked h) = Some answer ->
  Py.upper answer = "S" ->
  (forall h' msg, subprocess_run w h' shutdown_command <> raised msg) ->
  fst (Setup.ask_restart w success h) = SysExit 0%Z /\
  commands_run (snd (Setup.ask_restart w success h)) = [shutdown_command] /\
  questions (snd (Setup.ask_restart w success h)) = [restart_question].
Proof.
  intros Ha Hs Hrun. unfold Setup.ask_restart.
  rewrite (bind_ret_eq _ _ _ _ h tt
             [Printed (log_line (Setup.status_color Warning) Warning
                "Se recomienda reiniciar el sistema antes de continuar con la instalación.")])
    by reflexivity.
  rewrite (bind_ret_eq _ _ _ _ _ answer [Asked restart_question answer])
    by (apply input_at; count_answers; exact Ha).
  rewrite Hs. cbn [String.eqb Ascii.eqb Bool.eqb fst snd].
  unfold Setup.shutdown, bind, run. cbn [Setup.log print emit].
  fold shutdown_command.
  match goal with |- context [subprocess_run w ?h' shutdown_command] =>
    pose proof (Hrun h') as Hh; destruct (subprocess_run w h' shutdown_command) as [o e c | msg]
  end.
  - repeat split; reflexivity.
  - destruct (Hh msg eq_refl).
Qed.

Lemma cleanup_reboots w depth h t1 t2 answer :
  Setup.run_powershell_script w (beside_script w "cleanup.ps1") None
    (h ++ [cleanup_title])%list = (Ret true, t1) ->
  Setup.verify_cleanup w (h ++ cleanup_title :: t1 ++ [cleanup_succeeded])%list =
    (Ret true, t2) ->
  nth_error (stdin w) (count_asked h) = Some answer ->
  Py.upper answer = "S" ->
  (forall h' msg, subprocess_run w h' shutdown_command <> raised msg) ->
  fst (Setup.process_cleanup w (S depth) h) = SysExit 0%Z /\
  commands_run (snd (Setup.process_cleanup w (S depth) h)) =
    (commands_run t1 ++ commands_run t2 ++ [shutdown_command])%list /\
  questions (snd (Setup.process_cleanup w (S depth) h)) = [restart_question].
Proof.
  intros E1 E2 Ha Hs Hrun.
  destruct (quiet_events _ _ _ _ _ (quiet_run_powershell_script w _ _) E1) as [Q1 C1].
  destruct (quiet_events _ _ _ _ _ (quiet_verify_cleanup w) E2) as [Q2 C2].
  cbn [Setup.process_cleanup].
  rewrite (bind_ret_eq _ _ _ _ h tt [cleanup_title]) by reflexivity.
  rewrite (bind_ret_eq _ _ _ _ _ true t1 E1). cbn [fst snd].
  rewrite (bind_ret_eq _ _ _ _ _ tt [cleanup_succeeded]) by reflexivity. cbn [fst snd].
  assert (E2' : Setup.verify_cleanup w (((h ++ [cleanup_title]) ++ t1) ++ [cleanup_succeeded])%list
                = (Ret true, t2)).
  { rewrite <- E2. f_equal. rewrite <- !app_assoc. reflexivity. }
  rewrite (bind_ret_eq _ _ _ _ _ true t2 E2'). cbn [fst snd negb].
  match goal with |- context [Setup.ask_restart w true ?h'] =>
    destruct (ask_restart_reboots w true h' answer) as [R1 [R2 R3]];
      [count_answers; rewrite C1, C2, !Nat.add_0_r; exact Ha | exact Hs | exact Hrun |]
  end.
  cbn [fst snd]. rewrite R1. split; [reflexivity |]. split.
  - rewrite !commands_run_app, R2. reflexivity.
  - rewrite !questions_app, Q1, Q2, R3. reflexivity.
Qed.

Lemma exit_in_cleanup_ends_the_run w depth args h c t :
  Setup.Args.clean args || Setup.Args.full args = true ->
  Setup.process_cleanup w depth (h ++ banner_lines)%list = (SysExit c, t) ->
  Setup.run_phases w depth args h = (SysExit c, (banner_lines ++ t)%list).
Proof.
  intros Hsel E. unfold Setup.run_phases, Setup.or_return.
  rewrite (bind_ret_eq _ _ _ _ h tt banner_lines (banner_run h)).
  rewrite Hsel. unfold bind. rewrite E. reflexivity.
Qed.

(** X5.  When the cleanup script and the verification of the cleanup
    succeed and the operator answers S (or s) to the question about the
    reboot, the cleanup phase runs [shutdown /r /t 10] and ends the process
    with status 0; and whenever the cleanup phase ends the process, [main]
    ends there with the same status: no later phase is run. *)
Theorem reboot_ends_the_run_with_status_0 w depth h t1 t2 answer :
  Setup.run_powershell_script w (beside_script w "cleanup.ps1") None
    (h ++ [cleanup_title])%list = (Ret true, t1) ->
  Setup.verify_cleanup w (h ++ cleanup_title :: t1 ++ [cleanup_succeeded])%list =
    (Ret true, t2) ->
  nth_error (stdin w) (count_asked h) = Some answer ->
  Py.upper answer = "S" ->
  (forall h' msg, subprocess_run w h' shutdown_command <> raised msg) ->
  (fst (Setup.process_cleanup w (S depth) h) = SysExit 0%Z /\
   commands_run (snd (Setup.process_cleanup w (S depth) h)) =
     (commands_run t1 ++ commands_run t2 ++ [shutdown_command])%list /\
   questions (snd (Setup.process_cleanup w (S depth) h)) = [restart_question]) /\
  (forall depth' args h0 c t,
     Setup.Args.clean args || Setup.Args.full args = true ->
     Setup.process_cleanup w depth' (h0 ++ banner_lines)%list = (SysExit c, t) ->
     Setup.run_phases w depth' args h0 = (SysExit c, (banner_lines ++ t)%list)).
Proof.
  intros E1 E2 Ha Hs Hrun. split.
  - apply (cleanup_reboots w depth h t1 t2 answer); assumption.
  - intros depth' args h0 c t. apply exit_in_cleanup_ends_the_run.
Qed.

Lemma reboot_witness :
  fst (Setup.process_cleanup rebooting_windows 1 []) = SysExit 0%Z /\
  commands_run (snd (Setup.process_cleanup rebooting_windows 1 [])) =
    [powershell "cleanup.ps1"; powershell "verify_cleanup.ps1"; shutdown_command].
Proof.
  pose proof (reboot_ends_the_run_with_status_0 rebooting_windows 0 []
    (snd (Setup.run_powershell_script rebooting_windows "cleanup.ps1" None [cleanup_title]))
    (snd (Setup.verify_cleanup rebooting_windows
            ([] ++ cleanup_title ::
               snd (Setup.run_powershell_script rebooting_windows "cleanup.ps1" None
                      [cleanup_title]) ++ [cleanup_succeeded])%list))
    "s"
    ltac:(vm_compute; reflexivity) ltac:(vm_compute; reflexivity)
    eq_refl ltac:(vm_compute; reflexivity)
    ltac:(intros h' msg; discriminate)) as [[H1 [H2 _]] _].
  split; [exact H1 |]. rewrite H2. vm_compute. reflexivity.
Defined.

Lemma input_at_eof w prompt h :
  nth_error (stdin w) (count_asked h) = None ->
  input w prompt h = (Raise EOFError, [AskedEOF prompt]).
Proof. intros Ha. unfold input. rewrite Ha. reflexivity. Qed.

Lemma cudnn_at_eof w h :
  nth_error (stdin w) (count_asked h) = None ->
  fst (Setup.process_cudnn_setup w h) = Raise EOFError /\
  commands_run (snd (Setup.process_cudnn_setup w h)) = [] /\
  questions (snd (Setup.process_cudnn_setup w h)) = [cudnn_question].
Proof.
  intros Ha. unfold Setup.process_cudnn_setup, bind. cbn [Setup.log print emit].
  rewrite (input_at_eof w) by (count_answers; exact Ha).
  repeat split; reflexivity.
Qed.

Lemma cleanup_at_eof w depth h t1 t2 :
  Setup.run_powershell_script w (beside_script w "cleanup.ps1") None
    (h ++ [cleanup_title])%list = (Ret true, t1) ->
  Setup.verify_cleanup w (h ++ cleanup_title :: t1 ++ [cleanup_succeeded])%list =
    (Ret true, t2) ->
  nth_error (stdin w) (count_asked h) = None ->
  fst (Setup.process_cleanup w (S depth) h) = Raise EOFError.
Proof.
  intros E1 E2 Ha.
  destruct (quiet_events _ _ _ _ _ (quiet_run_powershell_script w _ _) E1) as [Q1 C1].
  destruct (quiet_events _ _ _ _ _ (quiet_verify_cleanup w) E2) as [Q2 C2].
  cbn [Setup.process_cleanup].
  rewrite (bind_ret_eq _ _ _ _ h tt [cleanup_title]) by reflexivity.
  rewrite (bind_ret_eq _ _ _ _ _ true t1 E1). cbn [fst snd].
  rewrite (bind_ret_eq _ _ _ _ _ tt [cleanup_succeeded]) by reflexivity. cbn [fst snd].
  assert (E2' : Setup.verify_cleanup w (((h ++ [cleanup_title]) ++ t1) ++ [cleanup_succeeded])%list
                = (Ret true, t2)).
  { rewrite <- E2. f_equal. rewrite <- !app_assoc. reflexivity. }
  rewrite (bind_ret_eq _ _ _ _ _ true t2 E2'). cbn [fst snd negb].
  unfold Setup.ask_restart.
  match goal with |- context [bind (Setup.log ?s ?st) ?k ?h'] =>
    rewrite (bind_ret_eq _ _ (Setup.log s st) k h' tt
               [Printed (log_line (Setup.status_color st) st s)]) by reflexivity
  end.
  cbn [fst snd]. unfold bind.
  rewrite (input_at_eof w) by (count_answers; rewrite C1, C2, !Nat.add_0_r; exact Ha).
  reflexivity.
Qed.

(** X6.  A question put when the operator has no answer left raises
    [EOFError], which nothing catches.  So the cuDNN phase ends there before
    running any command, and the cleanup phase ends there even after a
    cleanup and a verification that succeeded: it cannot return true
    without an answer to the question about the reboot. *)
Theorem question_without_answer_ends_the_phase w h :
  nth_error (stdin w) (count_asked h) = None ->
  (fst (Setup.process_cudnn_setup w h) = Raise EOFError /\
   commands_run (snd (Setup.process_cudnn_setup w h)) = [] /\
   questions (snd (Setup.process_cudnn_setup w h)) = [cudnn_question]) /\
  (forall depth t1 t2,
     Setup.run_powershell_script w (beside_script w "cleanup.ps1") None
       (h ++ [cleanup_title])%list = (Ret true, t1) ->
     Setup.verify_cleanup w (h ++ cleanup_title :: t1 ++ [cleanup_succeeded])%list =
       (Ret true, t2) ->
     fst (Setup.process_cleanup w (S depth) h) = Raise EOFError).
Proof.
  intros Ha. split.
  - apply cudnn_at_eof, Ha.
  - intros depth t1 t2 E1 E2. apply (cleanup_at_eof w depth h t1 t2 E1 E2 Ha).
Qed.

Lemma question_without_answer_witness :
  fst (Setup.process_cudnn_setup unattended_windows []) = Raise EOFError /\
  exit_status (terminate (fst (Setup.script unattended_windows 1 setup_only_cudnn []))) = 1%Z.
Proof.
  split.
  - apply (proj1 (question_without_answer_ends_the_phase unattended_windows [] eq_refl)).
  - vm_compute. reflexivity.
Defined.

(* ================================================================= *)
(** ** The driver check of the prober *)

Lemma split_go_one sep cur s :
  Py.contains sep s = false -> exists x, Py.split_go sep 0 cur s = [x].
Proof.
  revert cur. induction s as [| c s IH]; intros cur H.
  - eexists; reflexivity.
  - rewrite contains_eq in H. cbn [Py.split_go].
    destruct (String.prefix sep (String c s)); [discriminate | apply IH, H].
Qed.

Lemma field_after_colon_cases line h :
  (Py.contains ":" line = true /\
   exists x, TestCuda.field_after_colon line h = (Ret x, [])) \/
  (Py.contains ":" line = false /\
   TestCuda.field_after_colon line h = (Raise IndexError, [])).
Proof.
  unfold TestCuda.field_after_colon.
  destruct (Py.contains ":" line) eqn:E.
  - left. split; [reflexivity |].
    destruct (index_split_1 line ":" ltac:(discriminate) E) as [x ->].
    eexists; reflexivity.
  - right. split; [reflexivity |]. unfold Py.split.
    destruct (split_go_one ":" [] line E) as [x ->]. reflexivity.
Qed.

Lemma scan_driver_lines_result lines :
  forall dv cv gn h,
    (forallb readable lines = true ->
     exists r, TestCuda.scan_driver_lines lines dv cv gn h = (Ret r, [])) /\
    (forallb readable lines = false ->
     TestCuda.scan_driver_lines lines dv cv gn h = (Raise IndexError, [])).
Proof.
  induction lines as [| line rest IH]; intros dv cv gn h.
  - split; [eexists; reflexivity | discriminate].
  - cbn [TestCuda.scan_driver_lines forallb]. unfold readable at 1 3, labelled.
    destruct (field_after_colon_cases line h) as [[Hc [x Hx]] | [Hc Hx]]; rewrite Hc.
    + rewrite orb_true_r. cbn [andb].
      assert (Hf : forall h', TestCuda.field_after_colon line h' = (Ret x, [])).
      { intros h'. destruct (field_after_colon_cases line h') as [[_ [y Hy]] | [Hn _]];
          [| congruence].
        rewrite Hy. unfold TestCuda.field_after_colon in Hx, Hy.
        unfold bind in Hx, Hy. unfold index in Hx, Hy.
        destruct (nth_error (Py.split line ":") 1); cbn in Hx, Hy; congruence. }
      unfold bind.
      destruct (Py.contains "Driver Version" line), (Py.contains "CUDA Version" line);
        rewrite ?Hf; cbn [ret app]; rewrite ?Hf; cbn [ret app];
        match goal with
        | |- context [TestCuda.scan_driver_lines rest ?a ?b ?c ?h'] =>
            destruct (IH a b c h') as [I1 I2]
        end;
        (split; intros Hr;
         [destruct (I1 Hr) as [r ->]; eexists; reflexivity | rewrite (I2 Hr); reflexivity]).
    + rewrite orb_false_r. unfold bind.
      destruct (Py.contains "Driver Version" line) eqn:E1.
      * cbn [negb orb andb]. rewrite Hx. split; [discriminate | reflexivity].
      * destruct (Py.contains "CUDA Version" line) eqn:E2; cbn [negb orb andb ret app].
        -- assert (Hf : TestCuda.field_after_colon line (h ++ [])%list = (Raise IndexError, [])).
           { destruct (field_after_colon_cases line (h ++ [])%list) as [[Hy _] | [_ Hy]];
               [congruence | exact Hy]. }
           rewrite Hf. split; [discriminate | reflexivity].
        -- match goal with
           | |- context [TestCuda.scan_driver_lines rest ?a ?b ?c ?h'] =>
               destruct (IH a b c h') as [I1 I2]
           end.
           split; intros Hr;
             [destruct (I1 Hr) as [r ->]; eexists; reflexivity | rewrite (I2 Hr); reflexivity].
Qed.

(** X7.  When the driver tool ends with status 0, the driver check of the
    prober returns true if every line of the output that holds one of the
    two version labels also holds a colon, and raises [IndexError]
    otherwise; it never returns false there, whether or not a version or a
    device is found in the output. *)
Theorem driver_check_after_successful_query w h out err :
  subprocess_run w
    (h ++ [Printed (log_line (status_color Info) Info "Verificando controlador NVIDIA...")])%list
    (ShellCmd "nvidia-smi") = completed out err 0%Z ->
  fst (TestCuda.check_cuda_driver w h) =
  if forallb readable (Py.split (Py.strip out) Py.nl) then Ret true else Raise IndexError.
Proof.
  intros E. unfold TestCuda.check_cuda_driver.
  exec. rewrite fst_bind, run_command_eq, E. cbn [fst snd negb Z.eqb]. flatten.
  rewrite fst_bind.
  match goal with
  | |- context [TestCuda.scan_driver_lines ?l None None None ?h'] =>
      destruct (scan_driver_lines_result l None None None h') as [I1 I2]
  end.
  destruct (forallb readable (Py.split (Py.strip out) Py.nl)).
  - destruct (I1 eq_refl) as [[[dv cv] gn] ->]. cbn [fst snd].
    destruct (truthy dv), (truthy cv), (truthy gn); reflexivity.
  - rewrite (I2 eq_refl). reflexivity.
Qed.

Lemma driver_check_witness :
  fst (TestCuda.check_cuda_driver (windows_printing smi_banner) []) = Ret true.
Proof.
  rewrite (driver_check_after_successful_query (windows_printing smi_banner) []
             smi_banner "" eq_refl).
  vm_compute. reflexivity.
Defined.

Lemma field_after_colon_same line h h' x y t t' :
  TestCuda.field_after_colon line h = (Ret x, t) ->
  TestCuda.field_after_colon line h' = (Ret y, t') ->
  x = y.
Proof.
  unfold TestCuda.field_after_colon, bind, index.
  destruct (nth_error (Py.split line ":") 1); cbn; congruence.
Qed.

Lemma scan_driver_lines_same lines :
  forall dv0 cv0 gn0 h dv cv gn t,
    Forall (fun line => Py.contains "Driver Version" line = Py.contains "CUDA Version" line)
      lines ->
    dv0 = cv0 ->
    TestCuda.scan_driver_lines lines dv0 cv0 gn0 h = (Ret (dv, cv, gn), t) ->
    dv = cv.
Proof.
  induction lines as [| line rest IH]; intros dv0 cv0 gn0 h dv cv gn t Hall H0 E.
  - cbn [TestCuda.scan_driver_lines] in E. unfold ret in E. congruence.
  - inversion Hall as [| ? ? Hline Hrest]; subst.
    cbn [TestCuda.scan_driver_lines] in E. rewrite Hline in E.
    destruct (Py.contains "CUDA Version" line).
    + unfold bind at 1 2 in E.
      destruct (TestCuda.field_after_colon line h) as [[x|e|c] t1] eqn:E1;
        cbn [ret] in E; try discriminate.
      unfold bind at 1 2 in E.
      destruct (TestCuda.field_after_colon line _) as [[y|e|c] t2] eqn:E2 in E;
        cbn [ret] in E; try discriminate.
      pose proof (field_after_colon_same _ _ _ _ _ _ _ E1 E2) as <-.
      match type of E with
      | context [TestCuda.scan_driver_lines rest ?a ?b ?c ?h'] =>
          destruct (TestCuda.scan_driver_lines rest a b c h') as [[[[dv' cv'] gn']|e|c'] t3] eqn:E3
      end; cbn in E; try discriminate.
      injection E as <- <- <- <-. exact (IH _ _ _ _ _ _ _ _ Hrest eq_refl E3).
    + unfold bind in E. cbn [ret] in E.
      match type of E with
      | context [TestCuda.scan_driver_lines rest ?a ?b ?c ?h'] =>
          destruct (TestCuda.scan_driver_lines rest a b c h') as [[[[dv' cv'] gn']|e|c'] t3] eqn:E3
      end; cbn in E; try discriminate.
      injection E as <- <- <- <-. exact (IH _ _ _ _ _ _ _ _ Hrest eq_refl E3).
Qed.

(** X8.  When every line of the output holds the label of the driver
    version exactly if it holds the label of the CUDA version (the driver
    tool prints both on one line) and every such line has a colon, the loop
    of the driver check ends with the same text for the two versions: the
    piece between the first colon and the second. *)
Theorem two_labels_on_a_line_give_one_text lines h :
  Forall (fun line => Py.contains "Driver Version" line = Py.contains "CUDA Version" line)
    lines ->
  forallb readable lines = true ->
  exists version gpu_name,
    TestCuda.scan_driver_lines lines None None None h =
    (Ret (version, version, gpu_name), []).
Proof.
  intros Hall Hr.
  destruct (proj1 (scan_driver_lines_result lines None None None h) Hr)
    as [[[dv cv] gn] E].
  pose proof (scan_driver_lines_same lines _ _ _ _ _ _ _ _ Hall eq_refl E) as <-.
  exists dv, gn. exact E.
Qed.

Lemma two_labels_witness :
  exists version gpu_name,
    TestCuda.scan_driver_lines [smi_banner] None None None [] =
    (Ret (version, version, gpu_name), []).
Proof.
  apply (two_labels_on_a_line_give_one_text [smi_banner] []).
  - constructor; [vm_compute; reflexivity | constructor].
  - vm_compute. reflexivity.
Defined.

(** On the banner of the driver tool, both versions are read as the text
    between the first two colons. *)
Example versions_read_on_the_banner :
  TestCuda.scan_driver_lines [smi_banner] None None None [] =
  (Ret (Some "535.104.05   CUDA Version", Some "535.104.05   CUDA Version", None), []).
Proof. vm_compute. reflexivity. Qed.

(* ================================================================= *)
(** ** The framework check of the prober *)

Lemma fst_try A (m : M A) (handler : Exn -> M A) h :
  fst (try_except m handler h) =
  match fst (m h) with
  | Raise e => fst (handler e (h ++ snd (m h))%list)
  | other => other
  end.
Proof.
  unfold try_except. destruct (m h) as [[a|e|c] t]; cbn [fst snd]; try reflexivity.
  destruct (handler e _); reflexivity.
Qed.

Lemma log_devices_run names : forall i h,
  TestCuda.log_devices i names h = (Ret tt, device_lines i names).
Proof.
  induction names as [| name rest IH]; intros i h; [reflexivity |].
  cbn [TestCuda.log_devices device_lines]. unfold bind at 1. cbn [log print emit].
  rewrite IH. reflexivity.
Qed.

Lemma import_torch_run w h :
  TestCuda.import_torch w h =
  (match import_module w h "torch" with
   | ImportOk => Ret tt
   | ImportFails msg => Raise (ImportError msg)
   | ImportThrows msg => Raise (OtherException msg)
   end, [Imported "torch"]).
Proof.
  unfold TestCuda.import_torch, bind, ask, emit. cbn [fst snd app].
  destruct (import_module w _ "torch"); reflexivity.
Qed.

(** X9.  The framework check of the prober never raises and never ends the
    process: whatever the import and the calls into the framework do, it
    returns a boolean.  It returns true exactly when the import succeeds,
    an accelerator is reported, the devices can be listed and the timing
    comparison runs to its end; an accelerator slower than the processor
    does not make it fail. *)
Theorem pytorch_check_always_returns w h :
  fst (TestCuda.test_pytorch_cuda w h) = Ret (torch_works w h).
Proof.
  unfold TestCuda.test_pytorch_cuda.
  rewrite fst_bind. cbn [log print emit fst snd]. fold (at_import h).
  rewrite fst_try.
  match goal with
  | |- match fst (?m _) with _ => _ end = _ => set (body := m)
  end.
  assert (Hb : fst (body (at_import h)) =
    match import_module w (at_import h) "torch" with
    | ImportOk =>
        match torch_cuda_is_available w (at_is_available w h) with
        | Ok true =>
            match torch_cuda_device_names w (at_devices w h) with
            | Ok names =>
                match torch_benchmark w (at_benchmark w h names) with
                | Ok _ => Ret true
                | Throws msg => Raise (OtherException msg)
                end
            | Throws msg => Raise (OtherException msg)
            end
        | Ok false => Ret false
        | Throws msg => Raise (OtherException msg)
        end
    | ImportFails msg => Raise (ImportError msg)
    | ImportThrows msg => Raise (OtherException msg)
    end).
  { subst body.
    rewrite fst_bind, import_torch_run. cbn [fst snd].
    destruct (import_module w (at_import h) "torch") as [| msg | msg];
      [| reflexivity | reflexivity].
    unfold at_import. flatten. repeat exec. fold (at_is_available w h).
    destruct (torch_cuda_is_available w (at_is_available w h)) as [[|] | msg];
      cbn [of_ext raise fst snd]; [| repeat exec; reflexivity | reflexivity].
    unfold at_is_available. repeat exec. fold (at_devices w h).
    destruct (torch_cuda_device_names w (at_devices w h)) as [names | msg];
      cbn [of_ext raise fst snd]; [| reflexivity].
    unfold at_devices. repeat exec.
    rewrite fst_bind, log_devices_run. cbn [fst snd]. flatten.
    repeat exec.
    change (h ++ _)%list with (at_benchmark w h names).
    destruct (torch_benchmark w (at_benchmark w h names)) as [b | msg];
      [| reflexivity].
    repeat exec. destruct (speedup_gt_1 b); repeat exec; reflexivity. }
  rewrite Hb. unfold torch_works.
  destruct (import_module w (at_import h) "torch") as [| msg | msg];
    [| reflexivity | reflexivity].
  destruct (torch_cuda_is_available w (at_is_available w h)) as [[|] | msg];
    [| reflexivity | reflexivity].
  destruct (torch_cuda_device_names w (at_devices w h)) as [names | msg];
    [| reflexivity].
  destruct (torch_benchmark w (at_benchmark w h names)); reflexivity.
Qed.

(* ================================================================= *)
(** ** The files of the compile-and-run check *)

Lemma generate_cuda_program_without_files w h msg :
  os_makedirs w (at_makedirs h) (temp_dir w) = Throws msg \/
  (os_makedirs w (at_makedirs h) (temp_dir w) = Ok tt /\
   write_file w (at_write w h) (cuda_file w) TestCuda.cuda_code = Throws msg) ->
  commands_run (snd (TestCuda.generate_cuda_program w h)) = [].
Proof.
  unfold TestCuda.generate_cuda_program.
  fold (temp_dir w). fold (cuda_file w).
  intros [Hd | [Hd Hw]].
  - rewrite snd_bind. cbn [log print emit fst snd]. fold (at_makedirs h).
    rewrite snd_bind. cbn [ask fst snd]. rewrite app_nil_r, Hd.
    rewrite snd_bind. cbn [of_ext raise fst snd]. reflexivity.
  - rewrite snd_bind. cbn [log print emit fst snd]. fold (at_makedirs h).
    rewrite snd_bind. cbn [ask fst snd]. rewrite app_nil_r, Hd.
    rewrite snd_bind. cbn [of_ext ret fst snd]. rewrite app_nil_r.
    rewrite snd_bind. cbn [emit fst snd].
    unfold at_makedirs. flatten. fold (at_write w h).
    rewrite snd_bind. cbn [ask fst snd]. rewrite app_nil_r, Hw.
    rewrite snd_bind. cbn [of_ext raise fst snd]. reflexivity.
Qed.

(** X10.  The compile-and-run check raises exactly when the directory of
    the test cannot be made or the source file cannot be written, since
    neither call is guarded; the exception is the one of the failing call,
    and neither the compiler nor any other command has been run by then.
    Failing commands never make it raise. *)
Theorem compile_check_raises_iff_files_fail w h e :
  fst (TestCuda.generate_cuda_program w h) = Raise e <->
  exists msg,
    e = OtherException msg /\
    (os_makedirs w (at_makedirs h) (temp_dir w) = Throws msg \/
     (os_makedirs w (at_makedirs h) (temp_dir w) = Ok tt /\
      write_file w (at_write w h) (cuda_file w) TestCuda.cuda_code = Throws msg)) /\
    commands_run (snd (TestCuda.generate_cuda_program w h)) = [].
Proof.
  split.
  - intros H. rewrite generate_cuda_program_result in H.
    destruct (os_makedirs w _ _) as [[] | msg] eqn:Hd.
    + destruct (write_file w _ _ _) as [[] | msg] eqn:Hw.
      * exfalso.
        destruct (subprocess_run w _ _) as [out err rc | ?]; [| discriminate].
        destruct (negb (rc =? 0)%Z); [discriminate |].
        destruct (binary_run w h) as [out' err' rc' | ?]; [| discriminate].
        destruct (negb (rc' =? 0)%Z); discriminate.
      * injection H as <-. exists msg. split; [reflexivity |].
        split; [right; split; reflexivity |].
        apply (generate_cuda_program_without_files w h msg). right. split; assumption.
    + injection H as <-. exists msg. split; [reflexivity |].
      split; [left; reflexivity |].
      apply (generate_cuda_program_without_files w h msg). left. assumption.
  - intros [msg [-> [[Hd | [Hd Hw]] _]]]; rewrite generate_cuda_program_result, Hd.
    + reflexivity.
    + rewrite Hw. reflexivity.
Qed.

(* ================================================================= *)
(** ** The search in PATH *)

Lemma find_in_paths_run name pattern paths h :
  Verify.find_in_paths name pattern paths h =
  (Ret (existsb (path_hit pattern) paths), [Printed (path_line name pattern paths)]).
Proof.
  unfold path_line.
  induction paths as [| path rest IH]; cbn [Verify.find_in_paths existsb find].
  - reflexivity.
  - unfold path_hit at 1 3.
    destruct (Py.contains (Py.lower pattern) (Py.lower path)); cbn [orb].
    + reflexivity.
    + exact IH.
Qed.


(* ================================================================= *)
(** ** The Python check of the verifier *)

(** X12.  When the interpreter answers its version query with status 0 and
    an output of ASCII characters, the Python check of the verifier raises
    [IndexError] if the output has no second word (an interpreter that
    writes its version to the standard error leaves it empty); otherwise
    its result is the success of the installer of packages alone: neither a
    version other than 3.10 nor a PATH without Python makes it fail. *)
Theorem python_check_reads_second_word w h out err :
  subprocess_run w
    (h ++ [Printed (log_line (status_color Info) Info "Verificando Python...")])%list
    (ShellCmd "python --version") = completed out err 0%Z ->
  Py.isascii out = true ->
  fst (Verify.check_python w h) =
  match nth_error (Py.words (Py.strip out)) 1 with
  | None => Raise IndexError
  | Some version =>
      Ret (negb (fails (subprocess_run w (at_pip h (Py.strip out) version)
                          (ShellCmd "pip --version"))))
  end.
Proof.
  intros E _. unfold Verify.check_python.
  exec. rewrite fst_bind, run_command_eq, E. cbn [fst snd negb Z.eqb]. flatten.
  exec. rewrite fst_bind. unfold index.
  destruct (nth_error (Py.words (Py.strip out)) 1) as [version |]; [| reflexivity].
  cbn [ret fst snd]. flatten.
  rewrite fst_bind.
  assert (Hw : when_ (negb (Py.startswith version "3.10."))
                 (log ("⚠️ La versión de Python es " ++ version ++ ", se recomienda 3.10.x") Warning)
               = fun _ => (Ret tt,
                   if Py.startswith version "3.10." then []
                   else [Printed (log_line (status_color Warning) Warning
                           ("⚠️ La versión de Python es " ++ version ++ ", se recomienda 3.10.x"))])).
  { destruct (Py.startswith version "3.10."); reflexivity. }
  rewrite Hw. cbn [fst snd].
  rewrite fst_bind, run_command_eq. cbn [fst snd].
  match goal with
  | |- context [subprocess_run w ?h' (ShellCmd "pip --version")] =>
      replace h' with (at_pip h (Py.strip out) version)
        by (unfold at_pip; rewrite <- ?app_assoc; reflexivity)
  end.
  destruct (subprocess_run w (at_pip h (Py.strip out) version) (ShellCmd "pip --version"))
    as [out' err' rc' | msg]; cbn [fails].
  - destruct (negb (rc' =? 0)%Z); cbn [negb].
    + repeat exec. reflexivity.
    + exec. rewrite fst_bind. unfold Verify.check_path_env.
      rewrite find_in_paths_run. reflexivity.
  - cbn [negb Z.eqb]. repeat exec. reflexivity.
Qed.

Lemma python_check_witness :
  fst (Verify.check_python (windows_printing "Python 2.7.18") []) = Ret true /\
  fst (Verify.check_python (windows_printing "") []) = Raise IndexError.
Proof.
  split.
  - exact (python_check_reads_second_word
             (windows_printing "Python 2.7.18") [] "Python 2.7.18" "" eq_refl eq_refl).
  - exact (python_check_reads_second_word (windows_printing "") [] "" "" eq_refl eq_refl).
Defined.

(* ================================================================= *)
(** ** The Visual Studio check of the verifier *)

Lemma fst_bind_ext A B (m m' : M A) (k k' : A -> M B) h :
  m h = m' h ->
  (forall a t, fst (k a (h ++ t)%list) = fst (k' a (h ++ t)%list)) ->
  fst (bind m k h) = fst (bind m' k' h).
Proof.
  intros Em Ek. rewrite !fst_bind, Em.
  destruct (fst (m' h)); [apply Ek | reflexivity | reflexivity].
Qed.

Lemma find_vs_with_commands w commands paths :
  forall h, Verify.find_vs (with_commands w commands) paths h = Verify.find_vs w paths h.
Proof.
  induction paths as [| path rest IH]; intros h; cbn [Verify.find_vs]; [reflexivity |].
  unfold bind at 1 3. cbn [ask with_commands os_path_exists].
  destruct (os_path_exists w h path); [reflexivity |].
  rewrite IH. reflexivity.
Qed.

Lemma find_cl_with_commands w commands paths :
  forall h, Verify.find_cl (with_commands w commands) paths h = Verify.find_cl w paths h.
Proof.
  induction paths as [| path rest IH]; intros h; cbn [Verify.find_cl]; [reflexivity |].
  unfold bind, ask. cbn [with_commands glob].
  destruct (glob w h path) as [[| first others] | msg]; cbn [of_ext ret raise];
    [| reflexivity | reflexivity].
  rewrite IH. reflexivity.
Qed.

Lemma workloads_return w path (e : bool) h :
  fst ((if e then
          '(stdout, stderr, returncode) <-
            run_command w (Py.dq ++ path ++ Py.dq ++
              " -products * -requires Microsoft.VisualStudio.Workload.NativeDesktop -property displayName") ;;
          (if negb (stdout =? "")%string
           then log "✅ Carga de trabajo 'Desktop development with C++' instalada" Success
           else log "❌ Carga de trabajo 'Desktop development with C++' no encontrada" Error) ;;
          '(stdout, stderr, returncode) <-
            run_command w (Py.dq ++ path ++ Py.dq ++
              " -products * -requires Microsoft.VisualStudio.Workload.Python -property displayName") ;;
          (if negb (stdout =? "")%string
           then log "✅ Carga de trabajo 'Python development' instalada" Success
           else log "❌ Carga de trabajo 'Python development' no encontrada" Error)
        else
          log "⚠️ vswhere.exe no encontrado, no se pueden verificar cargas de trabajo de VS" Warning)
       h) = Ret tt.
Proof.
  destruct e; [| reflexivity].
  rewrite fst_bind, run_command_eq. cbn [fst snd].
  destruct (subprocess_run w h _) as [out err rc | msg].
  - rewrite fst_bind.
    assert (E1 : forall h', fst ((if negb (Py.strip out =? "")%string
           then log "✅ Carga de trabajo 'Desktop development with C++' instalada" Success
           else log "❌ Carga de trabajo 'Desktop development with C++' no encontrada" Error) h')
           = Ret tt) by (intros h'; destruct (negb _); reflexivity).
    rewrite E1. rewrite fst_bind, run_command_eq. cbn [fst snd].
    destruct (subprocess_run w _ _) as [out' err' rc' | msg'].
    + destruct (negb (Py.strip out' =? "")%string); reflexivity.
    + reflexivity.
  - cbn [String.eqb negb]. exec. rewrite fst_bind, run_command_eq. cbn [fst snd].
    destruct (subprocess_run w _ _) as [out' err' rc' | msg'].
    + destruct (negb (Py.strip out' =? "")%string); reflexivity.
    + reflexivity.
Qed.

(** X13.  The result of the Visual Studio check of the verifier does not
    depend on what any command answers: the two queries for the installed
    workloads are only reported, and the check returns (or raises) the same
    on a machine that differs in the answers of its commands alone. *)
Theorem visual_studio_check_ignores_commands w commands h :
  fst (Verify.check_visual_studio (with_commands w commands) h) =
  fst (Verify.check_visual_studio w h).
Proof.
  unfold Verify.check_visual_studio.
  apply fst_bind_ext; [reflexivity | intros [] t1].
  apply fst_bind_ext; [apply find_vs_with_commands | intros vs_found t2].
  apply fst_bind_ext; [reflexivity | intros [] t3].
  apply fst_bind_ext; [apply find_cl_with_commands | intros cl_found t4].
  apply fst_bind_ext; [reflexivity | intros [] t5].
  apply fst_bind_ext; [reflexivity | intros e t6].
  rewrite !fst_bind, !workloads_return. reflexivity.
Qed.

(* ================================================================= *)
(** ** The library check of the verifier *)

Lemma import_run w name h :
  Verify.import_ w name h =
  (match import_module w h name with
   | ImportOk => Ret tt
   | ImportFails msg => Raise (ImportError msg)
   | ImportThrows msg => Raise (OtherException msg)
   end, [Imported name]).
Proof.
  unfold Verify.import_, bind, ask, emit. cbn [fst snd app].
  destruct (import_module w _ name); reflexivity.
Qed.

Lemma check_libraries_result w found outcome :
  (forall h name, find_spec w h name = found name) ->
  (forall h name, import_module w h name = outcome name) ->
  forall libs,
    (forall library msg,
       In library libs -> found (fst library) = true ->
       outcome (fst library) <> ImportThrows msg) ->
    forall acc h,
      fst (Verify.check_libraries w libs acc h) =
      Ret (acc && forallb (installed found outcome) libs).
Proof.
  intros Hs Hi libs.
  induction libs as [| [module_name display_name] rest IH]; intros Hsafe acc h;
    cbn [Verify.check_libraries forallb].
  - rewrite andb_true_r. reflexivity.
  - assert (Hrest : forall library msg,
              In library rest -> found (fst library) = true ->
              outcome (fst library) <> ImportThrows msg).
    { intros library msg Hin. apply Hsafe. right. exact Hin. }
    specialize (IH Hrest).
    pose proof (fun msg => Hsafe (module_name, display_name) msg (or_introl eq_refl)) as Hm.
    cbn [fst] in Hm.
    unfold installed at 1. cbn [fst].
    rewrite fst_bind. cbn [ask fst snd]. rewrite Hs.
    destruct (found module_name); cbn [negb andb].
    + rewrite fst_bind, fst_try, fst_bind, import_run, Hi. cbn [fst snd].
      destruct (outcome module_name) as [| msg | msg]; cbn [imported].
      * rewrite fst_bind. cbn [log print emit ret fst snd].
        rewrite IH, andb_true_l. reflexivity.
      * rewrite fst_bind. cbn [log print emit ret fst snd].
        rewrite IH, andb_false_l, andb_false_r. reflexivity.
      * destruct (Hm msg eq_refl eq_refl).
    + rewrite fst_bind, fst_bind. cbn [log print emit ret fst snd].
      rewrite IH, andb_false_l, andb_false_r. reflexivity.
Qed.

(** X14.  On a machine where the answer about a module does not change
    during the run and no import raises anything but [ImportError], the
    library check of the verifier never raises: it returns true exactly when
    each of the eight libraries is found and imported.  A library that is
    missing, or whose import raises [ImportError], makes the result false
    and does not end the loop. *)
Theorem library_check_is_conjunction w found outcome h :
  (forall h' name, find_spec w h' name = found name) ->
  (forall h' name, import_module w h' name = outcome name) ->
  (forall library msg,
     In library Verify.libraries -> found (fst library) = true ->
     outcome (fst library) <> ImportThrows msg) ->
  fst (Verify.check_ml_libraries w h) =
  Ret (forallb (installed found outcome) Verify.libraries).
Proof.
  intros Hs Hi Hsafe. unfold Verify.check_ml_libraries. exec.
  rewrite (check_libraries_result w found outcome Hs Hi Verify.libraries Hsafe).
  reflexivity.
Qed.

Lemma library_check_witness :
  fst (Verify.check_ml_libraries
         (with_modules bare_windows scipy_missing pandas_broken) []) = Ret false.
Proof.
  apply (library_check_is_conjunction
           (with_modules bare_windows scipy_missing pandas_broken)
           scipy_missing pandas_broken []).
  - reflexivity.
  - reflexivity.
  - intros [name display] msg Hin _. cbn [fst]. unfold pandas_broken.
    destruct (name =? "pandas")%string; discriminate.
Defined.

(* ================================================================= *)
(** ** The framework check of the verifier *)

(** X15.  The framework check of the verifier does not import a framework
    that is not found: it returns false.  When the framework is found, the
    import and the calls into it are not guarded, so the check raises what
    they raise (an [ImportError] included, which the prober would report
    instead); otherwise it returns what the framework answers about an
    accelerator. *)
Theorem framework_check_is_not_guarded w h :
  (find_spec w (at_find_spec h) "torch" = false ->
   fst (Verify.check_pytorch w h) = Ret false /\
   imports (snd (Verify.check_pytorch w h)) = []) /\
  (find_spec w (at_find_spec h) "torch" = true ->
   imports (snd (Verify.check_pytorch w h)) = ["torch"] /\
   fst (Verify.check_pytorch w h) =
   match import_module w (at_find_spec h) "torch" with
   | ImportFails msg => Raise (ImportError msg)
   | ImportThrows msg => Raise (OtherException msg)
   | ImportOk =>
       match torch_cuda_is_available w (at_cuda_query w h) with
       | Throws msg => Raise (OtherException msg)
       | Ok false => Ret false
       | Ok true =>
           match torch_cuda_device_names w (at_cuda_query w h) with
           | Throws msg => Raise (OtherException msg)
           | Ok _ => Ret true
           end
       end
   end).
Proof.
  unfold Verify.check_pytorch. split; intros Hspec.
  - rewrite fst_bind, snd_bind. cbn [log print emit fst snd]. fold (at_find_spec h).
    rewrite fst_bind, snd_bind. cbn [ask fst snd]. rewrite app_nil_r, Hspec.
    cbn [negb]. split; reflexivity.
  - rewrite fst_bind, snd_bind. cbn [log print emit fst snd]. fold (at_find_spec h).
    rewrite fst_bind, snd_bind. cbn [ask fst snd]. rewrite app_nil_r, Hspec.
    cbn [negb app].
    rewrite fst_bind, snd_bind, import_run. cbn [fst snd].
    destruct (import_module w (at_find_spec h) "torch") as [| msg | msg];
      [| split; reflexivity | split; reflexivity].
    unfold at_find_spec. flatten.
    rewrite fst_bind, snd_bind. cbn [log print emit fst snd]. flatten.
    fold (at_cuda_query w h).
    rewrite fst_bind, snd_bind. cbn [ask fst snd]. rewrite app_nil_r.
    rewrite fst_bind, snd_bind.
    destruct (torch_cuda_is_available w (at_cuda_query w h)) as [[|] | msg];
      cbn [of_ext ret raise fst snd]; [| split; reflexivity | split; reflexivity].
    rewrite app_nil_r.
    rewrite fst_bind, snd_bind.
    rewrite fst_bind, snd_bind. cbn [ask fst snd]. rewrite app_nil_r.
    rewrite fst_bind, snd_bind.
    destruct (torch_cuda_device_names w (at_cuda_query w h)) as [names | msg];
      cbn [of_ext ret raise fst snd]; split; reflexivity.
Qed.

(* ================================================================= *)
(** ** The toolkit check of the verifier, after a compiler that answers *)

Lemma check_cuda_capitalised_release w h out err :
  subprocess_run w
    (h ++ [Printed (log_line (status_color Info) Info "Verificando CUDA...")])%list
    (ShellCmd "nvcc --version") = completed out err 0%Z ->
  Py.contains "release" (Py.lower (version_line (Py.strip out))) = true ->
  Py.contains "release" (version_line (Py.strip out)) = false ->
  fst (Verify.check_cuda w h) = Raise IndexError.
Proof.
  intros E Hlow Hline. unfold Verify.check_cuda.
  exec. rewrite fst_bind, run_command_eq, E. cbn [fst snd negb Z.eqb].
  rewrite fst_bind, fourth_line_or_all_run. cbn [fst snd]. exec.
  rewrite fst_bind, fourth_line_or_all_run. cbn [fst snd]. flatten.
  rewrite fst_bind, Hlow, fst_bind.
  unfold Py.split at 1.
  destruct (split_go_one "release" [] (version_line (Py.strip out)) Hline) as [x ->].
  reflexivity.
Qed.

(** X16.  When the compiler answers its version query with status 0 and an
    output of ASCII characters, the toolkit check of the verifier never
    returns false: it raises [IndexError] when the version line holds the
    word release with a capital letter and not in lower case, and returns
    true otherwise, whatever the version, the CUDA_PATH variable, PATH and
    the cuDNN header are. *)
Theorem toolkit_check_after_successful_query w h out err :
  subprocess_run w
    (h ++ [Printed (log_line (status_color Info) Info "Verificando CUDA...")])%list
    (ShellCmd "nvcc --version") = completed out err 0%Z ->
  Py.isascii out = true ->
  fst (Verify.check_cuda w h) =
  if Py.contains "release" (Py.lower (version_line (Py.strip out))) &&
     negb (Py.contains "release" (version_line (Py.strip out)))
  then Raise IndexError
  else Ret true.
Proof.
  intros E _.
  destruct (Py.contains "release" (Py.lower (version_line (Py.strip out)))) eqn:Hlow;
    cbn [andb].
  - destruct (Py.contains "release" (version_line (Py.strip out))) eqn:Hline; cbn [negb].
    + apply (check_cuda_needs_the_compiler_only w h out err E). intros _. exact Hline.
    + apply (check_cuda_capitalised_release w h out err E Hlow Hline).
  - apply (check_cuda_needs_the_compiler_only w h out err E). rewrite Hlow. discriminate.
Qed.

Lemma toolkit_check_witness :
  fst (Verify.check_cuda
         (windows_printing "Cuda compilation tools, release 11.8, V11.8.89") []) = Ret true /\
  fst (Verify.check_cuda (windows_printing "nvcc: NVIDIA (R) Cuda compiler driver") []) =
    Ret true.
Proof.
  split.
  - exact (toolkit_check_after_successful_query
             (windows_printing "Cuda compilation tools, release 11.8, V11.8.89") []
             "Cuda compilation tools, release 11.8, V11.8.89" "" eq_refl eq_refl).
  - exact (toolkit_check_after_successful_query
             (windows_printing "nvcc: NVIDIA (R) Cuda compiler driver") []
             "nvcc: NVIDIA (R) Cuda compiler driver" "" eq_refl eq_refl).
Defined.

(* ================================================================= *)
(** ** The commands of the orchestrator without [--clean] and [--full] *)

Lemma runs_only_bind A B allowed (m : M A) (k : A -> M B) :
  runs_only allowed m -> (forall a, runs_only allowed (k a)) ->
  runs_only allowed (bind m k).
Proof.
  intros Hm Hk h. rewrite snd_bind. specialize (Hm h).
  destruct (fst (m h)) as [a | e | c]; [| exact Hm | exact Hm].
  rewrite commands_run_app. apply incl_app; [exact Hm | apply Hk].
Qed.

Lemma runs_only_try A allowed (m : M A) (handler : Exn -> M A) :
  runs_only allowed m -> (forall e, runs_only allowed (handler e)) ->
  runs_only allowed (try_except m handler).
Proof.
  intros Hm Hk h. unfold try_except. specialize (Hm h).
  destruct (m h) as [[a | e | c] t]; cbn [snd] in *; try exact Hm.
  specialize (Hk e (h ++ t)%list). destruct (handler e _) as [r t']. cbn [snd] in *.
  rewrite commands_run_app. apply incl_app; assumption.
Qed.

Lemma runs_only_ret A allowed (a : A) : runs_only allowed (ret a).
Proof. intros h c []. Qed.

Lemma runs_only_raise A allowed e : runs_only allowed (@raise A e).
Proof. intros h c []. Qed.

Lemma runs_only_exit A allowed code : runs_only allowed (@sys_exit A code).
Proof. intros h c []. Qed.

Lemma runs_only_setup_log allowed s st : runs_only allowed (Setup.log s st).
Proof. intros h c []. Qed.

Lemma runs_only_print allowed s : runs_only allowed (print s).
Proof. intros h c []. Qed.

Lemma runs_only_help allowed : runs_only allowed (emit PrintedHelp).
Proof. intros h c []. Qed.

Lemma runs_only_ask A allowed (f : History -> A) : runs_only allowed (ask f).
Proof. intros h c []. Qed.

Lemma runs_only_input allowed w prompt : runs_only allowed (input w prompt).
Proof.
  intros h. unfold input. destruct (nth_error _ _); intros c [].
Qed.

Lemma runs_only_run allowed w c : In c allowed -> runs_only allowed (run w c).
Proof. intros Hc h c' [<- | []]. exact Hc. Qed.

Ltac runs_step :=
  first
    [ apply runs_only_ret | apply runs_only_raise | apply runs_only_exit
    | apply runs_only_setup_log | apply runs_only_print | apply runs_only_help
    | apply runs_only_ask | apply runs_only_input
    | apply runs_only_try; [| intros ?]
    | apply runs_only_bind; [| intros ?]
    | match goal with
      | |- runs_only _ (match ?x with _ => _ end) => destruct x
      end ].

Lemma runs_only_powershell allowed w path :
  In (powershell path) allowed ->
  runs_only allowed (Setup.run_powershell_script w path None).
Proof.
  intros Hc. unfold Setup.run_powershell_script, Setup.run_logged,
    Setup.subprocess_run_check. cbn [Setup.extend].
  repeat first [ apply (runs_only_run allowed w _ Hc) | runs_step ].
Qed.

Lemma runs_only_python allowed w path :
  In (python w path) allowed ->
  runs_only allowed (Setup.run_python_script w path None).
Proof.
  intros Hc. unfold Setup.run_python_script, Setup.run_logged,
    Setup.subprocess_run_check. cbn [Setup.extend].
  repeat first [ apply (runs_only_run allowed w _ Hc) | runs_step ].
Qed.

Lemma runs_only_later_phase w depth p :
  p <> Clean -> runs_only (later_commands w) (phase w depth p).
Proof.
  intros Hp. destruct p; [congruence | | | |]; cbn [phase].
  - unfold Setup.verify_cleanup.
    repeat first
      [ apply runs_only_powershell; cbn; tauto | runs_step ].
  - unfold Setup.process_installation.
    repeat first
      [ apply runs_only_powershell; cbn; tauto | runs_step ].
  - unfold Setup.process_cudnn_setup.
    repeat first
      [ apply runs_only_powershell; cbn; tauto | runs_step ].
  - unfold Setup.process_verification.
    repeat first
      [ apply runs_only_python; cbn; tauto | runs_step ].
Qed.

Lemma runs_only_in_order allowed cs :
  Forall (fun c => runs_only allowed c) cs -> runs_only allowed (run_in_order cs).
Proof.
  induction 1 as [| c cs Hc _ IH]; cbn [run_in_order].
  - apply runs_only_ret.
  - apply runs_only_bind; [exact Hc | intros b].
    apply runs_only_bind; [exact IH | intros bs]. apply runs_only_ret.
Qed.

Lemma runs_only_script w depth args :
  Setup.Args.clean args = false ->
  Setup.Args.full args = false ->
  runs_only (later_commands w) (Setup.script w depth args).
Proof.
  intros Hc Hf. unfold Setup.script.
  apply runs_only_bind; [| intros code; apply runs_only_exit].
  unfold Setup.main.
  destruct (negb (platform_system w =? "Windows")%string); [repeat runs_step |].
  destruct (negb (is_admin w)); [repeat runs_step |].
  destruct (negb (Setup.any_flag args)); [repeat runs_step |].
  destruct (Setup.Args.requirements args);
    [unfold Setup.show_requirements; repeat runs_step |].
  intros h. rewrite (run_phases_without_full w depth args Hf h). revert h.
  apply runs_only_bind; [unfold Setup.banner; repeat runs_step | intros []].
  apply runs_only_bind; [| intros results; unfold setup_report; repeat runs_step].
  apply runs_only_in_order. apply Forall_forall. intros c Hin.
  apply in_map_iff in Hin. destruct Hin as [p [<- Hp]].
  apply runs_only_later_phase. intros ->.
  unfold selected_phases in Hp. apply filter_In in Hp. destruct Hp as [_ Hp].
  cbn [flag_of] in Hp. congruence.
Qed.

(** X17.  Without [--clean] and [--full], whatever the other flags, the
    machine and the answers of the operator, the orchestrator runs no
    command but those of the four later scripts (the verification of the
    cleanup, the installation, the cuDNN configuration and the
    verification): it never runs the reboot command, and where the scripts
    have paths of their own it never runs the cleanup script. *)
Theorem cleanup_and_reboot_need_their_flags w depth args h :
  Setup.Args.clean args = false ->
  Setup.Args.full args = false ->
  incl (commands_run (snd (Setup.script w depth args h))) (later_commands w) /\
  ~ In shutdown_command (commands_run (snd (Setup.script w depth args h))) /\
  ((forall a b, beside_script w a = beside_script w b -> a = b) ->
   ~ In (powershell (beside_script w "cleanup.ps1"))
        (commands_run (snd (Setup.script w depth args h)))).
Proof.
  intros Hc Hf. pose proof (runs_only_script w depth args Hc Hf h) as H.
  split; [exact H |]. split.
  - intros Hin. apply H in Hin. unfold later_commands, powershell, python in Hin.
    cbn [In] in Hin. unfold shutdown_command in Hin.
    destruct Hin as [E | [E | [E | [E | []]]]]; discriminate.
  - intros Hinj Hin. apply H in Hin. unfold later_commands, powershell, python in Hin.
    cbn [In] in Hin.
    destruct Hin as [E | [E | [E | [E | []]]]]; try discriminate;
      injection E as E; apply Hinj in E; discriminate.
Qed.

Lemma cleanup_and_reboot_witness :
  commands_run (snd (Setup.script (windows_printing "") 1 setup_verify_cleanup_and_install [])) =
    [powershell "verify_cleanup.ps1"; powershell "install.ps1"] /\
  ~ In shutdown_command
      (commands_run (snd (Setup.script (windows_printing "") 1
                            setup_verify_cleanup_and_install []))).
Proof.
  split.
  - vm_compute. reflexivity.
  - exact (proj1 (proj2 (cleanup_and_reboot_need_their_flags
                           (windows_printing "") 1 setup_verify_cleanup_and_install []
                           eq_refl eq_refl))).
Defined.

(* ================================================================= *)
(** ** A check that raises *)

Lemma run_in_order_raises cs1 c cs2 e :
  forall h results t,
    run_in_order cs1 h = (Ret results, t) ->
    fst (c (h ++ t)%list) = Raise e ->
    run_in_order (cs1 ++ c :: cs2) h = (Raise e, (t ++ snd (c (h ++ t)%list))%list).
Proof.
  induction cs1 as [| c1 cs1 IH]; intros h results t E Hc.
  - cbn in E. injection E as <- <-. cbn [app run_in_order]. rewrite app_nil_r in *.
    unfold bind. destruct (c h) as [r tc]. cbn [fst snd] in *. rewrite Hc. reflexivity.
  - cbn [app run_in_order] in *. unfold bind in E at 1. unfold bind at 1.
    destruct (c1 h) as [[b | e1 | x] t1]; try discriminate.
    unfold bind in E.
    destruct (run_in_order cs1 (h ++ t1)%list) as [[bs | e2 | x] t2] eqn:E1;
      try discriminate.
    cbn in E. injection E as <- <-. rewrite app_nil_r in *.
    rewrite app_assoc in Hc.
    unfold bind. rewrite (IH _ _ _ E1 Hc). rewrite <- !app_assoc. reflexivity.
Qed.

Lemma bind_raise_eq A B (m : M A) (k : A -> M B) h e t :
  m h = (Raise e, t) -> bind m k h = (Raise e, t).
Proof. intros E. unfold bind. rewrite E. reflexivity. Qed.

(** X18.  In the prober, an exception that a check raises is caught
    nowhere: when the checks selected before it have returned and it raises,
    the run ends with that exception right after the events of that check;
    no later check is run and no summary is printed. *)
Theorem raising_check_ends_the_prober w args h before c after results t e :
  TestCuda.selected args = (before ++ c :: after)%list ->
  run_in_order (map (TestCuda.framed w) before) (h ++ snd (TestCuda.preamble w h))%list =
    (Ret results, t) ->
  fst (TestCuda.framed w c (h ++ snd (TestCuda.preamble w h) ++ t)%list) = Raise e ->
  TestCuda.script w args h =
  (Raise e,
   (snd (TestCuda.preamble w h) ++ t ++
    snd (TestCuda.framed w c (h ++ snd (TestCuda.preamble w h) ++ t)%list))%list).
Proof.
  intros Hs Hr Hc. unfold TestCuda.script.
  unfold bind at 1. rewrite (prober_main_structure w args h), Hs, map_app. cbn [map].
  destruct (preamble_run w h) as [tp Hp]. rewrite Hp in *. cbn [snd] in *.
  unfold bind at 1. rewrite Hp.
  rewrite app_assoc in Hc.
  rewrite (bind_raise_eq _ _ _ _ _ _ _
             (run_in_order_raises _ _ (map (TestCuda.framed w) after) e _ _ _ Hr Hc)).
  rewrite <- !app_assoc. reflexivity.
Qed.

Lemma raising_check_witness :
  TestCuda.script driver_without_colon prober_all [] =
  (Raise IndexError,
   (snd (TestCuda.preamble driver_without_colon []) ++ [] ++
    snd (TestCuda.framed driver_without_colon TestCuda.Driver
           ([] ++ snd (TestCuda.preamble driver_without_colon []) ++ [])%list))%list).
Proof.
  apply (raising_check_ends_the_prober
           driver_without_colon prober_all []
           [] TestCuda.Driver [TestCuda.Nvcc; TestCuda.Pytorch; TestCuda.Compile]
           [] [] IndexError).
  - reflexivity.
  - reflexivity.
  - vm_compute. reflexivity.
Defined.

(** X19.  In the verifier on Windows, an exception that a check raises is
    caught nowhere: when the checks before it have returned and it raises,
    the run ends with that exception right after the events of that check;
    no later check is run and no summary is printed. *)
Theorem raising_check_ends_the_verifier w h before c after results t e :
  platform_system w = "Windows" ->
  map snd (Verify.checks w) = (before ++ c :: after)%list ->
  run_in_order (map (@Verify.framed) before) (h ++ snd (Verify.before_checks w h))%list =
    (Ret results, t) ->
  fst (Verify.framed c (h ++ snd (Verify.before_checks w h) ++ t)%list) = Raise e ->
  Verify.script w h =
  (Raise e,
   (snd (Verify.before_checks w h) ++ t ++
    snd (Verify.framed c (h ++ snd (Verify.before_checks w h) ++ t)%list))%list).
Proof.
  intros Hw Hs Hr Hc. rewrite (verifier_script_structure w Hw h), Hs, map_app. cbn [map].
  destruct (before_checks_run w h) as [tp Hp]. rewrite Hp in *. cbn [snd] in *.
  unfold bind at 1. rewrite Hp.
  rewrite app_assoc in Hc.
  rewrite (bind_raise_eq _ _ _ _ _ _ _
             (run_in_order_raises _ _ (map (@Verify.framed) after) e _ _ _ Hr Hc)).
  rewrite <- !app_assoc. reflexivity.
Qed.

Lemma raising_check_in_verifier_witness :
  fst (Verify.script capital_release []) = Raise IndexError /\
  printed (log_line (status_color Info) Info "Resumen de la verificación:")
    (snd (Verify.script capital_release [])) = false.
Proof.
  pose proof (raising_check_ends_the_verifier capital_release []
                [Verify.check_python capital_release;
                 Verify.check_visual_studio capital_release]
                (Verify.check_cuda capital_release)
                [Verify.check_pytorch capital_release;
                 Verify.check_ml_libraries capital_release]
                [true; false]
                (snd (run_in_order
                        (map (@Verify.framed)
                           [Verify.check_python capital_release;
                            Verify.check_visual_studio capital_release])
                        ([] ++ snd (Verify.before_checks capital_release []))%list))
                IndexError eq_refl eq_refl) as H.
  rewrite H.
  - split; [reflexivity | vm_compute; reflexivity].
  - vm_compute. reflexivity.
  - vm_compute. reflexivity.
Defined.

(* ================================================================= *)
(** ** The report on the system *)

Lemma print_gpu_info_runs_nothing lines :
  forall h, commands_run (snd (Verify.print_gpu_info lines h)) = [].
Proof.
  induction lines as [| line rest IH]; intros h; cbn [Verify.print_gpu_info].
  - reflexivity.
  - rewrite snd_bind.
    assert (E : forall h', exists t,
              (if Py.contains "NVIDIA" line && Py.contains "GPU" line
               then log ("   - GPU: " ++ Py.strip line) Info
               else if Py.contains "Driver Version" line
                    then log ("   - Driver NVIDIA: " ++ Py.strip line) Info
                    else if Py.contains "CUDA Version" line
                         then log ("   - CUDA Version (driver): " ++ Py.strip line) Info
                         else ret tt) h' = (Ret tt, t) /\ commands_run t = []).
    { intros h'. destruct (_ && _); [eexists; split; reflexivity |].
      destruct (Py.contains "Driver Version" line); [eexists; split; reflexivity |].
      destruct (Py.contains "CUDA Version" line); eexists; split; reflexivity. }
    destruct (E h) as [t [-> Ht]]. cbn [fst snd].
    rewrite commands_run_app, Ht, IH. reflexivity.
Qed.

(** X20.  The report on the system with which the verifier begins cannot
    end the run: whatever the driver tool prints and however it ends, the
    report returns, and it has run that one command. *)
Theorem system_report_always_returns w h :
  fst (Verify.print_system_info w h) = Ret tt /\
  commands_run (snd (Verify.print_system_info w h)) = [ShellCmd "nvidia-smi"].
Proof.
  split; [apply print_system_info_returns |].
  unfold Verify.print_system_info.
  repeat (rewrite snd_bind; cbn [log print emit fst snd app commands_run]).
  rewrite run_command_eq. cbn [fst snd commands_run app].
  destruct (subprocess_run w _ _) as [out err rc | msg].
  - destruct (rc =? 0)%Z; [| reflexivity].
    rewrite print_gpu_info_runs_nothing. reflexivity.
  - reflexivity.
Qed.

(* ================================================================= *)
(** ** The summary of the verifier *)

Lemma summarize_run items :
  forall acc h,
    Verify.summarize items acc h =
    (Ret (acc && all_true (map snd items)),
     map (fun item => Printed (summary_line item)) items).
Proof.
  induction items as [| [name result] rest IH]; intros acc h;
    cbn [Verify.summarize map snd all_true forallb].
  - rewrite andb_true_r. reflexivity.
  - unfold bind. cbn [log print emit]. rewrite IH. cbn [app].
    unfold summary_line. cbn [fst snd].
    destruct result, acc; reflexivity.
Qed.

Lemma verifier_report_run w results h :
  length results = 5 ->
  Verify.report w results h =
  (Ret (all_true results), summary (map fst (Verify.checks w)) results).
Proof.
  intros Hlen.
  destruct results as [| b1 [| b2 [| b3 [| b4 [| b5 [| b6 rest]]]]]]; try discriminate.
  unfold Verify.report, summary.
  unfold bind at 1. cbn [print emit].
  unfold bind at 1. cbn [log print emit].
  unfold bind at 1. rewrite summarize_run.
  unfold Verify.checks. cbn [map fst snd combine all_true forallb andb app].
  destruct b1, b2, b3, b4, b5; reflexivity.
Qed.

Lemma run_all_checks_structure w :
  Verify.run_all_checks w =~
  (opening w ;;
   results <- run_in_order (map (@Verify.framed) (map snd (Verify.checks w))) ;;
   Verify.report w results).
Proof.
  unfold Verify.run_all_checks, opening, Verify.report, Verify.framed.
  unfold Verify.checks. cbn [map snd fst Verify.run_checks run_in_order].
  sync. reflexivity.
Qed.

Lemma opening_run w h : exists t, opening w h = (Ret tt, t).
Proof.
  assert (H : fst (opening w h) = Ret tt).
  { unfold opening.
    repeat (rewrite fst_bind; cbn [log print emit fst snd]).
    rewrite print_system_info_returns. reflexivity. }
  destruct (opening w h) as [r t]. cbn in H. subst r. eexists; reflexivity.
Qed.

(** X21.  When the five checks that [run_all_checks] runs have returned, it
    ends with the summary: a line for each check, in the order of the
    checks, that says PASS when the check returned true and FAIL when it
    returned false, and the closing line or lines that fit the results; it
    returns true exactly when no line says FAIL. *)
Theorem summary_names_every_check w h results t :
  run_in_order (map (@Verify.framed) (map snd (Verify.checks w)))
    (h ++ snd (opening w h))%list = (Ret results, t) ->
  Verify.run_all_checks w h =
    (Ret (all_true results),
     (snd (opening w h) ++ t ++ summary (map fst (Verify.checks w)) results)%list) /\
  length (combine (map fst (Verify.checks w)) results) = 5 /\
  (all_true results = true <->
   forall item, In item (combine (map fst (Verify.checks w)) results) -> snd item = true).
Proof.
  intros Hr.
  assert (Hlen : length results = 5).
  { pose proof (run_in_order_length (map (@Verify.framed) (map snd (Verify.checks w)))
                  (h ++ snd (opening w h))%list results)
      as Hl.
    rewrite Hr in Hl. specialize (Hl eq_refl). rewrite !length_map in Hl. exact Hl. }
  split; [| split].
  - rewrite (run_all_checks_structure w h).
    destruct (opening_run w h) as [tp Hp]. rewrite Hp in *. cbn [snd] in *.
    unfold bind at 1. rewrite Hp.
    unfold bind at 1. rewrite Hr.
    rewrite (verifier_report_run w results _ Hlen). rewrite ?app_nil_r. reflexivity.
  - rewrite length_combine, length_map, Hlen. reflexivity.
  - destruct results as [| b1 [| b2 [| b3 [| b4 [| b5 [| b6 rest]]]]]]; try discriminate.
    unfold Verify.checks. cbn [map fst combine all_true forallb].
    split.
    + intros H item Hin. cbn [In] in Hin.
      destruct b1, b2, b3, b4, b5; try discriminate;
        destruct Hin as [<- | [<- | [<- | [<- | [<- | []]]]]]; reflexivity.
    + intros H.
      pose proof (H ("Python 3.10", b1)) as H1.
      pose proof (H ("Visual Studio 2022", b2)) as H2.
      pose proof (H ("CUDA 12.4", b3)) as H3.
      pose proof (H ("PyTorch con CUDA", b4)) as H4.
      pose proof (H ("Bibliotecas ML/NLP", b5)) as H5.
      cbn [In snd] in H1, H2, H3, H4, H5.
      rewrite H1, H2, H3, H4, H5 by auto 10. reflexivity.
Qed.

Lemma summary_witness :
  fst (Verify.run_all_checks linux_without_cl []) = Ret false /\
  printed (summary_line ("Visual Studio 2022", false))
    (snd (Verify.run_all_checks linux_without_cl [])) = true /\
  printed (summary_line ("CUDA 12.4", true))
    (snd (Verify.run_all_checks linux_without_cl [])) = true.
Proof.
  pose proof (summary_names_every_check linux_without_cl []
                [true; false; true; true; true]
                (snd (run_in_order
                        (map (@Verify.framed) (map snd (Verify.checks linux_without_cl)))
                        ([] ++ snd (opening linux_without_cl []))%list))) as H.
  destruct H as [H _]; [vm_compute; reflexivity |].
  rewrite H. repeat split; vm_compute; reflexivity.
Defined.

(* ================================================================= *)
(** ** A full run asked for with [--clean] *)

(** X22.  In a full run whose cleanup phase returned true, the verification
    of the cleanup is run once more before the installation when
    [--verify-cleanup] is given or [--clean] is not; when [--clean] is given
    and [--verify-cleanup] is not, the installation follows the cleanup
    phase at once, and nothing is asked about the verification. *)
Theorem full_run_with_clean_skips_verification w depth args h t1 :
  Setup.Args.full args = true ->
  Setup.process_cleanup w depth (h ++ banner_lines)%list = (Ret true, t1) ->
  (Setup.Args.verify_cleanup args || negb (Setup.Args.clean args) = false ->
   Setup.run_phases w depth args h =
   (fst (Setup.finish_phases w args true (h ++ banner_lines ++ t1)%list),
    (banner_lines ++ t1 ++
     snd (Setup.finish_phases w args true (h ++ banner_lines ++ t1)%list))%list)) /\
  (Setup.Args.verify_cleanup args || negb (Setup.Args.clean args) = true ->
   exists t',
     snd (Setup.run_phases w depth args h) =
     (banner_lines ++ t1 ++
      snd (Setup.verify_cleanup w (h ++ banner_lines ++ t1)%list) ++ t')%list).
Proof.
  intros Hf E.
  assert (Hrun : Setup.run_phases w depth args h =
            (fst ((Setup.or_return
                     (if Setup.Args.verify_cleanup args || negb (Setup.Args.clean args) then
                        verified <- Setup.verify_cleanup w ;;
                        if negb (verified && true) then
                          proceed <- input w override_question ;;
                          if negb (Py.upper proceed =? "S")%string then
                            Setup.log "Instalación cancelada por el usuario." Info ;;
                            ret (inl 1%Z)
                          else ret (inr (verified && true))
                        else ret (inr (verified && true))
                      else ret (inr true))
                     (Setup.finish_phases w args)) (h ++ banner_lines ++ t1)%list),
             (banner_lines ++ t1 ++
              snd ((Setup.or_return
                      (if Setup.Args.verify_cleanup args || negb (Setup.Args.clean args) then
                         verified <- Setup.verify_cleanup w ;;
                         if negb (verified && true) then
                           proceed <- input w override_question ;;
                           if negb (Py.upper proceed =? "S")%string then
                             Setup.log "Instalación cancelada por el usuario." Info ;;
                             ret (inl 1%Z)
                           else ret (inr (verified && true))
                         else ret (inr (verified && true))
                       else ret (inr true))
                      (Setup.finish_phases w args)) (h ++ banner_lines ++ t1)%list))%list)).
  { unfold Setup.run_phases.
    rewrite (bind_ret_eq _ _ _ _ h tt banner_lines (banner_run h)).
    rewrite Hf, orb_true_r. cbn [andb].
    unfold Setup.or_return at 1 3.
    rewrite !(bind_assoc _ _ _ (Setup.process_cleanup w depth) _ _ (h ++ banner_lines)%list).
    rewrite !(bind_ret_eq _ _ _ _ _ true t1 E). cbn [andb negb fst snd].
    repeat match goal with
    | |- context [bind (ret ?a) ?k ?h'] => rewrite (ret_bind _ _ a k h')
    end.
    rewrite <- ?app_assoc. reflexivity. }
  rewrite Hrun. cbn [snd]. split.
  - intros Hv. rewrite Hv. unfold Setup.or_return.
    repeat match goal with
    | |- context [bind (ret ?a) ?k ?h'] => rewrite (ret_bind _ _ a k h')
    end.
    reflexivity.
  - intros Hv. rewrite Hv. unfold Setup.or_return.
    repeat match goal with
    | |- context [bind (bind ?m ?f) ?g ?h'] => rewrite (bind_assoc _ _ _ m f g h')
    end.
    match goal with
    | |- context [snd (bind ?m ?k ?h')] =>
        destruct (snd_bind_prefix _ _ m k h') as [t' ->]
    end.
    exists t'. rewrite <- ?app_assoc. reflexivity.
Qed.

Lemma full_run_with_clean_witness :
  commands_run (snd (Setup.run_phases declining_windows 1 setup_full_and_clean [])) =
    [powershell "cleanup.ps1"; powershell "verify_cleanup.ps1"; powershell "install.ps1";
     Argv ["python"; "verify.py"]] /\
  exists t',
    snd (Setup.run_phases declining_windows 1 setup_full_clean_and_verify_cleanup []) =
    (banner_lines ++
     snd (Setup.process_cleanup declining_windows 1 ([] ++ banner_lines)%list) ++
     snd (Setup.verify_cleanup declining_windows
            ([] ++ banner_lines ++
             snd (Setup.process_cleanup declining_windows 1 ([] ++ banner_lines)%list))%list)
     ++ t')%list.
Proof.
  split.
  - pose proof (full_run_with_clean_skips_verification
                  declining_windows 1 setup_full_and_clean []
                  (snd (Setup.process_cleanup declining_windows 1 ([] ++ banner_lines)%list))
                  eq_refl) as H.
    destruct H as [H _]; [vm_compute; reflexivity |].
    rewrite (H eq_refl). vm_compute. reflexivity.
  - pose proof (full_run_with_clean_skips_verification
                  declining_windows 1 setup_full_clean_and_verify_cleanup []
                  (snd (Setup.process_cleanup declining_windows 1 ([] ++ banner_lines)%list))
                  eq_refl) as H.
    destruct H as [_ H]; [vm_compute; reflexivity |].
    exact (H eq_refl).
Defined.

(** The full run with [--clean] runs the verification script once, the one
    with [--clean] and [--verify-cleanup] and the one without either run it
    twice. *)
Example verification_scripts_of_full_runs :
  commands_run (snd (Setup.run_phases declining_windows 1
                       setup_full_clean_and_verify_cleanup [])) =
    [powershell "cleanup.ps1"; powershell "verify_cleanup.ps1";
     powershell "verify_cleanup.ps1"; powershell "install.ps1";
     Argv ["python"; "verify.py"]] /\
  commands_run (snd (Setup.run_phases declining_windows 1 setup_full [])) =
    [powershell "cleanup.ps1"; powershell "verify_cleanup.ps1";
     powershell "verify_cleanup.ps1"; powershell "install.ps1";
     Argv ["python"; "verify.py"]].
Proof. split; vm_compute; reflexivity. Qed.
